(** * yo: notification pipeline -- store, leader lease, rate limits,
      event classifier and dispatcher

    A shallow embedding of [yo/db.py], [yo/ratelimits.py],
    [yo/services/blockchain_follower.py] and
    [yo/services/notification_sender.py].

    Conventions of the embedding:
    - a [datetime] is the number of microseconds since an arbitrary epoch
      ([Z]); [timedelta(seconds=s)] is [s * 1000000];
    - a SQL table is the list of its rows in insertion order;
    - [datetime.datetime.now()] is an explicit argument [now] of every
      store method (each method reads the clock once);
    - a Python exception is the [Raise] outcome of a computation. *)

From Stdlib Require Import ZArith Lia Ascii String Sorted.
From stdpp Require Import base option list strings pretty gmap.

Local Open Scope string_scope.
Local Open Scope list_scope.
Local Open Scope Z_scope.

(** ** Exceptions and outcomes *)

Inductive exn : Type :=
  | OperationalError                 (* sqlalchemy: execute on an unavailable engine *)
  | KeyError (key : string)          (* dict lookup of a missing key *)
  | IndexError                       (* list index out of range *)
  | NameError (name : string)        (* unbound variable *)
  | AttributeError (attr : string)   (* attribute of None *)
  | TypeError                        (* operand of the wrong type *)
  | JSONDecodeError                  (* json.loads on malformed text *)
  | TransportError.                  (* anything a transport's send raises *)

Inductive outcome (A : Type) : Type :=
  | Ret (a : A)
  | Raise (e : exn).
Arguments Ret {A} a.
Arguments Raise {A} e.

(** ** Time *)

Definition datetime := Z.

Definition timedelta_seconds (s : Z) : Z := s * 1000000.

(** ** db.py: Priority *)

Module Priority.
Definition MARKETING : Z := 1.
Definition LOW : Z := 2.
Definition NORMAL : Z := 3.
Definition PRIORITY : Z := 4.
Definition ALWAYS : Z := 5.
End Priority.

(** ** db.py: tables *)

(** [notifications_table].  [from_username] and [trx_id] are nullable. *)
Record Notification : Type := mkNotification {
  n_nid : string;
  n_notify_type : string;
  n_to_username : string;
  n_from_username : option string;
  n_json_data : string;
  n_priority_level : Z;
  n_created_at : datetime;
  n_trx_id : option string
}.

(** [actions_table]. *)
Record Action : Type := mkAction {
  a_aid : Z;
  a_nid : string;
  a_to_username : string;
  a_transport : string;
  a_priority_level : Z;
  a_status : string;
  a_created_at : datetime
}.

(** A user's transports object: transport name to its enabled notification
    types and its sub data, in the key order of the JSON object. *)
Record TransportData : Type := mkTransportData {
  notification_types : list string;
  sub_data : string
}.

Definition Transports := list (string * TransportData).

(** [user_settings_table]; the [transports] column holds
    [json.dumps] of the object and is read back with [json.loads]. *)
Record UserSettings : Type := mkUserSettings {
  us_username : string;
  us_transports : Transports
}.

(** [chain_status_table].  [last_processed_block] is NULL when the row was
    inserted by [try_active_follower] without a block number. *)
Record ChainStatus : Type := mkChainStatus {
  status_id : Z;
  last_processed_block : option Z;
  last_processed_time : datetime;
  lock_expires : datetime;
  active_follower_id : string
}.

(** [YoDatabase]: the tables behind the engine.  While [engine_ok] is
    [false] every [conn.execute] raises. *)
Record YoDatabase : Type := mkDb {
  notifications : list Notification;
  actions : list Action;
  user_settings : list UserSettings;
  chain_status : list ChainStatus;
  engine_ok : bool
}.

Definition with_notifications (db : YoDatabase) (ns : list Notification) :=
  mkDb ns (actions db) (user_settings db) (chain_status db) (engine_ok db).
Definition with_actions (db : YoDatabase) (acts : list Action) :=
  mkDb (notifications db) acts (user_settings db) (chain_status db) (engine_ok db).
Definition with_user_settings (db : YoDatabase) (us : list UserSettings) :=
  mkDb (notifications db) (actions db) us (chain_status db) (engine_ok db).
Definition with_chain_status (db : YoDatabase) (cs : list ChainStatus) :=
  mkDb (notifications db) (actions db) (user_settings db) cs (engine_ok db).

(** ** db.py: the chain status row (leader lease) *)

(** [get_chain_status]: [fetchone] of an unordered select; no handler
    around the execute. *)
Definition get_chain_status (db : YoDatabase) : outcome (option ChainStatus) :=
  if engine_ok db then Ret (head (chain_status db)) else Raise OperationalError.

(** SQL comparison with a nullable column: NULL compares as unknown, and a
    WHERE clause keeps only rows where the condition is true. *)
Definition sql_le_nullable (col : option Z) (v : Z) : bool :=
  match col with
  | Some c => c <=? v
  | None => false
  end.

(** The WHERE clause of the update in [try_update_status]. *)
Definition update_status_where (follower_id : string) (new_block : Z)
    (r : ChainStatus) : bool :=
  String.eqb (active_follower_id r) follower_id
  && sql_le_nullable (last_processed_block r) new_block.

Definition update_status_row (now : datetime) (follower_id : string)
    (new_block lock_timeout : Z) (r : ChainStatus) : ChainStatus :=
  if update_status_where follower_id new_block r then
    mkChainStatus (status_id r) (Some new_block) now
      (now + timedelta_seconds lock_timeout) (active_follower_id r)
  else r.

(** [try_update_status]: the guarded update runs under a handler that rolls
    back; the method then returns [get_chain_status()]. *)
Definition try_update_status (db : YoDatabase) (now : datetime)
    (follower_id : string) (last_processed_block : Z) (lock_timeout : Z)
    : outcome (option ChainStatus) * YoDatabase :=
  let db' :=
    if engine_ok db then
      with_chain_status db
        (map (update_status_row now follower_id last_processed_block lock_timeout)
             (chain_status db))
    else db in
  (get_chain_status db', db').

(** Next value of an integer primary key. *)
Definition next_id {A} (key : A -> Z) (rows : list A) : Z :=
  1 + foldr (fun r m => Z.max (key r) m) 0 rows.

(** The WHERE clause of the update in [try_active_follower]. *)
Definition active_follower_where (now : datetime) (r : ChainStatus) : bool :=
  lock_expires r <=? now.

Definition active_follower_row (now : datetime) (follower_id : string)
    (lock_timeout : Z) (r : ChainStatus) : ChainStatus :=
  if active_follower_where now r then
    mkChainStatus (status_id r) (last_processed_block r) (last_processed_time r)
      (now + timedelta_seconds lock_timeout) follower_id
  else r.

(** [try_active_follower]: the first select is outside the handler; an
    empty table gets a fresh row, otherwise the guarded update runs. *)
Definition try_active_follower (db : YoDatabase) (now : datetime)
    (follower_id : string) (last_processed_block : option Z) (lock_timeout : Z)
    : outcome (option ChainStatus) * YoDatabase :=
  if engine_ok db then
    let db' :=
      match chain_status db with
      | [] =>
          with_chain_status db
            [mkChainStatus (next_id status_id []) last_processed_block now
               (now + timedelta_seconds lock_timeout) follower_id]
      | rows =>
          with_chain_status db
            (map (active_follower_row now follower_id lock_timeout) rows)
      end in
    (get_chain_status db', db')
  else (Raise OperationalError, db).

(** ** db.py: errors of the engine *)

(** What [conn.execute] raises.  The messages are SQLite's. *)
Inductive sql_error : Type :=
  | SqlIntegrityError (msg : string)
  | SqlInterfaceError                (* a parameter of an unsupported type *)
  | SqlOperationalError.

(** A Python value bound to a text column: a string, NULL ([None] or an
    absent keyword), or a value the driver cannot bind. *)
Inductive sql_param : Type :=
  | SqlText (s : string)
  | SqlNull
  | SqlUnsupported.

Definition lower_char (c : ascii) : ascii :=
  let n := Ascii.nat_of_ascii c in
  if ((65 <=? n) && (n <=? 90))%nat then Ascii.ascii_of_nat (n + 32) else c.

(** [str.lower()] on ASCII letters. *)
Fixpoint str_lower (s : string) : string :=
  match s with
  | EmptyString => EmptyString
  | String c s' => String (lower_char c) (str_lower s')
  end.

(** [needle in hay]. *)
Fixpoint str_contains (needle hay : string) : bool :=
  String.prefix needle hay ||
  match hay with
  | EmptyString => false
  | String _ hay' => str_contains needle hay'
  end.

Definition is_duplicate_entry_error (error : sql_error) : bool :=
  match error with
  | SqlIntegrityError msg => str_contains "unique" (str_lower msg)
  | SqlInterfaceError => false
  | SqlOperationalError => false
  end.

Definition msg_notifications_pk : string :=
  "(sqlite3.IntegrityError) UNIQUE constraint failed: yo_notifications.nid".
Definition msg_notifications_idx : string :=
  "(sqlite3.IntegrityError) UNIQUE constraint failed: yo_notifications.to_username, yo_notifications.notify_type, yo_notifications.trx_id, yo_notifications.from_username".
Definition msg_notifications_to_username : string :=
  "(sqlite3.IntegrityError) NOT NULL constraint failed: yo_notifications.to_username".

(** ** db.py: notifications *)

(** Equality of two nullable columns inside a UNIQUE constraint: a NULL is
    distinct from every value, NULL included. *)
Definition unique_col_eq (a b : option string) : bool :=
  match a, b with
  | Some x, Some y => String.eqb x y
  | _, _ => false
  end.

(** [yo_notification_idx]: UNIQUE (to_username, notify_type, trx_id,
    from_username). *)
Definition notification_idx_conflict (a b : Notification) : bool :=
  String.eqb (n_to_username a) (n_to_username b)
  && String.eqb (n_notify_type a) (n_notify_type b)
  && unique_col_eq (n_trx_id a) (n_trx_id b)
  && unique_col_eq (n_from_username a) (n_from_username b).

(** [conn.execute(notifications_table.insert(), **row)] once the
    parameters are bound. *)
Definition insert_notification (db : YoDatabase) (row : Notification)
    : option sql_error * YoDatabase :=
  if negb (engine_ok db) then (Some SqlOperationalError, db)
  else if existsb (fun r => String.eqb (n_nid r) (n_nid row)) (notifications db)
  then (Some (SqlIntegrityError msg_notifications_pk), db)
  else if existsb (notification_idx_conflict row) (notifications db)
  then (Some (SqlIntegrityError msg_notifications_idx), db)
  else (None, with_notifications db (notifications db ++ [row])).

(** The keyword arguments of [create_notification]. *)
Record NotificationObject : Type := mkNotificationObject {
  no_nid : option string;
  no_trx_id : sql_param;
  no_from_username : sql_param;
  no_to_username : sql_param;
  no_json_data : string;
  no_notify_type : string;
  no_priority_level : Z
}.

Definition nullable_text (p : sql_param) : option (option string) :=
  match p with
  | SqlText s => Some (Some s)
  | SqlNull => Some None
  | SqlUnsupported => None
  end.

(** Binding the keyword arguments to the columns of a row: an unsupported
    value is an InterfaceError, a NULL [to_username] violates NOT NULL. *)
Definition bind_notification (nid : string) (now : datetime)
    (o : NotificationObject) : sql_error + Notification :=
  match nullable_text (no_trx_id o), nullable_text (no_from_username o),
        no_to_username o with
  | Some trx_id, Some from_username, SqlText to_username =>
      inr (mkNotification nid (no_notify_type o) to_username from_username
             (no_json_data o) (no_priority_level o) now trx_id)
  | Some _, Some _, SqlNull =>
      inl (SqlIntegrityError msg_notifications_to_username)
  | _, _, _ => inl SqlInterfaceError
  end.

(** [create_notification]; [uuid] is what [str(uuid.uuid4())] returns when
    the object has no ['nid'].  Every path of the handler falls through to
    the final [return False]. *)
Definition create_notification (db : YoDatabase) (now : datetime) (uuid : string)
    (notification_object : NotificationObject) : bool * YoDatabase :=
  let nid := match no_nid notification_object with
             | Some nid => nid
             | None => uuid
             end in
  let result :=
    if negb (engine_ok db) then (Some SqlOperationalError, db)
    else match bind_notification nid now notification_object with
         | inl e => (Some e, db)
         | inr row => insert_notification db row
         end in
  match result with
  | (None, db') => (true, db')
  | (Some e, db') =>
      if is_duplicate_entry_error e
      then (false, db')   (* 'Ignoring duplicate entry error' *)
      else (false, db')   (* 'failed to add notification', rollback *)
  end.

(** [_create_notification], the sibling used for any table; on the
    notifications table it differs from [create_notification] in what it
    returns on a duplicate. *)
Definition _create_notification (db : YoDatabase) (row : Notification)
    : bool * YoDatabase :=
  match insert_notification db row with
  | (None, db') => (true, db')
  | (Some e, db') =>
      if is_duplicate_entry_error e then (true, db') else (false, db')
  end.

(** [mark_sent]: the handler names an unbound variable [nid], so a failing
    insert surfaces as a NameError. *)
Definition mark_sent (db : YoDatabase) (now : datetime)
    (notification_object : Notification) (transport : string)
    : outcome unit * YoDatabase :=
  if engine_ok db then
    (Ret tt,
     with_actions db
       (actions db ++
        [mkAction (next_id a_aid (actions db)) (n_nid notification_object)
           (n_to_username notification_object) transport
           (n_priority_level notification_object) "Sent" now]))
  else (Raise (NameError "nid"), db).

(** The WHERE clauses of [get_priority_count]. *)
Definition priority_count_where (to_username : string) (priority : Z)
    (start_time : datetime) (a : Action) : bool :=
  String.eqb (a_to_username a) to_username
  && (priority <=? a_priority_level a)
  && (start_time <=? a_created_at a).

(** [get_priority_count]. *)
Definition get_priority_count (db : YoDatabase) (now : datetime)
    (to_username : string) (priority : Z) (timeframe : Z)
    (start_time : option datetime) : Z :=
  let start_time := match start_time with
                    | Some t => t
                    | None => now - timedelta_seconds timeframe
                    end in
  let retval :=
    if engine_ok db then
      Z.of_nat (length (List.filter
                          (priority_count_where to_username priority start_time)
                          (actions db)))
    else 0 in
  if retval <? 0 then 0 else retval.

(** ** ratelimits.py *)

(** [check_ratelimit].  [now] is the clock reading of the
    [get_priority_count] call whose result is returned; the LOW branch's
    first call only feeds a log line. *)
Definition check_ratelimit (db : YoDatabase) (now : datetime)
    (notification_object : Notification) (override : bool) : bool :=
  let notification_priority := n_priority_level notification_object in
  let to_username := n_to_username notification_object in
  if notification_priority =? Priority.ALWAYS then
    get_priority_count db now to_username Priority.ALWAYS 3600 None <? 10
  else if notification_priority =? Priority.PRIORITY then
    if override then
      get_priority_count db now to_username Priority.PRIORITY 3600 None <=? 10
    else
      get_priority_count db now to_username Priority.PRIORITY 3600 None <=? 1
  else if notification_priority =? Priority.NORMAL then
    if override then
      get_priority_count db now to_username Priority.NORMAL 60 None <? 3
    else
      get_priority_count db now to_username Priority.NORMAL 60 None <=? 1
  else if notification_priority =? Priority.LOW then
    if override then
      get_priority_count db now to_username Priority.LOW 3600 None <? 10
    else
      get_priority_count db now to_username Priority.LOW 3600 None =? 0
  else if notification_priority =? Priority.MARKETING then
    if override then
      get_priority_count db now to_username Priority.MARKETING 86400 None <=? 1
    else
      get_priority_count db now to_username Priority.MARKETING 3600 None <=? 1
  else false.

(** ** db.py: unsent notifications and user settings *)

(** A dict filled with [if k not in d: d[k] = []; d[k].append(v)], in
    insertion order of its keys. *)
Fixpoint dict_append {A} (k : string) (v : A) (d : list (string * list A))
    : list (string * list A) :=
  match d with
  | [] => [(k, [v])]
  | (k', vs) :: d' =>
      if String.eqb k' k then (k', vs ++ [v]) :: d'
      else (k', vs) :: dict_append k v d'
  end.

(** The compound select of [get_wwwpoll_unsents]: notification ids EXCEPT
    the ids of actions joined to their notification.  EXCEPT returns each
    id once; the order of its rows is the engine's, taken here as the
    table's. *)
Definition unsent_nids (db : YoDatabase) : list string :=
  let sent := flat_map (fun a =>
                map n_nid (List.filter (fun n => String.eqb (a_nid a) (n_nid n))
                                       (notifications db)))
              (actions db) in
  List.nodup string_dec
    (List.filter (fun nid => negb (existsb (String.eqb nid) sent))
                 (map n_nid (notifications db))).

(** [get_wwwpoll_unsents]: no handler around the executes. *)
Definition get_wwwpoll_unsents (db : YoDatabase)
    : outcome (list (string * list Notification)) :=
  if engine_ok db then
    Ret (fold_left
           (fun retval nid =>
              match List.find (fun n => String.eqb (n_nid n) nid) (notifications db) with
              | Some row => dict_append (n_to_username row) row retval
              | None => retval
              end)
           (unsent_nids db) [])
  else Raise OperationalError.

Definition ALL_NOTIFY_TYPES : list string :=
  ["power_down"; "power_up"; "resteem"; "feed"; "reward"; "send"; "mention";
   "follow"; "vote"; "comment_reply"; "post_reply"; "account_update";
   "message"; "receive"].

Definition DEFAULT_USER_TRANSPORT_SETTINGS : Transports :=
  [("email", mkTransportData [] "{}");
   ("wwwpoll", mkTransportData ALL_NOTIFY_TYPES "{}")].

(** [create_user]: any failure of the insert is caught. *)
Definition create_user (db : YoDatabase) (username : string)
    (transports : option Transports) : bool * YoDatabase :=
  let transports := match transports with
                    | Some t => t
                    | None => DEFAULT_USER_TRANSPORT_SETTINGS
                    end in
  if negb (engine_ok db) then (false, db)
  else if existsb (fun u => String.eqb (us_username u) username) (user_settings db)
  then (false, db)
  else (true, with_user_settings db
                (user_settings db ++ [mkUserSettings username transports])).

(** The select of [get_user_transports], under its handler. *)
Definition select_user_transports (db : YoDatabase) (username : string)
    : option Transports :=
  if engine_ok db then
    match List.find (fun u => String.eqb (us_username u) username) (user_settings db) with
    | Some results => Some (us_transports results)
    | None => None
    end
  else None.

(** [get_user_transports]: a user without settings is created with the
    defaults and looked up once more ([retry=True]). *)
Definition get_user_transports (db : YoDatabase) (username : string) (retry : bool)
    : option Transports * YoDatabase :=
  match select_user_transports db username with
  | Some retval => (Some retval, db)
  | None =>
      if retry then (None, db)
      else
        match create_user db username None with
        | (true, db') =>
            (* the recursive call, [retry=True]: it cannot recurse again *)
            (select_user_transports db' username, db')
        | (false, db') => (None, db')
        end
  end.

(** ** Python values read from JSON *)

(** What [json.loads] returns and what an operation of the event log is
    made of.  A [str] is a Rocq string, one character per code point below
    256; numbers are integers. *)
#[warnings="-register-all"]
Inductive json : Type :=
  | JNull
  | JBool (b : bool)
  | JNum (z : Z)
  | JStr (s : string)
  | JArr (items : list json)
  | JObj (fields : list (string * json)).

(** [a == b] on these values ([True == 1] and [False == 0] in Python). *)
Fixpoint json_eqb (a b : json) {struct a} : bool :=
  let fix list_eqb (l : list json) (r : list json) {struct l} : bool :=
    match l, r with
    | [], [] => true
    | x :: l', y :: r' => json_eqb x y && list_eqb l' r'
    | _, _ => false
    end in
  let fix has_field (k : string) (v : json) (r : list (string * json))
      {struct r} : bool :=
    match r with
    | [] => false
    | (k', v') :: r' =>
        if String.eqb k k' then json_eqb v v' else has_field k v r'
    end in
  let fix fields_in (l : list (string * json)) (r : list (string * json))
      {struct l} : bool :=
    match l with
    | [] => true
    | (k, v) :: l' => has_field k v r && fields_in l' r
    end in
  match a, b with
  | JNull, JNull => true
  | JBool x, JBool y => Bool.eqb x y
  | JBool x, JNum y => (if x then 1 else 0) =? y
  | JNum x, JBool y => x =? (if y then 1 else 0)
  | JNum x, JNum y => x =? y
  | JStr x, JStr y => String.eqb x y
  | JArr x, JArr y => list_eqb x y
  | JObj x, JObj y => (length x =? length y)%nat && fields_in x y
  | _, _ => false
  end.

Definition dict_get (k : string) (fields : list (string * json)) : option json :=
  match List.find (fun kv => String.eqb (fst kv) k) fields with
  | Some kv => Some (snd kv)
  | None => None
  end.

(** [j[i]] for an integer [i >= 0]. *)
Definition py_getitem_idx (j : json) (i : nat) : outcome json :=
  match j with
  | JArr items =>
      match nth_error items i with
      | Some x => Ret x
      | None => Raise IndexError
      end
  | JStr s =>
      match String.get i s with
      | Some c => Ret (JStr (String c EmptyString))
      | None => Raise IndexError
      end
  | JObj _ => Raise (KeyError (pretty (Z.of_nat i)))
  | _ => Raise TypeError
  end.

(** [j[k]] for a string [k]. *)
Definition py_getitem_key (j : json) (k : string) : outcome json :=
  match j with
  | JObj fields =>
      match dict_get k fields with
      | Some x => Ret x
      | None => Raise (KeyError k)
      end
  | _ => Raise TypeError
  end.

(** [len(j)]. *)
Definition py_len (j : json) : outcome nat :=
  match j with
  | JArr items => Ret (length items)
  | JStr s => Ret (String.length s)
  | JObj fields => Ret (length fields)
  | _ => Raise TypeError
  end.

(** [a + b] where [b] is a [str] literal or an already computed [str]. *)
Definition py_str_add (a : json) (b : string) : outcome string :=
  match a with
  | JStr s => Ret (s ++ b)%string
  | _ => Raise TypeError
  end.

(** A value bound to a text column by the SQLite driver: numbers are
    stored as their text, [None] as NULL, lists and dicts are refused. *)
Definition sql_param_of_json (j : json) : sql_param :=
  match j with
  | JStr s => SqlText s
  | JNum z => SqlText (pretty z)
  | JBool b => SqlText (if b then "1" else "0")
  | JNull => SqlNull
  | JArr _ | JObj _ => SqlUnsupported
  end.

(** ** blockchain_follower.py: MENTION_PATTERN

    [re.compile(r'@([a-z][a-z0-9\-]{2,15})\s')] *)

Definition char_code (c : ascii) : N := Ascii.N_of_ascii c.

(** [[a-z]] *)
Definition is_lower (c : ascii) : bool :=
  ((97 <=? char_code c) && (char_code c <=? 122))%N.

(** [[a-z0-9\-]] *)
Definition is_name_char (c : ascii) : bool :=
  (is_lower c
   || ((48 <=? char_code c) && (char_code c <=? 57))
   || (char_code c =? 45))%N.

(** [\s] of a [str] pattern: the Unicode whitespace below 256. *)
Definition is_space (c : ascii) : bool :=
  (((9 <=? char_code c) && (char_code c <=? 13))
   || ((28 <=? char_code c) && (char_code c <=? 32))
   || (char_code c =? 133)
   || (char_code c =? 160))%N.

(** Greedy part of [[a-z0-9\-]{2,15}]: how many characters the repetition
    takes at first, at most [n]. *)
Fixpoint greedy_run (n : nat) (s : string) : nat :=
  match n, s with
  | S n', String c s' => if is_name_char c then S (greedy_run n' s') else O
  | _, _ => O
  end.

Definition space_at (k : nat) (s : string) : bool :=
  match String.get k s with
  | Some c => is_space c
  | None => false
  end.

(** Backtracking: with the repetition holding [k] characters try [\s];
    on failure give one character back, down to the minimum of 2. *)
Fixpoint backtrack (k : nat) (s : string) : option nat :=
  if ((2 <=? k)%nat && space_at k s) then Some k
  else match k with
       | O => None
       | S k' => backtrack k' s
       end.

(** The pattern tried at the start of [s]: the captured group and the
    length of the whole match. *)
Definition match_here (s : string) : option (string * nat) :=
  match s with
  | String at_sign (String c rest) =>
      if (char_code at_sign =? 64)%N && is_lower c then
        match backtrack (greedy_run 15 rest) rest with
        | Some k => Some (String c (String.substring 0 k rest), (k + 3)%nat)
        | None => None
        end
      else None
  | _ => None
  end.

(** The scan of [re.finditer]: matches from left to right, the search
    resuming after the end of the previous match; [skip] characters are
    still inside the previous match, [pos] is the index of the head of
    [s] in the haystack.  Each match comes with its start. *)
Fixpoint finditer_from (skip pos : nat) (s : string) : list (nat * string) :=
  match s with
  | EmptyString => []
  | String _ s' =>
      match skip with
      | S skip' => finditer_from skip' (S pos) s'
      | O =>
          match match_here s with
          | Some (name, len) => (pos, name) :: finditer_from (len - 1) (S pos) s'
          | None => finditer_from 0 (S pos) s'
          end
      end
  end.

(** [re.findall(MENTION_PATTERN, haystack)]: with one group in the
    pattern, the list of what the group captured. *)
Definition findall_mentions (haystack : string) : list string :=
  map snd (finditer_from 0 0 haystack).

(** ** The services: state, effects and exceptions *)

(** One call of a transport's [send_notification]. *)
Record SendCall : Type := mkSendCall {
  sc_transport : string;
  sc_to_subdata : string;
  sc_to_username : string;
  sc_notify_type : string;
  sc_data : json
}.

(** A transport, by whether its [send_notification] returns ([true]) or
    raises ([false]) on a call. *)
Definition Transport := SendCall -> bool.

(** What the services act on: the database, the number of clock readings
    and uuid draws so far, and the calls made to transports, oldest
    first. *)
Record World : Type := mkWorld {
  w_db : YoDatabase;
  w_ticks : nat;
  w_uuids : nat;
  w_sends : list SendCall
}.

Definition Py (A : Type) : Type := World -> outcome A * World.

Definition ret {A} (a : A) : Py A := fun w => (Ret a, w).

Definition throw {A} (e : exn) : Py A := fun w => (Raise e, w).

Definition bind {A B} (m : Py A) (k : A -> Py B) : Py B :=
  fun w =>
    match m w with
    | (Ret a, w') => k a w'
    | (Raise e, w') => (Raise e, w')
    end.

Notation "'let*' x ':=' m 'in' k" := (bind m (fun x => k))
  (at level 10, x pattern, m at level 100, k at level 200).
Notation "m ';;' k" := (bind m (fun _ => k))
  (at level 100, k at level 200, right associativity).

(** [try: m  except: h] with a bare [except]. *)
Definition try_except {A} (m : Py A) (h : Py A) : Py A :=
  fun w =>
    match m w with
    | (Ret a, w') => (Ret a, w')
    | (Raise _, w') => h w'
    end.

Definition lift {A} (o : outcome A) : Py A := fun w => (o, w).

(** [for x in xs: body(x)] *)
Fixpoint for_each {A} (xs : list A) (body : A -> Py unit) : Py unit :=
  match xs with
  | [] => ret tt
  | x :: xs' => body x ;; for_each xs' body
  end.

(** [asyncio.gather(a, b)] of two coroutines that never suspend: both run
    to their end in order, then the first exception, if any, is raised. *)
Definition gather {A} (a b : Py A) : Py (list A) :=
  fun w =>
    let '(ra, w1) := a w in
    let '(rb, w2) := b w1 in
    match ra, rb with
    | Ret x, Ret y => (Ret [x; y], w2)
    | Raise e, _ => (Raise e, w2)
    | _, Raise e => (Raise e, w2)
    end.

Definition with_db (w : World) (db : YoDatabase) : World :=
  mkWorld db (w_ticks w) (w_uuids w) (w_sends w).

Section Services.

(** The surroundings of the services. *)
Variable clock : nat -> datetime.          (* the n-th reading of the clock *)
Variable uuid4 : nat -> string.            (* the n-th [str(uuid.uuid4())] *)
Variable json_loads : string -> option json.
Variable json_dumps : json -> string.
(** [steem.post.Post(parent_id).is_comment()], a remote call. *)
Variable post_is_comment : string -> outcome bool.
(** [self.configured_transports] of the notification sender. *)
Variable configured_transports : gmap string Transport.

(** [datetime.datetime.now()] *)
Definition now : Py datetime :=
  fun w => (Ret (clock (w_ticks w)),
            mkWorld (w_db w) (S (w_ticks w)) (w_uuids w) (w_sends w)).

Definition draw_uuid : Py string :=
  fun w => (Ret (uuid4 (w_uuids w)),
            mkWorld (w_db w) (w_ticks w) (S (w_uuids w)) (w_sends w)).

Definition loads (text : string) : Py json :=
  match json_loads text with
  | Some j => ret j
  | None => throw JSONDecodeError
  end.

(** *** blockchain_follower.py *)

(** The values a handler passes to [store_notification]. *)
Record Candidate : Type := mkCandidate {
  c_trx_id : string;
  c_from_username : option json;   (* [None]: keyword not passed *)
  c_to_username : json;
  c_json_data : string;
  c_notify_type : string;
  c_priority_level : Z
}.

Definition candidate_object (c : Candidate) : NotificationObject :=
  mkNotificationObject None (SqlText (c_trx_id c))
    (match c_from_username c with
     | Some j => sql_param_of_json j
     | None => SqlNull
     end)
    (sql_param_of_json (c_to_username c))
    (c_json_data c) (c_notify_type c) (c_priority_level c).

(** [store_notification]: the ['sent'] key names no column and is
    dropped by the insert; the result of [create_notification] is not
    looked at. *)
Definition store_notification (c : Candidate) : Py unit :=
  let* uuid := draw_uuid in
  let* t := now in
  fun w =>
    let '(_, db') := create_notification (w_db w) t uuid (candidate_object c) in
    (Ret tt, with_db w db').

(** One operation of the event log: [{'trx_id': ..., 'op': (name, data)}]. *)
Record Op : Type := mkOp {
  op_trx_id : string;
  op_name : string;
  op_data : json
}.

Definition VOTE := "vote".
Definition FOLLOW := "follow".
Definition RESTEEM := "resteem".
Definition ACCOUNT_UPDATE := "account_update".
Definition SEND_STEEM := "send".
Definition RECEIVE_STEEM := "receive".
Definition POWER_DOWN := "power_down".
Definition MENTION := "mention".
Definition COMMENT_REPLY := "comment_reply".
Definition POST_REPLY := "post_reply".

Definition handle_vote (op : Op) : Py bool :=
  let vote_info := op_data op in
  let* _ := lift (py_getitem_key vote_info "permlink") in
  let* _ := lift (py_getitem_key vote_info "author") in
  let* _ := lift (py_getitem_key vote_info "voter") in
  let* _ := lift (py_getitem_key vote_info "weight") in
  let* voter := lift (py_getitem_key vote_info "voter") in
  let* author := lift (py_getitem_key vote_info "author") in
  store_notification
    (mkCandidate (op_trx_id op) (Some voter) author (json_dumps vote_info)
       VOTE Priority.LOW) ;;
  ret true.

(** [handle_follow].  The format of the log line of the first rejection
    does not fit its argument; logging reports that on stderr and
    raises nothing. *)
Definition handle_follow (op : Op) : Py bool :=
  let data := op_data op in
  let* json_text := lift (py_getitem_key data "json") in
  let* follow_data :=
    match json_text with
    | JStr text => loads text
    | _ => throw TypeError
    end in
  let* tag := lift (py_getitem_idx follow_data 0) in
  if negb (json_eqb tag (JStr "follow")) then ret false
  else
    let* payload := lift (py_getitem_idx follow_data 1) in
    let* follower := lift (py_getitem_key payload "follower") in
    let* following := lift (py_getitem_key payload "following") in
    let* auths := lift (py_getitem_key data "required_posting_auths") in
    let* n := lift (py_len auths) in
    if negb (n =? 1)%nat then ret false
    else
      let* signer := lift (py_getitem_idx auths 0) in
      if negb (json_eqb signer follower) then ret false
      else
        store_notification
          (mkCandidate (op_trx_id op) (Some follower) following
             (json_dumps payload) FOLLOW Priority.LOW) ;;
        ret true.

Definition handle_account_update (op : Op) : Py bool :=
  let data := op_data op in
  let* account := lift (py_getitem_key data "account") in
  store_notification
    (mkCandidate (op_trx_id op) None account (json_dumps data)
       ACCOUNT_UPDATE Priority.LOW) ;;
  ret true.

(** The dict built by [handle_send] and [handle_receive]. *)
Definition transfer_data (data : json) : Py json :=
  let* amount := lift (py_getitem_key data "amount") in
  let* from := lift (py_getitem_key data "from") in
  let* memo := lift (py_getitem_key data "memo") in
  let* to := lift (py_getitem_key data "to") in
  ret (JObj [("amount", amount); ("from", from); ("memo", memo); ("to", to)]).

Definition handle_send (op : Op) : Py bool :=
  let* send_data := transfer_data (op_data op) in
  let* from := lift (py_getitem_key send_data "from") in
  store_notification
    (mkCandidate (op_trx_id op) None from (json_dumps send_data)
       SEND_STEEM Priority.LOW) ;;
  ret true.

Definition handle_receive (op : Op) : Py bool :=
  let* receive_data := transfer_data (op_data op) in
  let* to := lift (py_getitem_key receive_data "to") in
  let* from := lift (py_getitem_key receive_data "from") in
  store_notification
    (mkCandidate (op_trx_id op) (Some from) to (json_dumps receive_data)
       RECEIVE_STEEM Priority.LOW) ;;
  ret true.

Definition handle_power_down (op : Op) : Py bool :=
  let data := op_data op in
  let* account := lift (py_getitem_key data "account") in
  let* _ := lift (py_getitem_key data "vesting_shares") in
  store_notification
    (mkCandidate (op_trx_id op) None account (json_dumps data)
       POWER_DOWN Priority.LOW) ;;
  ret true.

(** The candidates of [handle_mention] for a haystack, in the order of
    the loop over [re.findall]. *)
Definition mention_candidates (trx_id : string) (author permlink : json)
    (haystack : string) : list Candidate :=
  map (fun m =>
         mkCandidate trx_id (Some author) (JStr m)
           (json_dumps (JObj [("author", author); ("permlink", permlink)]))
           MENTION Priority.LOW)
      (findall_mentions haystack).

Definition handle_mention (op : Op) : Py bool :=
  let comment_data := op_data op in
  let* body := lift (py_getitem_key comment_data "body") in
  let* haystack := lift (py_str_add body (String "010"%char EmptyString)) in
  let* author := lift (py_getitem_key comment_data "author") in
  let* permlink := lift (py_getitem_key comment_data "permlink") in
  for_each (mention_candidates (op_trx_id op) author permlink haystack)
           store_notification ;;
  ret true.

Definition handle_comment (op : Op) : Py bool :=
  let data := op_data op in
  let* parent_author := lift (py_getitem_key data "parent_author") in
  if json_eqb parent_author (JStr "") then ret true
  else
    let* parent_author_str :=
      match parent_author with
      | JStr s => ret s
      | _ => throw TypeError       (* '@' + parent_author *)
      end in
    let* parent_permlink := lift (py_getitem_key data "parent_permlink") in
    let* parent_permlink_str :=
      match parent_permlink with
      | JStr s => ret s
      | _ => throw TypeError
      end in
    let parent_id := ("@" ++ parent_author_str ++ "/" ++ parent_permlink_str)%string in
    let* is_comment := lift (post_is_comment parent_id) in
    let note_type := if is_comment then COMMENT_REPLY else POST_REPLY in
    let* author := lift (py_getitem_key data "author") in
    let* parent_author' := lift (py_getitem_key data "parent_author") in
    store_notification
      (mkCandidate (op_trx_id op) (Some author) parent_author'
         (json_dumps data) note_type Priority.LOW) ;;
    ret true.

(** [handle_resteem] *)
Definition handle_resteem (op : Op) : Py bool :=
  let data := op_data op in
  let* json_text := lift (py_getitem_key data "json") in
  let* resteem_data :=
    match json_text with
    | JStr text => loads text
    | _ => throw TypeError
    end in
  let* tag := lift (py_getitem_idx resteem_data 0) in
  if negb (json_eqb tag (JStr "reblog")) then ret true
  else
    let* payload := lift (py_getitem_idx resteem_data 1) in
    let* account := lift (py_getitem_key payload "account") in
    let* author := lift (py_getitem_key payload "author") in
    let* _ := lift (py_getitem_key payload "permlink") in
    let* auths := lift (py_getitem_key data "required_posting_auths") in
    let* n := lift (py_len auths) in
    if negb (n =? 1)%nat then ret true
    else
      let* signer := lift (py_getitem_idx auths 0) in
      if negb (json_eqb signer account) then ret true
      else
        store_notification
          (mkCandidate (op_trx_id op) (Some account) author
             (json_dumps payload) RESTEEM Priority.LOW) ;;
        ret true.

(** What [notify] returns: a handler's flag, or the list that
    [asyncio.gather] makes of two of them. *)
Inductive NotifyResult : Type :=
  | One (b : bool)
  | Gathered (rs : list bool).

(** [if not resp] of [run_queue]: a non-empty list is true. *)
Definition truthy (r : NotifyResult) : bool :=
  match r with
  | One b => b
  | Gathered rs => negb (length rs =? 0)%nat
  end.

Definition one (m : Py bool) : Py NotifyResult :=
  let* b := m in ret (One b).
Definition both (a b : Py bool) : Py NotifyResult :=
  let* rs := gather a b in ret (Gathered rs).

(** [notify] *)
Definition notify (blockchain_op : Op) : Py NotifyResult :=
  if String.eqb (op_name blockchain_op) "vote" then
    one (handle_vote blockchain_op)
  else if String.eqb (op_name blockchain_op) "custom_json" then
    let* id := lift (py_getitem_key (op_data blockchain_op) "id") in
    if json_eqb id (JStr "follow") then
      both (handle_follow blockchain_op) (handle_resteem blockchain_op)
    else ret (One true)
  else if String.eqb (op_name blockchain_op) "account_update" then
    one (handle_account_update blockchain_op)
  else if String.eqb (op_name blockchain_op) "transfer" then
    both (handle_send blockchain_op) (handle_receive blockchain_op)
  else if String.eqb (op_name blockchain_op) "withdraw_vesting" then
    one (handle_power_down blockchain_op)
  else if String.eqb (op_name blockchain_op) "comment" then
    both (handle_mention blockchain_op) (handle_comment blockchain_op)
  else ret (One true).

(** *** notification_sender.py *)

(** [user_notify_types_transports]: for each notification type the
    (transport, sub data) pairs enabled for it, in the order of the
    user's transports. *)
Definition add_transport_types (transport_name : string)
    (transport_data : TransportData)
    (m : gmap string (list (string * string)))
    : gmap string (list (string * string)) :=
  fold_left
    (fun m notify_type =>
       <[notify_type :=
           default [] (m !! notify_type)
           ++ [(transport_name, sub_data transport_data)]]> m)
    (notification_types transport_data) m.

Definition notify_types_transports (user_transports : Transports)
    : gmap string (list (string * string)) :=
  fold_left (fun m t => add_transport_types (fst t) (snd t) m)
            user_transports ∅.

(** [check_ratelimit(self.db, notification)] with the clock readings of
    its [get_priority_count] calls: two in the LOW branch, one in the
    other branches of a known priority, none otherwise. *)
Definition clock_reads (priority_level : Z) : nat :=
  if priority_level =? Priority.LOW then 2%nat
  else if (Priority.MARKETING <=? priority_level)
          && (priority_level <=? Priority.ALWAYS) then 1%nat
  else 0%nat.

Definition check_ratelimit_now (notification : Notification) : Py bool :=
  fun w =>
    let reads := clock_reads (n_priority_level notification) in
    (Ret (check_ratelimit (w_db w) (clock (w_ticks w + reads - 1)%nat)
            notification false),
     mkWorld (w_db w) (w_ticks w + reads)%nat (w_uuids w) (w_sends w)).

(** The call of a transport: recorded, then it returns or raises. *)
Definition send_notification (transport : Transport) (call : SendCall)
    : Py unit :=
  fun w =>
    (if transport call then Ret tt else Raise TransportError,
     mkWorld (w_db w) (w_ticks w) (w_uuids w) (w_sends w ++ [call])).

Definition mark_sent_now (notification : Notification) (transport : string)
    : Py unit :=
  let* t := now in
  fun w =>
    let '(r, db') := mark_sent (w_db w) t notification transport in
    (r, with_db w db').

(** The body of the loop over the transports of a notification: the
    send and [mark_sent] share one [try], its bare [except] logs. *)
Definition send_to_transport (username : string) (notification : Notification)
    (t : string * string) : Py unit :=
  try_except
    (let* transport :=
       match configured_transports !! fst t with
       | Some tr => ret tr
       | None => throw (KeyError (fst t))
       end in
     let* data := loads (n_json_data notification) in
     send_notification transport
       (mkSendCall (fst t) (snd t) username (n_notify_type notification) data) ;;
     mark_sent_now notification (fst t))
    (ret tt).

(** The body of the loop over the notifications of a user. *)
Definition dispatch_notification (username : string)
    (user_notify_types_transports : gmap string (list (string * string)))
    (notification : Notification) : Py unit :=
  let* allowed := check_ratelimit_now notification in
  if negb allowed then ret tt
  else
    let* ts :=
      match user_notify_types_transports !! n_notify_type notification with
      | Some ts => ret ts
      | None => throw (KeyError (n_notify_type notification))
      end in
    for_each ts (send_to_transport username notification).

(** The body of the loop over the users with unsent notifications. *)
Definition dispatch_user (entry : string * list Notification) : Py unit :=
  let '(username, notifications) := entry in
  let* user_transports :=
    fun w =>
      let '(r, db') := get_user_transports (w_db w) username false in
      (match r with
       | Some t => Ret t
       | None => Raise (AttributeError "items")
       end, with_db w db') in
  for_each notifications
    (dispatch_notification username (notify_types_transports user_transports)).

(** [run_send_notify] *)
Definition run_send_notify : Py unit :=
  let* unsents := (fun w => (get_wwwpoll_unsents (w_db w), w)) in
  for_each unsents dispatch_user.

End Services.

(** ** blockchain_follower.py: the block processor *)

(** What escapes [get_start_block]: the ValueError of [int] on a
    malformed setting, or whatever the head block request raises. *)
Inductive start_error : Type :=
  | StartValueError
  | StartRpcError (e : exn).

(** What escapes [run_active]: an error of [get_start_block], or the
    TypeError of [None + max_blocks] when there is no start block. *)
Inductive run_active_error : Type :=
  | RaisedInStart (e : start_error)
  | RaisedTypeError.

(** The variables of the loop of [run_active]: the world, the operations
    put on the queue and not yet taken, and [processed_count]. *)
Record ActiveState : Type := mkActiveState {
  as_world : World;
  as_queue : list Op;
  as_processed : Z
}.

Section BlockProcessor.

Variable clock : nat -> datetime.
Variable uuid4 : nat -> string.
Variable json_loads : string -> option json.
Variable json_dumps : json -> string.
Variable post_is_comment : string -> outcome bool.
(** [self.steemd_rpc.get_ops_in_block(block_num, False)] *)
Variable get_ops_in_block : Z -> outcome (list Op).
(** [b.get_current_block_num()] *)
Variable get_current_block_num : outcome Z.
(** [self.follower_id] *)
Variable follower_id : string.
(** [str(config_data['blockchain_follower'].get('start_block', ''))] *)
Variable config_start_block : string.
(** [int(text)]: the integer, or [None] where it raises ValueError. *)
Variable py_int : string -> option Z.

(** [run_queue]: operations are taken from the head of the queue and
    handed to [notify] until the queue is empty or an answer is false;
    the result comes with what is left on the queue. *)
Fixpoint run_queue (q : list Op) (w : World)
    : outcome (option Op) * list Op * World :=
  match q with
  | [] => (Ret None, [], w)
  | op :: q' =>
      match notify clock uuid4 json_loads json_dumps post_is_comment op w with
      | (Ret resp, w') =>
          if negb (truthy resp) then (Ret (Some op), q', w')
          else run_queue q' w'
      | (Raise e, w') => (Raise e, q', w')
      end
  end.

(** [get_start_block] *)
Definition get_start_block : start_error + option Z :=
  if String.eqb config_start_block "" then inr None
  else
    match py_int config_start_block with
    | None => inl StartValueError
    | Some start_block =>
        if start_block <? 0 then
          match get_current_block_num with
          | Ret head => inr (Some (head - start_block))
          | Raise e => inl (StartRpcError e)
          end
        else inr (Some start_block)
    end.

(** The loop over the operations of a block: each is put on the queue
    and the queue is run.  What [run_queue] hands back is passed to
    [queue.put] without [await], which puts nothing. *)
Fixpoint process_ops (ops : list Op) (q : list Op) (w : World)
    : outcome unit * list Op * World :=
  match ops with
  | [] => (Ret tt, q, w)
  | op :: ops' =>
      match run_queue (q ++ [op]) w with
      | (Ret _, q', w') => process_ops ops' q' w'
      | (Raise e, q', w') => (Raise e, q', w')
      end
  end.

(** The body of the loop over blocks, under its [except Exception]. *)
Definition process_block (max_blocks block_interval : Z) (st : ActiveState)
    (block_num : Z) : ActiveState :=
  match get_ops_in_block block_num with
  | Raise _ => st
  | Ret ops =>
      match process_ops ops (as_queue st) (as_world st) with
      | (Raise _, q, w) => mkActiveState w q (as_processed st)
      | (Ret _, q, w) =>
          let processed_count := as_processed st + 1 in
          let new_timeout := ((max_blocks + 1) - processed_count) * block_interval in
          let updated :=
            try_update_status (w_db w) (clock (w_ticks w)) follower_id block_num
              new_timeout in
          mkActiveState
            (mkWorld (snd updated) (S (w_ticks w)) (w_uuids w) (w_sends w))
            q processed_count
      end
  end.

(** [range(start_block, start_block + max_blocks)] *)
Definition block_range (start_block max_blocks : Z) : list Z :=
  map (fun i => start_block + Z.of_nat i) (seq 0 (Z.to_nat max_blocks)).

(** [run_active]: what it raises, if anything, and the world it
    leaves. *)
Definition run_active (start_block : option Z) (max_blocks block_interval : Z)
    (w : World) : option run_active_error * World :=
  let start :=
    match start_block with
    | Some s => inr (Some s)
    | None => get_start_block
    end in
  match start with
  | inl e => (Some (RaisedInStart e), w)
  | inr None => (Some RaisedTypeError, w)
  | inr (Some s) =>
      (None,
       as_world (fold_left (process_block max_blocks block_interval)
                   (block_range s max_blocks) (mkActiveState w [] 0)))
  end.

End BlockProcessor.

(** ** db.py: the wwwpoll table *)

(** [wwwpoll_table].  Every column but [json_data] is NOT NULL or has a
    value from the insert. *)
Record WwwpollRow : Type := mkWwwpollRow {
  wp_nid : string;
  wp_notify_type : string;
  wp_to_username : string;
  wp_from_username : string;
  wp_json_data : option string;
  wp_created : datetime;
  wp_updated : datetime;
  wp_read : bool;
  wp_shown : bool
}.

(** The wwwpoll table behind the engine; while [wwwpoll_ok] is [false]
    every [conn.execute] raises. *)
Record WwwpollDb : Type := mkWwwpollDb {
  wwwpoll : list WwwpollRow;
  wwwpoll_ok : bool
}.





(** An update of one flag of the rows with a nid; [updated] takes the
    time of the update.  [True] once the statement ran, [False] when it
    raised. *)
Definition update_wwwpoll (db : WwwpollDb) (now : datetime) (nid : string)
    (set : WwwpollRow -> datetime -> WwwpollRow) : bool * WwwpollDb :=
  if wwwpoll_ok db then
    (true,
     mkWwwpollDb
       (map (fun r => if String.eqb (wp_nid r) nid then set r now else r)
            (wwwpoll db))
       (wwwpoll_ok db))
  else (false, db).

Definition set_shown (shown : bool) (r : WwwpollRow) (now : datetime) : WwwpollRow :=
  mkWwwpollRow (wp_nid r) (wp_notify_type r) (wp_to_username r)
    (wp_from_username r) (wp_json_data r) (wp_created r) now (wp_read r) shown.

Definition set_read (read : bool) (r : WwwpollRow) (now : datetime) : WwwpollRow :=
  mkWwwpollRow (wp_nid r) (wp_notify_type r) (wp_to_username r)
    (wp_from_username r) (wp_json_data r) (wp_created r) now read (wp_shown r).

Definition wwwpoll_mark_shown (db : WwwpollDb) (now : datetime) (nid : string)
    : bool * WwwpollDb :=
  update_wwwpoll db now nid (set_shown true).

Definition wwwpoll_mark_unshown (db : WwwpollDb) (now : datetime) (nid : string)
    : bool * WwwpollDb :=
  update_wwwpoll db now nid (set_shown false).

Definition wwwpoll_mark_read (db : WwwpollDb) (now : datetime) (nid : string)
    : bool * WwwpollDb :=
  update_wwwpoll db now nid (set_read true).

Definition wwwpoll_mark_unread (db : WwwpollDb) (now : datetime) (nid : string)
    : bool * WwwpollDb :=
  update_wwwpoll db now nid (set_read false).

(** What [_get_notifications] returns: the un-fetched result proxy of the
    select for a nid, or the fetched list of rows. *)
Inductive QueryResult : Type :=
  | ResultProxy (nid : string)
  | RowList (rows : list WwwpollRow).

(** [if text:] for a string argument that may be [None]. *)
Definition given (text : option string) : option string :=
  match text with
  | Some EmptyString => None
  | other => other
  end.

(** [query.limit(limit)]: no bound for [None]; SQLite takes a negative
    limit as no bound. *)
Definition sql_limit {A} (limit : option Z) (rows : list A) : list A :=
  match limit with
  | None => rows
  | Some n => if n <? 0 then rows else List.firstn (Z.to_nat n) rows
  end.

(** The keyword arguments of [_get_notifications] other than the table. *)
Record NotificationQuery : Type := mkNotificationQuery {
  q_nid : option string;
  q_to_username : option string;
  q_created_before : option string;
  q_updated_after : option string;
  q_read : option bool;
  q_notify_types : option (list string);
  q_limit : option Z
}.

(** The defaults of the keyword arguments. *)
Definition default_query : NotificationQuery :=
  mkNotificationQuery None None None None None None (Some 30).

(** The WHERE clauses the truthy arguments add, once the dates are
    parsed. *)
Definition query_where (to_username : option string)
    (created_before updated_after : option datetime) (read : option bool)
    (notify_types : option (list string)) (r : WwwpollRow) : bool :=
  match to_username with
  | Some u => String.eqb (wp_to_username r) u
  | None => true
  end
  && match created_before with
     | Some t => t <=? wp_created r
     | None => true
     end
  && match updated_after with
     | Some t => wp_updated r <=? t
     | None => true
     end
  && match read with
     | Some true => Bool.eqb (wp_read r) true
     | _ => true
     end
  && match notify_types with
     | Some (t :: ts) => existsb (String.eqb (wp_notify_type r)) (t :: ts)
     | _ => true
     end.

(** [dateutil.parser.parse] of a truthy date argument; [inl] where it
    raises. *)
Definition parse_given (parse : string -> option datetime) (text : option string)
    : unit + option datetime :=
  match given text with
  | None => inr None
  | Some s =>
      match parse s with
      | Some t => inr (Some t)
      | None => inl tt
      end
  end.

(** [if notify_types:] *)
Definition types_given (notify_types : option (list string)) : bool :=
  match notify_types with
  | Some (_ :: _) => true
  | _ => false
  end.

(** [get_wwwpoll_notifications]: [_get_notifications] on the wwwpoll
    table.  Any exception inside is logged and the answer is [[]].
    The query has no ORDER BY: [scan] is the order in which the engine
    answers the rows that match (it follows the index the engine picks),
    and the limit cuts that list.  [select_filter] tells whether the
    [Select] of the installed SQLAlchemy has a [filter] method (1.4 and
    later); without it the [notify_types] branch raises
    AttributeError. *)
Definition get_wwwpoll_notifications (parse : string -> option datetime)
    (scan : list WwwpollRow -> list WwwpollRow) (select_filter : bool)
    (db : WwwpollDb) (q : NotificationQuery) : QueryResult :=
  match given (q_nid q) with
  | Some nid =>
      if wwwpoll_ok db then ResultProxy nid else RowList []
  | None =>
      match parse_given parse (q_created_before q),
            parse_given parse (q_updated_after q) with
      | inr created_before, inr updated_after =>
          if types_given (q_notify_types q) && negb select_filter
          then RowList []
          else if wwwpoll_ok db then
            RowList
              (sql_limit (q_limit q)
                 (scan
                    (List.filter
                       (query_where (given (q_to_username q)) created_before
                          updated_after (q_read q) (q_notify_types q))
                       (wwwpoll db))))
          else RowList []
      | _, _ => RowList []
      end
  end.

(** * Vocabulary of the properties *)

(** ** Leader lease *)

(** What [try_update_status] may do to one row of the table. *)
Definition advance_step (db_ok : bool) (now : datetime) (follower_id : string)
    (new_block lock_timeout : Z) (r r' : ChainStatus) : Prop :=
  (* last_processed_block never decreases *)
  (match last_processed_block r with
   | Some b => exists b', last_processed_block r' = Some b' /\ b <= b'
   | None => last_processed_block r' = None
   end)
  (* the row changes only for the holder of the lease and a block that is
     not behind the recorded one *)
  /\ (r' <> r ->
      active_follower_id r = follower_id
      /\ exists b, last_processed_block r = Some b /\ b <= new_block)
  (* and then the update is the documented one *)
  /\ (db_ok = true ->
      active_follower_id r = follower_id ->
      (exists b, last_processed_block r = Some b /\ b <= new_block) ->
      r' = mkChainStatus (status_id r) (Some new_block) now
             (now + timedelta_seconds lock_timeout) follower_id).

Definition leased_db : YoDatabase :=
  mkDb [] [] [] [mkChainStatus 1 (Some 41) 0 100000000 "follower-a"] true.

(** ** Notification store *)

(** A row of the store holds the key (to_username, notify_type, trx_id,
    from_username). *)
Definition has_key (db : YoDatabase) (to_username notify_type trx_id from_username : string)
    : Prop :=
  exists r, In r (notifications db)
    /\ n_to_username r = to_username
    /\ n_notify_type r = notify_type
    /\ n_trx_id r = Some trx_id
    /\ n_from_username r = Some from_username.

Definition vote_row : Notification :=
  mkNotification "nid-1" "vote" "bob" (Some "alice") "{}" Priority.LOW 0 (Some "T1").

Definition vote_object : NotificationObject :=
  mkNotificationObject None (SqlText "T1") (SqlText "alice") (SqlText "bob")
    "{}" "vote" Priority.LOW.

Definition one_vote_db : YoDatabase := mkDb [vote_row] [] [] [] true.

(** ** Admission counts *)

(** An Action counts for a user at a priority level and a window when it
    is the user's, at that level or above, and created within the
    trailing window. *)
Definition counted_action (to_username : string) (priority : Z) (now : datetime)
    (window : Z) (a : Action) : Prop :=
  a_to_username a = to_username
  /\ priority <= a_priority_level a
  /\ now - timedelta_seconds window <= a_created_at a
  /\ a_created_at a <= now.

#[global] Instance counted_action_dec to_username priority now window a :
  Decision (counted_action to_username priority now window a).
Proof. unfold counted_action. apply _. Defined.

Definition count_at_or_above (ledger : list Action) (to_username : string)
    (priority : Z) (now : datetime) (window : Z) : Z :=
  Z.of_nat (length (filter (counted_action to_username priority now window) ledger)).

(** No Action of the ledger is dated after [now]. *)
Definition ledger_in_past (now : datetime) (ledger : list Action) : Prop :=
  Forall (fun a => a_created_at a <= now) ledger.

(** No Action of the ledger is the user's. *)
Definition no_actions_for (to_username : string) (ledger : list Action) : Prop :=
  Forall (fun a => a_to_username a <> to_username) ledger.

Definition low_to_bob (nid : string) : Notification :=
  mkNotification nid "vote" "bob" (Some "alice") "{}" Priority.LOW 0 (Some nid).

(** A ledger two hours after the epoch: a LOW Action for bob half an hour
    ago, a MARKETING one a minute ago, a PRIORITY one ninety minutes ago,
    and a LOW Action for carol. *)
Definition busy_db : YoDatabase :=
  mkDb [] [mkAction 1 "n1" "bob" "mock" Priority.LOW "Sent" 5400000000;
           mkAction 2 "n2" "bob" "mock" Priority.MARKETING "Sent" 7140000000;
           mkAction 3 "n3" "bob" "mock" Priority.PRIORITY "Sent" 1800000000;
           mkAction 4 "n4" "carol" "mock" Priority.LOW "Sent" 7000000000]
       [] [] true.

(** An account_update notification: no [from_username]. *)
Definition update_object : NotificationObject :=
  mkNotificationObject None (SqlText "T2") SqlNull (SqlText "bob")
    "{}" "account_update" Priority.LOW.

Definition empty_db : YoDatabase := mkDb [] [] [] [] true.

(** ** Event classifier *)

(** A custom_json operation with id "follow" whose json text loads as
    [[tag, payload, ...]] and whose posting signers are [auths]. *)
Definition social_op (json_loads : string -> option json) (op : Op)
    (tag : string) (payload : list (string * json)) (auths : list json) : Prop :=
  op_name op = "custom_json"
  /\ py_getitem_key (op_data op) "id" = Ret (JStr "follow")
  /\ (exists text rest,
        py_getitem_key (op_data op) "json" = Ret (JStr text)
        /\ json_loads text = Some (JArr (JStr tag :: JObj payload :: rest)))
  /\ py_getitem_key (op_data op) "required_posting_auths" = Ret (JArr auths).

(** The acting account of a follow payload (the follower) or of a reblog
    payload (the reblogging account); the payload has the keys its
    handler reads. *)
Definition acting_account (tag : string) (payload : list (string * json))
    (actor : json) : Prop :=
  (tag = "follow"
   /\ dict_get "follower" payload = Some actor
   /\ is_Some (dict_get "following" payload))
  \/ (tag = "reblog"
      /\ dict_get "account" payload = Some actor
      /\ is_Some (dict_get "author" payload)
      /\ is_Some (dict_get "permlink" payload)).

(** Not exactly one posting signer, or a single one that is not the
    acting account. *)
Definition bad_signers (auths : list json) (actor : json) : Prop :=
  length auths <> 1%nat
  \/ exists signer, auths = [signer] /\ json_eqb signer actor = false.

(** Surroundings used by the examples. *)
Definition example_clock (n : nat) : datetime := 1000000 * Z.of_nat n.
Definition example_uuid4 (n : nat) : string := ("uuid-" ++ pretty n)%string.
Definition example_json_dumps (j : json) : string := "{}".
Definition example_is_comment (parent_id : string) : outcome bool := Ret false.

Definition follow_text : string := "[follow alice->bob]".
Definition follow_payload : list (string * json) :=
  [("follower", JStr "alice"); ("following", JStr "bob");
   ("what", JArr [JStr "blog"])].
Definition example_json_loads (text : string) : option json :=
  if String.eqb text follow_text
  then Some (JArr [JStr "follow"; JObj follow_payload])
  else if String.eqb text "{}" then Some (JObj [])
  else None.

(** A follow operation carrying two posting signers. *)
Definition two_signer_follow : Op :=
  mkOp "T7" "custom_json"
    (JObj [("required_auths", JArr []);
           ("required_posting_auths", JArr [JStr "alice"; JStr "mallory"]);
           ("id", JStr "follow");
           ("json", JStr follow_text)]).

Definition empty_world : World := mkWorld empty_db 0 0 [].

(** *** Mentions *)

Definition newline : string := String "010"%char EmptyString.

Fixpoint all_chars (p : ascii -> bool) (s : string) : bool :=
  match s with
  | EmptyString => true
  | String c s' => p c && all_chars p s'
  end.

(** A lowercase letter followed by 2 to 15 characters of [[a-z0-9-]]. *)
Definition is_username (w : string) : Prop :=
  exists c rest,
    w = String c rest
    /\ is_lower c = true
    /\ all_chars is_name_char rest = true
    /\ (2 <= String.length rest <= 15)%nat.

(** [text] holds, from index [i], an at sign, the username [w] and a
    whitespace character. *)
Definition mention_at (text : string) (i : nat) (w : string) : Prop :=
  exists pre c post,
    text = (pre ++ "@" ++ w ++ String c post)%string
    /\ String.length pre = i
    /\ is_username w
    /\ is_space c = true.

(** The suffix of [s] from index [j]. *)
Fixpoint drop_chars (j : nat) (s : string) : string :=
  match j, s with
  | S j', String _ s' => drop_chars j' s'
  | _, _ => s
  end.

Definition mention_candidate (json_dumps : json -> string) (trx_id : string)
    (author permlink : json) (w : string) : Candidate :=
  mkCandidate trx_id (Some author) (JStr w)
    (json_dumps (JObj [("author", author); ("permlink", permlink)]))
    MENTION Priority.LOW.

Definition mention_comment (body : string) : Op :=
  mkOp "T3" "comment"
    (JObj [("parent_author", JStr ""); ("parent_permlink", JStr "cats");
           ("author", JStr "alice"); ("permlink", JStr "p1");
           ("title", JStr ""); ("body", JStr body)]).

(** ** Dispatcher *)

(** The call a notification makes on one of its (transport, sub data)
    pairs. *)
Definition send_call (username : string) (n : Notification) (data : json)
    (t : string * string) : SendCall :=
  mkSendCall (fst t) (snd t) username (n_notify_type n) data.

(** The pairs whose transport the sender has configured. *)
Definition attempted (configured : gmap string Transport)
    (ts : list (string * string)) : list (string * string) :=
  List.filter (fun t => match configured !! fst t with
                        | Some _ => true
                        | None => false
                        end) ts.

(** The pairs whose transport is configured and whose send returns. *)
Definition delivered (configured : gmap string Transport) (username : string)
    (n : Notification) (data : json) (ts : list (string * string))
    : list (string * string) :=
  List.filter (fun t => match configured !! fst t with
                        | Some transport => transport (send_call username n data t)
                        | None => false
                        end) ts.

(** An Action without its id and its time: notification, transport,
    recipient, priority level and status. *)
Definition action_summary (a : Action) : string * string * string * Z * string :=
  (a_nid a, a_transport a, a_to_username a, a_priority_level a, a_status a).

Definition sent_summary (n : Notification) (t : string * string)
    : string * string * string * Z * string :=
  (n_nid n, fst t, n_to_username n, n_priority_level n, "Sent").

(** What the loop over the (transport, sub data) pairs [ts] of a
    notification leaves behind: the calls made, the Actions recorded. *)
Definition fan_out_result (configured : gmap string Transport) (username : string)
    (n : Notification) (data : json) (ts : list (string * string))
    (w w' : World) : Prop :=
  engine_ok (w_db w') = true
  /\ w_sends w'
     = w_sends w ++ map (send_call username n data) (attempted configured ts)
  /\ (exists new,
        actions (w_db w') = actions (w_db w) ++ new
        /\ map action_summary new
           = map (sent_summary n) (delivered configured username n data ts))
  /\ notifications (w_db w') = notifications (w_db w)
  /\ user_settings (w_db w') = user_settings (w_db w).

(** A notification is approved in a world when the rate limit check the
    dispatcher makes there admits it. *)
Definition approved (clock : nat -> datetime) (w : World) (n : Notification) : Prop :=
  check_ratelimit (w_db w)
    (clock (w_ticks w + clock_reads (n_priority_level n) - 1)%nat) n false = true.

Definition vote_to (nid to_username : string) : Notification :=
  mkNotification nid "vote" to_username (Some "alice") "{}" Priority.LOW 0 (Some nid).

Definition mock_only (types : list string) : Transports :=
  [("mock", mkTransportData types "")].

Definition working_mock : gmap string Transport := {[ "mock" := fun _ => true ]}.
Definition failing_mock : gmap string Transport := {[ "mock" := fun _ => false ]}.

(** A sender with a working mock transport and an sms transport whose
    send raises; no email transport is configured. *)
Definition mixed_transports : gmap string Transport :=
  {[ "mock" := fun _ => true; "sms" := fun _ => false ]}.

(** The pairs a user gets for votes who enabled them on mock, sms and
    email. *)
Definition three_ways : list (string * string) :=
  [("mock", ""); ("sms", "+100"); ("email", "bob@example.org")].

(** bob takes votes on the mock transport. *)
Definition bob_world : World :=
  mkWorld (mkDb [vote_to "n1" "bob"] []
             [mkUserSettings "bob" (mock_only ["vote"])] [] true) 0 0 [].

(** bob takes only follows on the mock transport, carol takes votes; each
    has an unsent vote. *)
Definition bob_carol_world : World :=
  mkWorld (mkDb [vote_to "n1" "bob"; vote_to "n2" "carol"] []
             [mkUserSettings "bob" (mock_only ["follow"]);
              mkUserSettings "carol" (mock_only ["vote"])] [] true) 0 0 [].

Definition carol_world : World :=
  mkWorld (mkDb [vote_to "n2" "carol"] []
             [mkUserSettings "bob" (mock_only ["follow"]);
              mkUserSettings "carol" (mock_only ["vote"])] [] true) 0 0 [].

(** ** Further vocabulary: leader lease *)

(** The row a follower writes when it takes an expired lease: only the
    holder and the deadline change. *)
Definition taken_over (r : ChainStatus) (now : datetime) (follower_id : string)
    (lock_timeout : Z) : ChainStatus :=
  mkChainStatus (status_id r) (last_processed_block r) (last_processed_time r)
    (now + timedelta_seconds lock_timeout) follower_id.

(** The row the holder writes when it advances to [new_block]. *)
Definition advanced (r : ChainStatus) (now : datetime) (new_block lock_timeout : Z)
    : ChainStatus :=
  mkChainStatus (status_id r) (Some new_block) now
    (now + timedelta_seconds lock_timeout) (active_follower_id r).

Definition expired_db : YoDatabase :=
  mkDb [] [] [] [mkChainStatus 1 (Some 41) 0 100000000 "follower-a"] true.

(** ** Further vocabulary: notification store *)

(** The primary key and the unique index hold on a table: no two rows
    share a nid, and no two rows conflict on the index. *)
Definition store_consistent (rows : list Notification) : Prop :=
  NoDup (map n_nid rows)
  /\ forall (i j : nat) (a b : Notification),
       i <> j -> rows !! i = Some a -> rows !! j = Some b ->
       notification_idx_conflict a b = false.

(** All rows of the groups of a dict, in the order of its keys. *)
Definition grouped_rows {A} (groups : list (string * list A)) : list A :=
  concat (map snd groups).

(** A ledger after a series of [mark_sent] calls, oldest first. *)
Fixpoint mark_all (db : YoDatabase)
    (sends : list (datetime * Notification * string)) : YoDatabase :=
  match sends with
  | [] => db
  | (t, n, transport) :: rest => mark_all (snd (mark_sent db t n transport)) rest
  end.

Definition always_to_bob (nid : string) : Notification :=
  mkNotification nid "message" "bob" None "{}" Priority.ALWAYS 0 None.

(** The notification rows the ids of a list select, in the order of the
    ids. *)
Definition rows_with (db : YoDatabase) (nids : list string) : list Notification :=
  flat_map (fun nid =>
              match List.find (fun n => String.eqb (n_nid n) nid) (notifications db) with
              | Some row => [row]
              | None => []
              end) nids.

(** A dict of groups is well formed: its keys are distinct, and each
    group is non-empty and holds rows addressed to its key. *)
Definition groups_well_formed (groups : list (string * list Notification)) : Prop :=
  NoDup (map fst groups)
  /\ Forall (fun g => snd g <> [] /\ Forall (fun n => n_to_username n = fst g) (snd g))
            groups.

(** The user has a row in the settings table. *)
Definition user_known (db : YoDatabase) (username : string) : Prop :=
  exists u, In u (user_settings db) /\ us_username u = username.

(** A database with two notifications, the first one already sent. *)
Definition half_sent_db : YoDatabase :=
  mkDb [vote_to "n1" "bob"; vote_to "n2" "carol"]
       [mkAction 1 "n1" "bob" "mock" Priority.LOW "Sent" 1000000]
       [] [] true.

(** ** Further vocabulary: dispatcher *)

(** The (transport, sub data) pairs a user's settings enable for a
    notification type: one per listing of the type, in the order of the
    transports. *)
Definition enabled_pairs (user_transports : Transports) (notify_type : string)
    : list (string * string) :=
  flat_map (fun t =>
              map (fun _ => (fst t, sub_data (snd t)))
                  (List.filter (String.eqb notify_type)
                               (notification_types (snd t))))
           user_transports.

(** A dict entry holding a list: absent while the list is empty. *)
Definition entry_of {A} (l : list A) : option (list A) :=
  match l with
  | [] => None
  | _ => Some l
  end.

Definition two_transport_settings : Transports :=
  [("email", mkTransportData ["vote"; "follow"] "bob@example.org");
   ("mock", mkTransportData ["vote"] "")].

(** ** Further vocabulary: event classifier and block processor *)

(** From [w] to [w'] nothing happened to the database but notifications
    added at the end of their table, within its constraints; no
    transport was called. *)
Definition only_adds_notifications (w w' : World) : Prop :=
  (exists new, notifications (w_db w') = notifications (w_db w) ++ new)
  /\ actions (w_db w') = actions (w_db w)
  /\ user_settings (w_db w') = user_settings (w_db w)
  /\ chain_status (w_db w') = chain_status (w_db w)
  /\ engine_ok (w_db w') = engine_ok (w_db w)
  /\ w_sends w' = w_sends w
  /\ (store_consistent (notifications (w_db w)) ->
      store_consistent (notifications (w_db w'))).

(** A computation that, from any world, only adds notifications, also
    when it raises. *)
Definition adds_only {A} (m : Py A) : Prop :=
  forall w, only_adds_notifications w (snd (m w)).

(** A computation that returns [True] whenever it returns. *)
Definition returns_true (m : Py bool) : Prop :=
  forall w b w', m w = (Ret b, w') -> b = true.

(** Between two states of a chain status row the holder and the row id
    are the same and the block number did not go back. *)
Definition not_rewound (r r' : ChainStatus) : Prop :=
  status_id r' = status_id r
  /\ active_follower_id r' = active_follower_id r
  /\ match last_processed_block r with
     | Some b => exists b', last_processed_block r' = Some b' /\ b <= b'
     | None => last_processed_block r' = None
     end.

Definition vote_op : Op :=
  mkOp "T1" "vote"
    (JObj [("permlink", JStr "p"); ("author", JStr "bob");
           ("voter", JStr "alice"); ("weight", JNum 10000)]).

Definition transfer_op : Op :=
  mkOp "T5" "transfer"
    (JObj [("from", JStr "alice"); ("to", JStr "bob");
           ("amount", JStr "1.000 STEEM"); ("memo", JStr "thanks")]).

(** From [w] to [w'] a follower made progress: notifications were added,
    chain status rows kept their holder and did not go back, and nothing
    else changed. *)
Definition follower_progress (w w' : World) : Prop :=
  (exists new, notifications (w_db w') = notifications (w_db w) ++ new)
  /\ actions (w_db w') = actions (w_db w)
  /\ user_settings (w_db w') = user_settings (w_db w)
  /\ engine_ok (w_db w') = engine_ok (w_db w)
  /\ w_sends w' = w_sends w
  /\ Forall2 not_rewound (chain_status (w_db w)) (chain_status (w_db w')).

(** The follower holds the lease on the single row of the table, at a
    block not beyond [last]. *)
Definition holds_lease_upto (follower_id : string) (last : Z) (w : World) : Prop :=
  engine_ok (w_db w) = true
  /\ exists r b,
       chain_status (w_db w) = [r]
       /\ active_follower_id r = follower_id
       /\ last_processed_block r = Some b
       /\ b <= last.

(** A node that fails on block 43 and has nothing in block 44. *)
Definition flaky_node (block_num : Z) : outcome (list Op) :=
  if block_num =? 44 then Ret [] else Raise OperationalError.

Definition leader_world : World :=
  mkWorld (mkDb [] [] [] [mkChainStatus 1 (Some 42) 0 100000000 "follower-a"] true)
    0 0 [].

(** The row [store_notification] binds for a candidate whose recipient is
    the string [to_username], in a world. *)
Definition candidate_row (clock : nat -> datetime) (uuid4 : nat -> string)
    (w : World) (notify_type to_username : string)
    (from_username : option string) (json_data trx_id : string) : Notification :=
  mkNotification (uuid4 (w_uuids w)) notify_type to_username from_username
    json_data Priority.LOW (clock (w_ticks w)) (Some trx_id).

(** The generated id is not in the table yet. *)
Definition fresh_nid (db : YoDatabase) (nid : string) : Prop :=
  ~ In nid (map n_nid (notifications db)).

(** The dict [handle_send] and [handle_receive] build from a transfer. *)
Definition transfer_dict (amount from memo to : json) : json :=
  JObj [("amount", amount); ("from", from); ("memo", memo); ("to", to)].

Definition reply_op (parent_author : string) : Op :=
  mkOp "T8" "comment"
    (JObj [("parent_author", JStr parent_author); ("parent_permlink", JStr "cats");
           ("author", JStr "alice"); ("permlink", JStr "re-cats");
           ("title", JStr ""); ("body", JStr "nice")]).

(** A name of 3 to 16 characters that fits the username pattern. *)
Definition valid_mention (name : string) : Prop :=
  is_username name /\ (3 <= String.length name <= 16)%nat.

(** The payload of a follow names [actor] as the follower and [target]
    as the followed account; the payload of a reblog names [actor] as the
    reblogging account and [target] as the author of the post. *)
Definition social_payload (tag : string) (payload : list (string * json))
    (actor target : string) : Prop :=
  (tag = "follow"
   /\ dict_get "follower" payload = Some (JStr actor)
   /\ dict_get "following" payload = Some (JStr target))
  \/ (tag = "reblog"
      /\ dict_get "account" payload = Some (JStr actor)
      /\ dict_get "author" payload = Some (JStr target)
      /\ is_Some (dict_get "permlink" payload)).

(** The notification type stored for a tag. *)
Definition social_type (tag : string) : string :=
  if String.eqb tag "follow" then FOLLOW else RESTEEM.

(** A follow signed by the follower alone. *)
Definition signed_follow : Op :=
  mkOp "T7" "custom_json"
    (JObj [("required_auths", JArr []);
           ("required_posting_auths", JArr [JStr "alice"]);
           ("id", JStr "follow");
           ("json", JStr follow_text)]).

(** ** Further vocabulary: rate limit inside one cycle *)

(** Any two of the clock readings numbered from [lo] up to, not
    including, [hi] are less than an hour apart. *)
Definition within_hour (clock : nat -> datetime) (lo hi : nat) : Prop :=
  forall i j, (lo <= i)%nat -> (i <= j)%nat -> (j < hi)%nat ->
    clock j - timedelta_seconds 3600 <= clock i.

(** The Action carries the time of a clock reading numbered from [lo] up
    to, not including, [hi]. *)
Definition stamped_between (clock : nat -> datetime) (lo hi : nat) (a : Action)
    : Prop :=
  exists k, (lo <= k < hi)%nat /\ a_created_at a = clock k.

(** bob has two unsent votes and takes votes on the mock transport. *)
Definition two_votes_world : World :=
  mkWorld (mkDb [vote_to "n1" "bob"; vote_to "n2" "bob"] []
             [mkUserSettings "bob" (mock_only ["vote"])] [] true) 0 0 [].

(** ** Further vocabulary: the wwwpoll table *)





(** Two rows agree on what the notification is: id, type, recipient,
    sender, payload and time of creation. *)
Definition same_content (r r' : WwwpollRow) : Prop :=
  wp_nid r' = wp_nid r
  /\ wp_notify_type r' = wp_notify_type r
  /\ wp_to_username r' = wp_to_username r
  /\ wp_from_username r' = wp_from_username r
  /\ wp_json_data r' = wp_json_data r
  /\ wp_created r' = wp_created r.

(** What an update of one flag does to a row: a row with the nid gets
    the value in [flag] and the time in [updated]; any other row is as
    it was; [other], the second flag, is never touched. *)
Definition flag_set (nid : string) (now : datetime)
    (flag other : WwwpollRow -> bool) (value : bool) (r r' : WwwpollRow) : Prop :=
  same_content r r'
  /\ other r' = other r
  /\ if String.eqb (wp_nid r) nid
     then flag r' = value /\ wp_updated r' = now
     else r' = r.

Definition mark_read_as (value : bool)
    : WwwpollDb -> datetime -> string -> bool * WwwpollDb :=
  if value then wwwpoll_mark_read else wwwpoll_mark_unread.

Definition mark_shown_as (value : bool)
    : WwwpollDb -> datetime -> string -> bool * WwwpollDb :=
  if value then wwwpoll_mark_shown else wwwpoll_mark_unshown.

(** A query with another [read] argument. *)
Definition with_read (q : NotificationQuery) (read : option bool)
    : NotificationQuery :=
  mkNotificationQuery (q_nid q) (q_to_username q) (q_created_before q)
    (q_updated_after q) read (q_notify_types q) (q_limit q).

(** What a row returned for a query satisfies, [created_before] and
    [updated_after] being the parsed dates. *)
Definition answers (q : NotificationQuery)
    (created_before updated_after : option datetime) (r : WwwpollRow) : Prop :=
  (forall u, given (q_to_username q) = Some u -> wp_to_username r = u)
  /\ (forall t, created_before = Some t -> t <= wp_created r)
  /\ (forall t, updated_after = Some t -> wp_updated r <= t)
  /\ (q_read q = Some true -> wp_read r = true)
  /\ (forall ts, q_notify_types q = Some ts -> ts <> [] ->
        In (wp_notify_type r) ts).

Definition never_parses (text : string) : option datetime := None.

Definition one_row_wwwpoll : WwwpollDb :=
  mkWwwpollDb [mkWwwpollRow "w1" "vote" "bob" "alice" None 5 5 false false] true.

(** ** Further vocabulary: a notification inside a cycle *)

(** The cycle of [run_send_notify] started in [w] comes to the
    notification [n] of [username]: [n] is among the unsent
    notifications grouped under [username], the users and the
    notifications before it were processed without an exception leaving
    their loops, and the settings of the user were read as [settings].
    [w_n] is the world at that point, and [rest] what the cycle does
    after [n]. *)
Definition cycle_reaches (clock : nat -> datetime)
    (json_loads : string -> option json)
    (configured_transports : gmap string Transport)
    (w : World) (username : string) (settings : Transports) (n : Notification)
    (w_n : World) (rest : Py unit) : Prop :=
  exists gpre npre npost gpost w1 db2,
    get_wwwpoll_unsents (w_db w)
    = Ret (gpre ++ (username, npre ++ n :: npost) :: gpost)
    /\ for_each gpre (dispatch_user clock json_loads configured_transports) w
       = (Ret tt, w1)
    /\ get_user_transports (w_db w1) username false = (Some settings, db2)
    /\ for_each npre
         (dispatch_notification clock json_loads configured_transports username
            (notify_types_transports settings)) (with_db w1 db2)
       = (Ret tt, w_n)
    /\ rest
       = (for_each npost
            (dispatch_notification clock json_loads configured_transports
               username (notify_types_transports settings)) ;;
          for_each gpost (dispatch_user clock json_loads configured_transports)).

(** From [w] to [w'] the record of calls and the Action ledger only
    grew. *)
Definition record_grows (w w' : World) : Prop :=
  (exists calls, w_sends w' = w_sends w ++ calls)
  /\ (exists new, actions (w_db w') = actions (w_db w) ++ new).

(** A computation under which the record of calls and the Action ledger
    only grow, also when it raises. *)
Definition keeps_record {A} (m : Py A) : Prop :=
  forall w, record_grows w (snd (m w)).

(** Between [w] and [w_end] the calls [calls] were made one after the
    other and the Actions [new] recorded one after the other. *)
Definition recorded_within (w : World) (calls : list SendCall)
    (new : list Action) (w_end : World) : Prop :=
  exists before after earlier later,
    w_sends w_end = w_sends w ++ before ++ calls ++ after
    /\ actions (w_db w_end) = actions (w_db w) ++ earlier ++ new ++ later.

(** carol takes votes on mock, sms and email; alice, before her in the
    cycle, takes votes on mock.  Each has an unsent vote. *)
Definition three_ways_settings : Transports :=
  [("mock", mkTransportData ["vote"] "");
   ("sms", mkTransportData ["vote"] "+100");
   ("email", mkTransportData ["vote"] "bob@example.org")].

Definition alice_carol_world : World :=
  mkWorld (mkDb [vote_to "n1" "alice"; vote_to "n2" "carol"] []
             [mkUserSettings "alice" (mock_only ["vote"]);
              mkUserSettings "carol" three_ways_settings] [] true) 0 0 [].

(** ** Further vocabulary: a follow that names no followed account *)

Definition short_follow_text : string := "[follow alice]".

Definition short_json_loads (text : string) : option json :=
  if String.eqb text short_follow_text
  then Some (JArr [JStr "follow"; JObj [("follower", JStr "alice")]])
  else None.

(** The follow carries two posting signers. *)
Definition short_follow : Op :=
  mkOp "T9" "custom_json"
    (JObj [("required_auths", JArr []);
           ("required_posting_auths", JArr [JStr "alice"; JStr "mallory"]);
           ("id", JStr "follow");
           ("json", JStr short_follow_text)]).

(** bob lists votes twice on the mock transport. *)
Definition twice_listed_world : World :=
  mkWorld (mkDb [vote_to "n1" "bob"] []
             [mkUserSettings "bob" (mock_only ["vote"; "vote"])] [] true) 0 0 [].

(** bob's unsent vote has a payload that is no JSON text. *)
Definition unloadable_world : World :=
  mkWorld (mkDb [mkNotification "n1" "vote" "bob" (Some "alice") "{oops"
                   Priority.LOW 0 (Some "n1")] []
             [mkUserSettings "bob" (mock_only ["vote"])] [] true) 0 0 [].

(** * Properties *)

(** ** Leader lease *)

Lemma with_chain_status_same (db : YoDatabase) :
  with_chain_status db (chain_status db) = db.
Proof. destruct db; reflexivity. Qed.

Lemma map_fixed {A} (f : A -> A) (l : list A) :
  Forall (fun x => f x = x) l -> map f l = l.
Proof.
  induction 1 as [|x l Hx _ IH]; simpl; [reflexivity|].
  rewrite Hx, IH. reflexivity.
Qed.

Lemma Forall2_map_related {A} (P : A -> A -> Prop) (f : A -> A) (l : list A) :
  (forall x, P x (f x)) -> Forall2 P l (map f l).
Proof. intros H. induction l; simpl; constructor; auto. Qed.

Lemma Forall2_diag {A} (P : A -> A -> Prop) (l : list A) :
  (forall x, P x x) -> Forall2 P l l.
Proof. intros H. induction l; constructor; auto. Qed.

Lemma update_status_where_iff (follower_id : string) (new_block : Z) (r : ChainStatus) :
  update_status_where follower_id new_block r = true <->
  active_follower_id r = follower_id
  /\ exists b, last_processed_block r = Some b /\ b <= new_block.
Proof.
  unfold update_status_where, sql_le_nullable.
  rewrite andb_true_iff, String.eqb_eq.
  destruct (last_processed_block r) as [b|].
  - rewrite Z.leb_le. split.
    + intros [H1 H2]. split; [assumption|]. exists b. split; [reflexivity|lia].
    + intros [H1 (b' & Hb' & Hle)]. injection Hb' as <-. split; [assumption|lia].
  - split.
    + intros [_ H]. discriminate H.
    + intros [_ (b & Hb & _)]. discriminate Hb.
Qed.

Lemma update_status_row_step (now : datetime) (follower_id : string)
    (new_block lock_timeout : Z) (r : ChainStatus) :
  advance_step true now follower_id new_block lock_timeout r
    (update_status_row now follower_id new_block lock_timeout r).
Proof.
  unfold advance_step, update_status_row.
  destruct (update_status_where follower_id new_block r) eqn:Hw.
  - apply update_status_where_iff in Hw as Hw'.
    destruct Hw' as [Hid (b & Hb & Hle)].
    split; [|split].
    + rewrite Hb. simpl. exists new_block. split; [reflexivity|assumption].
    + intros _. split; [assumption|]. exists b. split; assumption.
    + intros _ _ _. rewrite Hid. reflexivity.
  - split; [|split].
    + destruct (last_processed_block r) as [b|]; [|reflexivity].
      exists b. split; [reflexivity|lia].
    + intros Hne. contradiction Hne. reflexivity.
    + intros _ Hid Hb.
      assert (update_status_where follower_id new_block r = true) as Ht
        by (apply update_status_where_iff; split; assumption).
      rewrite Ht in Hw. discriminate Hw.
Qed.

Lemma advance_step_refl_down (now : datetime) (follower_id : string)
    (new_block lock_timeout : Z) (r : ChainStatus) :
  advance_step false now follower_id new_block lock_timeout r r.
Proof.
  unfold advance_step. split; [|split].
  - destruct (last_processed_block r) as [b|]; [|reflexivity].
    exists b. split; [reflexivity|lia].
  - intros Hne. contradiction Hne. reflexivity.
  - intros Hf. discriminate Hf.
Qed.

(** C5.  [try_update_status] never decreases [last_processed_block]; a row
    changes only when the caller's follower id is the recorded
    [active_follower_id] and the new block is at least the recorded one,
    and then [last_processed_block] becomes the new block,
    [last_processed_time] becomes now and [lock_expires] becomes now plus
    the lease; the other tables are untouched and the call returns the
    status read back. *)
Theorem try_update_status_monotonic (db : YoDatabase) (now : datetime)
    (follower_id : string) (new_block lock_timeout : Z) :
  let result := try_update_status db now follower_id new_block lock_timeout in
  Forall2 (advance_step (engine_ok db) now follower_id new_block lock_timeout)
          (chain_status db) (chain_status (snd result))
  /\ notifications (snd result) = notifications db
  /\ actions (snd result) = actions db
  /\ user_settings (snd result) = user_settings db
  /\ fst result = get_chain_status (snd result).
Proof.
  unfold try_update_status. simpl.
  destruct (engine_ok db) eqn:Hok; simpl.
  - repeat split. apply Forall2_map_related. intros r.
    apply update_status_row_step.
  - repeat split. apply Forall2_diag. intros r. apply advance_step_refl_down.
Qed.

(** C4.  While the lease has not expired, two [try_active_follower] calls
    with different candidate ids leave the table (hence
    [active_follower_id] and [last_processed_block]) as it was, both
    return the recorded status, and so they cannot both come back as the
    recorded holder. *)
Theorem lease_mutual_exclusion (db : YoDatabase) (t1 t2 : datetime)
    (id1 id2 : string) (block1 block2 : option Z) (lease1 lease2 : Z) :
  id1 <> id2 ->
  chain_status db <> [] ->
  Forall (fun r => t1 < lock_expires r /\ t2 < lock_expires r) (chain_status db) ->
  let first := try_active_follower db t1 id1 block1 lease1 in
  let second := try_active_follower (snd first) t2 id2 block2 lease2 in
  snd first = db
  /\ snd second = db
  /\ fst first = get_chain_status db
  /\ fst second = get_chain_status db
  /\ forall s1 s2, fst first = Ret (Some s1) -> fst second = Ret (Some s2) ->
       ~ (active_follower_id s1 = id1 /\ active_follower_id s2 = id2).
Proof.
  intros Hne Hrows Hlive.
  assert (forall t id block lease,
             Forall (fun r => t < lock_expires r) (chain_status db) ->
             try_active_follower db t id block lease = (get_chain_status db, db))
    as Hcall.
  { intros t id block lease Ht. unfold try_active_follower.
    destruct (engine_ok db) eqn:Hok.
    - destruct (chain_status db) as [|r rows] eqn:Hcs; [contradiction Hrows; reflexivity|].
      rewrite map_fixed.
      + rewrite <- Hcs, with_chain_status_same. reflexivity.
      + eapply Forall_impl; [exact Ht|]. intros x Hx. simpl in Hx.
        unfold active_follower_row, active_follower_where.
        destruct (lock_expires x <=? t) eqn:Hle; [|reflexivity].
        apply Z.leb_le in Hle. lia.
    - unfold get_chain_status. rewrite Hok. reflexivity. }
  simpl.
  rewrite (Hcall t1 id1 block1 lease1)
    by (eapply Forall_impl; [exact Hlive|]; intros x [Hx _]; exact Hx).
  simpl.
  rewrite (Hcall t2 id2 block2 lease2)
    by (eapply Forall_impl; [exact Hlive|]; intros x [_ Hx]; exact Hx).
  simpl. repeat split.
  intros s1 s2 H1 H2 [Ha Hb]. rewrite H1 in H2. injection H2 as <-.
  apply Hne. rewrite <- Ha, <- Hb. reflexivity.
Qed.

Lemma lease_mutual_exclusion_witness :
  let first := try_active_follower leased_db 10000000 "follower-b" None 30 in
  let second := try_active_follower (snd first) 20000000 "follower-c" None 30 in
  snd first = leased_db
  /\ snd second = leased_db
  /\ fst first = get_chain_status leased_db
  /\ fst second = get_chain_status leased_db
  /\ forall s1 s2, fst first = Ret (Some s1) -> fst second = Ret (Some s2) ->
       ~ (active_follower_id s1 = "follower-b" /\ active_follower_id s2 = "follower-c").
Proof.
  apply (lease_mutual_exclusion leased_db 10000000 20000000
           "follower-b" "follower-c" None None 30 30).
  - discriminate.
  - discriminate.
  - repeat constructor; simpl; lia.
Defined.

(** ** Notification store *)

Lemma existsb_conflict (db : YoDatabase) (row : Notification)
    (to_username notify_type trx_id from_username : string) :
  has_key db to_username notify_type trx_id from_username ->
  n_to_username row = to_username ->
  n_notify_type row = notify_type ->
  n_trx_id row = Some trx_id ->
  n_from_username row = Some from_username ->
  existsb (notification_idx_conflict row) (notifications db) = true.
Proof.
  intros (r & Hin & Hto & Hty & Htrx & Hfrom) Rto Rty Rtrx Rfrom.
  apply existsb_exists. exists r. split; [exact Hin|].
  unfold notification_idx_conflict, unique_col_eq.
  rewrite Rto, Rty, Rtrx, Rfrom, Hto, Hty, Htrx, Hfrom.
  rewrite !String.eqb_refl. reflexivity.
Qed.

Lemma insert_notification_conflict (db : YoDatabase) (row : Notification) :
  engine_ok db = true ->
  existsb (notification_idx_conflict row) (notifications db) = true ->
  exists msg,
    insert_notification db row = (Some (SqlIntegrityError msg), db)
    /\ is_duplicate_entry_error (SqlIntegrityError msg) = true.
Proof.
  intros Hok Hc. unfold insert_notification. rewrite Hok. simpl.
  rewrite Hc.
  destruct (existsb (fun r => String.eqb (n_nid r) (n_nid row)) (notifications db)).
  - exists msg_notifications_pk. split; reflexivity.
  - exists msg_notifications_idx. split; reflexivity.
Qed.

(** C1.  When the key (to_username, notify_type, trx_id, from_username)
    of the object is already stored, [create_notification] leaves the
    store as it is (one row for the key, no second one) and returns
    [False], where the sibling [_create_notification] returns [True] on
    the same row. *)
Theorem create_notification_duplicate (db : YoDatabase) (now : datetime)
    (uuid : string) (o : NotificationObject)
    (to_username trx_id from_username : string) :
  engine_ok db = true ->
  no_to_username o = SqlText to_username ->
  no_trx_id o = SqlText trx_id ->
  no_from_username o = SqlText from_username ->
  has_key db to_username (no_notify_type o) trx_id from_username ->
  create_notification db now uuid o = (false, db)
  /\ forall nid row,
       bind_notification nid now o = inr row ->
       _create_notification db row = (true, db).
Proof.
  intros Hok Hto Htrx Hfrom Hkey.
  assert (forall nid,
             bind_notification nid now o
             = inr (mkNotification nid (no_notify_type o) to_username
                      (Some from_username) (no_json_data o)
                      (no_priority_level o) now (Some trx_id))) as Hbind.
  { intros nid. unfold bind_notification. rewrite Hto, Htrx, Hfrom. reflexivity. }
  assert (forall nid row, bind_notification nid now o = inr row ->
          exists msg, insert_notification db row = (Some (SqlIntegrityError msg), db)
                      /\ is_duplicate_entry_error (SqlIntegrityError msg) = true)
    as Hins.
  { intros nid row Hrow. rewrite Hbind in Hrow. injection Hrow as <-.
    apply insert_notification_conflict; [exact Hok|].
    eapply existsb_conflict; [exact Hkey| | | |]; reflexivity. }
  split.
  - unfold create_notification. rewrite Hok. simpl.
    set (nid := match no_nid o with Some n => n | None => uuid end).
    destruct (Hins nid _ (Hbind nid)) as (msg & Hi & Hdup).
    rewrite Hbind, Hi, Hdup. reflexivity.
  - intros nid row Hrow. unfold _create_notification.
    destruct (Hins nid row Hrow) as (msg & Hi & Hdup).
    rewrite Hi, Hdup. reflexivity.
Qed.

Lemma create_notification_duplicate_witness :
  create_notification one_vote_db 5000000 "nid-2" vote_object = (false, one_vote_db)
  /\ forall nid row,
       bind_notification nid 5000000 vote_object = inr row ->
       _create_notification one_vote_db row = (true, one_vote_db).
Proof.
  apply (create_notification_duplicate one_vote_db 5000000 "nid-2" vote_object
           "bob" "T1" "alice"); try reflexivity.
  exists vote_row. repeat split. left. reflexivity.
Defined.

(** A NULL [from_username] keeps the unique index from matching: the same
    account_update stored twice, under two generated ids, makes two
    rows. *)
Example null_key_not_unique :
  let first := create_notification empty_db 1000000 "uuid-0" update_object in
  let second := create_notification (snd first) 2000000 "uuid-1" update_object in
  fst first = true
  /\ fst second = true
  /\ map n_nid (notifications (snd second)) = ["uuid-0"; "uuid-1"].
Proof. repeat split; reflexivity. Qed.

(** ** Admission counts and rate limits *)

Lemma priority_count_where_iff (to_username : string) (priority : Z)
    (now : datetime) (window : Z) (a : Action) :
  a_created_at a <= now ->
  priority_count_where to_username priority (now - timedelta_seconds window) a = true
  <-> counted_action to_username priority now window a.
Proof.
  intros Hpast. unfold priority_count_where, counted_action.
  rewrite !andb_true_iff, String.eqb_eq, !Z.leb_le. tauto.
Qed.

Lemma filter_length_agree (to_username : string) (priority : Z) (now : datetime)
    (window : Z) (ledger : list Action) :
  ledger_in_past now ledger ->
  length (List.filter
            (priority_count_where to_username priority
               (now - timedelta_seconds window)) ledger)
  = length (filter (counted_action to_username priority now window) ledger).
Proof.
  induction 1 as [|a ledger Ha _ IH]; [reflexivity|].
  simpl.
  destruct (priority_count_where _ _ _ a) eqn:Hw.
  - rewrite filter_cons_True
      by (apply priority_count_where_iff; assumption).
    simpl. rewrite IH. reflexivity.
  - rewrite filter_cons_False; [exact IH|].
    intros Hc. apply priority_count_where_iff in Hc; [|assumption].
    rewrite Hc in Hw. discriminate Hw.
Qed.

Lemma get_priority_count_up (db : YoDatabase) (now : datetime)
    (to_username : string) (priority window : Z) :
  engine_ok db = true ->
  get_priority_count db now to_username priority window None
  = Z.of_nat (length (List.filter
                        (priority_count_where to_username priority
                           (now - timedelta_seconds window)) (actions db))).
Proof.
  intros Hok. unfold get_priority_count. rewrite Hok.
  destruct (Z.ltb_spec (Z.of_nat (length (List.filter
     (priority_count_where to_username priority
        (now - timedelta_seconds window)) (actions db)))) 0); [lia|reflexivity].
Qed.

Lemma get_priority_count_down (db : YoDatabase) (now : datetime)
    (to_username : string) (priority window : Z) (start_time : option datetime) :
  engine_ok db = false ->
  get_priority_count db now to_username priority window start_time = 0.
Proof.
  intros Hok. unfold get_priority_count. rewrite Hok. reflexivity.
Qed.

Lemma get_priority_count_after_mark_sent (db : YoDatabase) (t now : datetime)
    (n : Notification) (transport : string) (priority window : Z) :
  engine_ok db = true ->
  priority <= n_priority_level n ->
  now - timedelta_seconds window <= t ->
  get_priority_count (snd (mark_sent db t n transport)) now
    (n_to_username n) priority window None
  = get_priority_count db now (n_to_username n) priority window None + 1.
Proof.
  intros Hok Hp Ht.
  rewrite !get_priority_count_up;
    [|exact Hok|unfold mark_sent; rewrite Hok; destruct db; exact Hok].
  unfold mark_sent. rewrite Hok. simpl.
  rewrite List.filter_app, length_app. simpl.
  unfold priority_count_where at 2. simpl.
  rewrite String.eqb_refl.
  destruct (Z.leb_spec priority (n_priority_level n)); [|lia].
  destruct (Z.leb_spec (now - timedelta_seconds window) t); [|lia].
  simpl. lia.
Qed.

Lemma get_priority_count_no_actions (db : YoDatabase) (now : datetime)
    (to_username : string) (priority window : Z) (start_time : option datetime) :
  no_actions_for to_username (actions db) ->
  get_priority_count db now to_username priority window start_time = 0.
Proof.
  intros Hnone. unfold get_priority_count.
  destruct (engine_ok db); [|reflexivity].
  assert (forall st, List.filter (priority_count_where to_username priority st)
                       (actions db) = []) as ->; [|reflexivity].
  intros st. induction Hnone as [|a l Ha _ IH]; [reflexivity|].
  simpl. unfold priority_count_where at 1.
  destruct (String.eqb_spec (a_to_username a) to_username); [contradiction|].
  simpl. exact IH.
Qed.

(** C6.  With the store answering and no Action dated in the future,
    [get_priority_count] is the number of the user's Actions at the
    priority level or above created within the trailing window; hence a
    PRIORITY-level Action recorded by [mark_sent] adds one to the count
    that a later LOW-tier check (window 3600) reads for that user. *)
Theorem get_priority_count_counts (db : YoDatabase) (now : datetime)
    (to_username : string) (priority window : Z) :
  engine_ok db = true ->
  ledger_in_past now (actions db) ->
  get_priority_count db now to_username priority window None
  = count_at_or_above (actions db) to_username priority now window
  /\ forall (n : Notification) (transport : string) (sent_at : datetime),
       n_to_username n = to_username ->
       n_priority_level n = Priority.PRIORITY ->
       now - timedelta_seconds 3600 <= sent_at ->
       get_priority_count (snd (mark_sent db sent_at n transport)) now
         to_username Priority.LOW 3600 None
       = get_priority_count db now to_username Priority.LOW 3600 None + 1.
Proof.
  intros Hok Hpast. split.
  - rewrite get_priority_count_up by exact Hok.
    unfold count_at_or_above. rewrite filter_length_agree by exact Hpast.
    reflexivity.
  - intros n transport sent_at Hto Hp Hwin. subst to_username.
    apply get_priority_count_after_mark_sent; [exact Hok| |exact Hwin].
    rewrite Hp. unfold Priority.LOW, Priority.PRIORITY. lia.
Qed.

Lemma get_priority_count_counts_witness :
  get_priority_count busy_db 7200000000 "bob" Priority.LOW 3600 None
  = count_at_or_above (actions busy_db) "bob" Priority.LOW 7200000000 3600
  /\ forall (n : Notification) (transport : string) (sent_at : datetime),
       n_to_username n = "bob" ->
       n_priority_level n = Priority.PRIORITY ->
       7200000000 - timedelta_seconds 3600 <= sent_at ->
       get_priority_count (snd (mark_sent busy_db sent_at n transport)) 7200000000
         "bob" Priority.LOW 3600 None
       = get_priority_count busy_db 7200000000 "bob" Priority.LOW 3600 None + 1.
Proof.
  apply (get_priority_count_counts busy_db 7200000000 "bob" Priority.LOW 3600).
  - reflexivity.
  - repeat constructor; simpl; lia.
Defined.

(** On that ledger only the LOW Action of half an hour ago counts for bob
    at LOW over the last hour. *)
Example busy_count :
  get_priority_count busy_db 7200000000 "bob" Priority.LOW 3600 None = 1
  /\ get_priority_count busy_db 7200000000 "bob" Priority.MARKETING 3600 None = 2
  /\ get_priority_count busy_db 7200000000 "bob" Priority.LOW 7200 None = 2.
Proof. repeat split; reflexivity. Qed.

(** C7.  A LOW notification is admitted without override iff the count at
    or above LOW over 3600 seconds is 0, and with override iff that count
    is below 10; so with no earlier Action for the user the first LOW
    notification is admitted, and once it is marked sent a second one
    checked within the hour is denied (and admitted under override). *)
Theorem low_admission (db : YoDatabase) (now : datetime) (n : Notification) :
  n_priority_level n = Priority.LOW ->
  (check_ratelimit db now n false = true
   <-> get_priority_count db now (n_to_username n) Priority.LOW 3600 None = 0)
  /\ (check_ratelimit db now n true = true
      <-> get_priority_count db now (n_to_username n) Priority.LOW 3600 None < 10)
  /\ forall (n2 : Notification) (transport : string) (sent_at later : datetime),
       engine_ok db = true ->
       no_actions_for (n_to_username n) (actions db) ->
       n_priority_level n2 = Priority.LOW ->
       n_to_username n2 = n_to_username n ->
       later - timedelta_seconds 3600 <= sent_at ->
       check_ratelimit db now n false = true
       /\ check_ratelimit (snd (mark_sent db sent_at n transport)) later n2 false = false
       /\ check_ratelimit (snd (mark_sent db sent_at n transport)) later n2 true = true.
Proof.
  intros Hlow.
  assert (forall d t m o, n_priority_level m = Priority.LOW ->
            check_ratelimit d t m o
            = if o then get_priority_count d t (n_to_username m) Priority.LOW 3600 None <? 10
              else get_priority_count d t (n_to_username m) Priority.LOW 3600 None =? 0)
    as Hcheck.
  { intros d t m o Hm. unfold check_ratelimit. rewrite Hm. reflexivity. }
  split; [|split].
  - rewrite Hcheck by exact Hlow. apply Z.eqb_eq.
  - rewrite Hcheck by exact Hlow. apply Z.ltb_lt.
  - intros n2 transport sent_at later Hok Hnone Hlow2 Hto Hwin.
    rewrite !Hcheck by assumption.
    rewrite Hto.
    rewrite (get_priority_count_after_mark_sent db sent_at later n transport
               Priority.LOW 3600 Hok); [|rewrite Hlow; lia|exact Hwin].
    rewrite !get_priority_count_no_actions by exact Hnone.
    repeat split.
Qed.

Lemma low_admission_witness :
  (check_ratelimit empty_db 0 (low_to_bob "n1") false = true
   <-> get_priority_count empty_db 0 "bob" Priority.LOW 3600 None = 0)
  /\ (check_ratelimit empty_db 0 (low_to_bob "n1") true = true
      <-> get_priority_count empty_db 0 "bob" Priority.LOW 3600 None < 10)
  /\ forall (n2 : Notification) (transport : string) (sent_at later : datetime),
       engine_ok empty_db = true ->
       no_actions_for "bob" (actions empty_db) ->
       n_priority_level n2 = Priority.LOW ->
       n_to_username n2 = "bob" ->
       later - timedelta_seconds 3600 <= sent_at ->
       check_ratelimit empty_db 0 (low_to_bob "n1") false = true
       /\ check_ratelimit (snd (mark_sent empty_db sent_at (low_to_bob "n1") transport))
            later n2 false = false
       /\ check_ratelimit (snd (mark_sent empty_db sent_at (low_to_bob "n1") transport))
            later n2 true = true.
Proof.
  apply (low_admission empty_db 0 (low_to_bob "n1")). reflexivity.
Defined.

(** C10.  [get_priority_count] is never negative; when the query raises
    it returns 0, so [check_ratelimit] then decides as it does on a store
    that answers and holds no Action for the user: it admits every
    notification of a priority level from MARKETING to ALWAYS, with or
    without override. *)
Theorem get_priority_count_fails_open (db : YoDatabase) (now : datetime)
    (to_username : string) (priority window : Z) (start_time : option datetime) :
  0 <= get_priority_count db now to_username priority window start_time
  /\ (engine_ok db = false ->
      get_priority_count db now to_username priority window start_time = 0)
  /\ (engine_ok db = false ->
      forall (n : Notification) (override : bool) (quiet : YoDatabase),
        engine_ok quiet = true ->
        no_actions_for (n_to_username n) (actions quiet) ->
        check_ratelimit db now n override = check_ratelimit quiet now n override)
  /\ (engine_ok db = false ->
      forall (n : Notification) (override : bool),
        Priority.MARKETING <= n_priority_level n <= Priority.ALWAYS ->
        check_ratelimit db now n override = true).
Proof.
  split; [|split; [|split]].
  - unfold get_priority_count.
    destruct (Z.ltb_spec (if engine_ok db then
                 Z.of_nat (length (List.filter
                   (priority_count_where to_username priority
                      match start_time with
                      | Some t => t
                      | None => now - timedelta_seconds window
                      end) (actions db))) else 0) 0); lia.
  - apply get_priority_count_down.
  - intros Hdown n override quiet _ Hnone.
    unfold check_ratelimit.
    rewrite !(get_priority_count_down db) by exact Hdown.
    rewrite !(get_priority_count_no_actions quiet) by exact Hnone.
    reflexivity.
  - intros Hdown n override Hlevel.
    unfold check_ratelimit.
    rewrite !(get_priority_count_down db) by exact Hdown.
    unfold Priority.MARKETING, Priority.LOW, Priority.NORMAL, Priority.PRIORITY,
      Priority.ALWAYS in *.
    assert (n_priority_level n = 1 \/ n_priority_level n = 2
            \/ n_priority_level n = 3 \/ n_priority_level n = 4
            \/ n_priority_level n = 5) as Hcases by lia.
    destruct Hcases as [-> | [-> | [-> | [-> | ->]]]];
      destruct override; reflexivity.
Qed.

(** ** Event classifier *)

Section ClassifierProperties.

Variable clock : nat -> datetime.
Variable uuid4 : nat -> string.
Variable json_loads : string -> option json.
Variable json_dumps : json -> string.
Variable post_is_comment : string -> outcome bool.

Lemma handle_follow_other_tag (op : Op) (tag : string)
    (payload : list (string * json)) (auths : list json) (w : World) :
  social_op json_loads op tag payload auths ->
  tag <> "follow" ->
  handle_follow clock uuid4 json_loads json_dumps op w = (Ret false, w).
Proof.
  intros (_ & _ & (text & rest & Hjson & Hloads) & _) Htag.
  unfold handle_follow, bind, lift, loads. rewrite Hjson, Hloads. simpl.
  destruct (String.eqb_spec tag "follow"); [contradiction|reflexivity].
Qed.

Lemma handle_resteem_other_tag (op : Op) (tag : string)
    (payload : list (string * json)) (auths : list json) (w : World) :
  social_op json_loads op tag payload auths ->
  tag <> "reblog" ->
  handle_resteem clock uuid4 json_loads json_dumps op w = (Ret true, w).
Proof.
  intros (_ & _ & (text & rest & Hjson & Hloads) & _) Htag.
  unfold handle_resteem, bind, lift, loads. rewrite Hjson, Hloads. simpl.
  destruct (String.eqb_spec tag "reblog"); [contradiction|reflexivity].
Qed.

Lemma handle_follow_bad_signers (op : Op) (payload : list (string * json))
    (auths : list json) (follower : json) (w : World) :
  social_op json_loads op "follow" payload auths ->
  dict_get "follower" payload = Some follower ->
  is_Some (dict_get "following" payload) ->
  bad_signers auths follower ->
  handle_follow clock uuid4 json_loads json_dumps op w = (Ret false, w).
Proof.
  intros (_ & _ & (text & rest & Hjson & Hloads) & Hauths) Hfollower
         [following Hfollowing] Hbad.
  unfold handle_follow, bind, lift, loads.
  rewrite Hjson, Hloads. simpl.
  rewrite Hfollower, Hfollowing, Hauths. simpl.
  destruct Hbad as [Hlen | (signer & -> & Hne)].
  - destruct (Nat.eqb_spec (length auths) 1); [contradiction|reflexivity].
  - simpl. rewrite Hne. reflexivity.
Qed.

Lemma handle_resteem_bad_signers (op : Op) (payload : list (string * json))
    (auths : list json) (account : json) (w : World) :
  social_op json_loads op "reblog" payload auths ->
  dict_get "account" payload = Some account ->
  is_Some (dict_get "author" payload) ->
  is_Some (dict_get "permlink" payload) ->
  bad_signers auths account ->
  handle_resteem clock uuid4 json_loads json_dumps op w = (Ret true, w).
Proof.
  intros (_ & _ & (text & rest & Hjson & Hloads) & Hauths) Haccount
         [author Hauthor] [permlink Hpermlink] Hbad.
  unfold handle_resteem, bind, lift, loads.
  rewrite Hjson, Hloads. simpl.
  rewrite Haccount, Hauthor, Hpermlink, Hauths. simpl.
  destruct Hbad as [Hlen | (signer & -> & Hne)].
  - destruct (Nat.eqb_spec (length auths) 1); [contradiction|reflexivity].
  - simpl. rewrite Hne. reflexivity.
Qed.

(** C8.  A follow or resteem operation that does not carry exactly one
    posting signer, or whose single signer is not the acting account,
    leaves the world as it was (no notification is stored) and raises
    nothing: [handle_follow] returns [False], [handle_resteem] [True], and
    [notify] the gathered pair, which [run_queue] does not queue again. *)
Theorem bad_signers_rejected (op : Op) (tag : string)
    (payload : list (string * json)) (auths : list json) (actor : json)
    (w : World) :
  social_op json_loads op tag payload auths ->
  acting_account tag payload actor ->
  bad_signers auths actor ->
  handle_follow clock uuid4 json_loads json_dumps op w = (Ret false, w)
  /\ handle_resteem clock uuid4 json_loads json_dumps op w = (Ret true, w)
  /\ notify clock uuid4 json_loads json_dumps post_is_comment op w
     = (Ret (Gathered [false; true]), w)
  /\ truthy (Gathered [false; true]) = true.
Proof.
  intros Hop Hactor Hbad.
  assert (handle_follow clock uuid4 json_loads json_dumps op w = (Ret false, w)
          /\ handle_resteem clock uuid4 json_loads json_dumps op w = (Ret true, w))
    as [Hf Hr].
  { destruct Hactor as [(-> & Hfollower & Hfollowing)
                       | (-> & Haccount & Hauthor & Hpermlink)].
    - split.
      + eapply handle_follow_bad_signers; eassumption.
      + eapply handle_resteem_other_tag; [eassumption|discriminate].
    - split.
      + eapply handle_follow_other_tag; [eassumption|discriminate].
      + eapply handle_resteem_bad_signers; eassumption. }
  repeat split; [exact Hf|exact Hr|].
  destruct Hop as (Hname & Hid & _).
  unfold notify. rewrite Hname. simpl.
  unfold bind at 1, lift at 1. rewrite Hid. simpl.
  unfold both, bind, gather. rewrite Hf, Hr. reflexivity.
Qed.

End ClassifierProperties.

Lemma bad_signers_rejected_witness :
  handle_follow example_clock example_uuid4 example_json_loads example_json_dumps
    two_signer_follow empty_world = (Ret false, empty_world)
  /\ handle_resteem example_clock example_uuid4 example_json_loads example_json_dumps
       two_signer_follow empty_world = (Ret true, empty_world)
  /\ notify example_clock example_uuid4 example_json_loads example_json_dumps
       example_is_comment two_signer_follow empty_world
     = (Ret (Gathered [false; true]), empty_world)
  /\ truthy (Gathered [false; true]) = true.
Proof.
  apply (bad_signers_rejected example_clock example_uuid4 example_json_loads
           example_json_dumps example_is_comment two_signer_follow
           "follow" follow_payload [JStr "alice"; JStr "mallory"] (JStr "alice")).
  - repeat split. exists follow_text, []. split; reflexivity.
  - left. repeat split. exists (JStr "bob"). reflexivity.
  - left. simpl. lia.
Defined.

(** C8 as stated fails on a payload that lacks a key the handler reads:
    the keys are read before the signers are looked at, so a follow
    carrying two posting signers and naming no followed account raises
    KeyError out of [handle_follow] and out of [notify]. *)
Lemma follow_without_following_raises :
  bad_signers [JStr "alice"; JStr "mallory"] (JStr "alice")
  /\ handle_follow example_clock example_uuid4 short_json_loads
       example_json_dumps short_follow empty_world
     = (Raise (KeyError "following"), empty_world)
  /\ notify example_clock example_uuid4 short_json_loads example_json_dumps
       example_is_comment short_follow empty_world
     = (Raise (KeyError "following"), empty_world).
Proof.
  split; [left; simpl; lia|]. split; vm_compute; reflexivity.
Qed.

(** *** The mention pattern *)

Lemma space_not_name_char (c : ascii) :
  is_space c = true -> is_name_char c = false.
Proof.
  destruct c as [[] [] [] [] [] [] [] []]; vm_compute; intros H;
    first [reflexivity | discriminate H].
Qed.

Lemma name_char_not_at (c : ascii) :
  is_name_char c = true -> (char_code c =? 64)%N = false.
Proof.
  destruct c as [[] [] [] [] [] [] [] []]; vm_compute; intros H;
    first [reflexivity | discriminate H].
Qed.

Lemma lower_is_name_char (c : ascii) :
  is_lower c = true -> is_name_char c = true.
Proof. intros H. unfold is_name_char. rewrite H. reflexivity. Qed.

Lemma space_not_at (c : ascii) :
  is_space c = true -> (char_code c =? 64)%N = false.
Proof.
  destruct c as [[] [] [] [] [] [] [] []]; vm_compute; intros H;
    first [reflexivity | discriminate H].
Qed.

Lemma char_code_at (c : ascii) :
  (char_code c =? 64)%N = true -> c = "@"%char.
Proof.
  destruct c as [[] [] [] [] [] [] [] []]; vm_compute; intros H;
    first [reflexivity | discriminate H].
Qed.

Lemma greedy_run_le (n : nat) (s : string) : (greedy_run n s <= n)%nat.
Proof.
  revert s. induction n as [|n IH]; intros s; simpl; [lia|].
  destruct s as [|c s]; [lia|].
  destruct (is_name_char c); [|lia].
  specialize (IH s). lia.
Qed.

Lemma greedy_run_prefix (n : nat) (s : string) (k : nat) :
  (k < greedy_run n s)%nat ->
  exists c, String.get k s = Some c /\ is_name_char c = true.
Proof.
  revert s k. induction n as [|n IH]; intros s k; simpl; [lia|].
  destruct s as [|c s]; [lia|].
  destruct (is_name_char c) eqn:Hc; [|lia].
  destruct k as [|k]; intros Hk.
  - exists c. split; [reflexivity|exact Hc].
  - simpl. apply IH. lia.
Qed.

Lemma greedy_run_exact (n : nat) (r : string) (c : ascii) (post : string) :
  all_chars is_name_char r = true ->
  (String.length r <= n)%nat ->
  is_name_char c = false ->
  greedy_run n (r ++ String c post)%string = String.length r.
Proof.
  revert n. induction r as [|a r IH]; intros n Hall Hlen Hc; simpl in *.
  - destruct n; [reflexivity|]. simpl. rewrite Hc. reflexivity.
  - apply andb_true_iff in Hall as [Ha Hall].
    destruct n as [|n]; [lia|]. simpl. rewrite Ha.
    rewrite IH; [reflexivity|exact Hall|lia|exact Hc].
Qed.

Lemma backtrack_sound (K : nat) (s : string) (k : nat) :
  backtrack K s = Some k -> (2 <= k <= K)%nat /\ space_at k s = true.
Proof.
  induction K as [|K IH]; cbn [backtrack].
  - simpl. discriminate.
  - destruct ((2 <=? S K)%nat && space_at (S K) s) eqn:Hhere.
    + intros [= <-]. apply andb_true_iff in Hhere as [H2 Hs].
      apply Nat.leb_le in H2. split; [lia|exact Hs].
    + intros Hk. destruct (IH Hk) as [Hr Hs]. split; [lia|exact Hs].
Qed.

Lemma backtrack_top (K : nat) (s : string) :
  (2 <= K)%nat -> space_at K s = true -> backtrack K s = Some K.
Proof.
  intros H2 Hs. destruct K as [|K]; [lia|]. cbn [backtrack].
  rewrite Hs. destruct (Nat.leb_spec 2 (S K)); [reflexivity|lia].
Qed.

Lemma get_app_length (r : string) (c : ascii) (post : string) :
  String.get (String.length r) (r ++ String c post)%string = Some c.
Proof. induction r as [|a r IH]; simpl; [reflexivity|exact IH]. Qed.

Lemma substring_app_length (r x : string) :
  String.substring 0 (String.length r) (r ++ x)%string = r.
Proof.
  induction r as [|a r IH]; simpl.
  - destruct x; reflexivity.
  - rewrite IH. reflexivity.
Qed.

Lemma get_split (k : nat) (s : string) (c : ascii) :
  String.get k s = Some c ->
  exists post,
    s = (String.substring 0 k s ++ String c post)%string
    /\ String.length (String.substring 0 k s) = k.
Proof.
  revert s. induction k as [|k IH]; intros s Hget.
  - destruct s as [|a s]; [discriminate Hget|].
    simpl in Hget. injection Hget as ->. exists s. split; reflexivity.
  - destruct s as [|a s]; [discriminate Hget|].
    simpl in Hget. destruct (IH s Hget) as (post & Heq & Hlen).
    exists post. split.
    + change (String a s
              = String a (String.substring 0 k s ++ String c post)%string).
      f_equal. exact Heq.
    + change (S (String.length (String.substring 0 k s)) = S k).
      f_equal. exact Hlen.
Qed.

Lemma all_chars_prefix (p : ascii -> bool) (k : nat) (s : string) :
  (forall j, (j < k)%nat -> exists c, String.get j s = Some c /\ p c = true) ->
  all_chars p (String.substring 0 k s) = true.
Proof.
  revert s. induction k as [|k IH]; intros s H.
  - destruct s; reflexivity.
  - destruct (H 0%nat ltac:(lia)) as (c & Hget & Hc).
    destruct s as [|a s]; [discriminate Hget|].
    simpl in Hget. injection Hget as ->. simpl. rewrite Hc. simpl.
    apply IH. intros j Hj. apply (H (S j)). lia.
Qed.

Lemma match_here_not_at (a : ascii) (s : string) :
  (char_code a =? 64)%N = false -> match_here (String a s) = None.
Proof.
  intros Ha. simpl. destruct s as [|c rest]; [reflexivity|].
  rewrite Ha. reflexivity.
Qed.

(** A match of the pattern is an at sign, a username and a whitespace
    character. *)
Lemma match_here_sound (s w : string) (len : nat) :
  match_here s = Some (w, len) ->
  exists c post,
    s = ("@" ++ w ++ String c post)%string
    /\ is_username w
    /\ is_space c = true
    /\ len = (String.length w + 2)%nat.
Proof.
  destruct s as [|a [|c0 rest]]; [discriminate|discriminate|].
  unfold match_here.
  destruct (char_code a =? 64)%N eqn:Ha; [|discriminate].
  destruct (is_lower c0) eqn:Hc0; [|discriminate].
  simpl andb. cbv iota.
  destruct (backtrack (greedy_run 15 rest) rest) as [k|] eqn:Hb; [|discriminate].
  intros [= <- <-].
  apply backtrack_sound in Hb as [[Hk2 Hkg] Hspace].
  unfold space_at in Hspace.
  destruct (String.get k rest) as [c|] eqn:Hget; [|discriminate].
  pose proof (greedy_run_le 15 rest) as Hg.
  assert (forall j, (j < k)%nat ->
            exists x, String.get j rest = Some x /\ is_name_char x = true) as Hpre.
  { intros j Hj. apply (greedy_run_prefix 15). lia. }
  destruct (get_split k rest c Hget) as (post & Hrest & Hlen).
  exists c, post. repeat split.
  - apply char_code_at in Ha. subst a.
    change (String "@" (String c0 rest)
            = String "@" (String c0 (String.substring 0 k rest ++ String c post)%string)).
    rewrite <- Hrest. reflexivity.
  - exists c0, (String.substring 0 k rest). repeat split.
    + exact Hc0.
    + apply all_chars_prefix. exact Hpre.
    + lia.
    + lia.
  - exact Hspace.
  - simpl. lia.
Qed.

Lemma match_here_complete (w : string) (c : ascii) (post : string) :
  is_username w ->
  is_space c = true ->
  match_here ("@" ++ w ++ String c post)%string
  = Some (w, (String.length w + 2)%nat).
Proof.
  intros (c0 & r & -> & Hc0 & Hall & Hlen) Hc.
  change (match_here (String "@" (String c0 (r ++ String c post)%string))
          = Some (String c0 r, (S (String.length r) + 2)%nat)).
  unfold match_here. rewrite Hc0. simpl andb. cbv iota.
  rewrite (greedy_run_exact 15 r c post Hall)
    by (try lia; apply space_not_name_char; exact Hc).
  rewrite backtrack_top.
  - rewrite substring_app_length. do 2 f_equal. lia.
  - lia.
  - unfold space_at. rewrite get_app_length. exact Hc.
Qed.

(** Inside a match no other match begins. *)
Lemma no_match_inside (w : string) (c : ascii) (post : string) (j : nat) :
  all_chars is_name_char w = true ->
  is_space c = true ->
  (j <= String.length w)%nat ->
  match_here (drop_chars j (w ++ String c post)%string) = None.
Proof.
  revert j. induction w as [|b w IH]; intros j Hall Hc Hj.
  - simpl in Hj. assert (j = 0%nat) as -> by lia.
    apply match_here_not_at, space_not_at, Hc.
  - simpl in Hall. apply andb_true_iff in Hall as [Hb Hall].
    destruct j as [|j].
    + apply match_here_not_at, name_char_not_at, Hb.
    + simpl in Hj. simpl. apply IH; [exact Hall|exact Hc|lia].
Qed.

Lemma match_here_no_overlap (s w : string) (len j : nat) :
  match_here s = Some (w, len) ->
  (0 < j < len)%nat ->
  match_here (drop_chars j s) = None.
Proof.
  intros Hm Hj.
  apply match_here_sound in Hm as (c & post & -> & Hw & Hc & ->).
  destruct j as [|j]; [lia|].
  change (match_here (drop_chars j (w ++ String c post)%string) = None).
  destruct Hw as (c0 & r & -> & Hc0 & Hall & _).
  apply no_match_inside; [|exact Hc|lia].
  simpl. rewrite (lower_is_name_char c0 Hc0), Hall. reflexivity.
Qed.

Lemma drop_chars_empty (j : nat) : drop_chars j EmptyString = EmptyString.
Proof. destruct j; reflexivity. Qed.

(** The scan reports a match exactly at the offsets where the pattern
    matches, provided none begins in the part it skips. *)
Lemma finditer_from_spec (s : string) (skip pos : nat) (i : nat) (w : string) :
  (forall j, (j < skip)%nat -> match_here (drop_chars j s) = None) ->
  In (i, w) (finditer_from skip pos s)
  <-> exists j len, i = (pos + j)%nat /\ match_here (drop_chars j s) = Some (w, len).
Proof.
  revert skip pos. induction s as [|a s IH]; intros skip pos Hskip.
  - simpl. split; [contradiction|].
    intros (j & len & _ & Hm). rewrite drop_chars_empty in Hm. discriminate Hm.
  - destruct skip as [|skip].
    + cbn [finditer_from].
      destruct (match_here (String a s)) as [[name len]|] eqn:Hm.
      * split.
        -- intros [Heq | Hin].
           ++ injection Heq as <- <-. exists 0%nat, len.
              split; [lia|exact Hm].
           ++ apply IH in Hin.
              ** destruct Hin as (j & len' & -> & Hj).
                 exists (S j), len'. split; [lia|exact Hj].
              ** intros j Hj.
                 apply (match_here_no_overlap (String a s) name len (S j) Hm). lia.
        -- intros (j & len' & -> & Hj). destruct j as [|j].
           ++ left. cbn [drop_chars] in Hj. rewrite Hm in Hj. injection Hj as <- <-.
              f_equal. lia.
           ++ right. apply IH.
              ** intros j' Hj'.
                 apply (match_here_no_overlap (String a s) name len (S j') Hm). lia.
              ** exists j, len'. split; [lia|exact Hj].
      * split.
        -- intros Hin. apply IH in Hin; [|intros j Hj; lia].
           destruct Hin as (j & len' & -> & Hj).
           exists (S j), len'. split; [lia|exact Hj].
        -- intros (j & len' & -> & Hj). destruct j as [|j].
           ++ cbn [drop_chars] in Hj. rewrite Hm in Hj. discriminate Hj.
           ++ apply IH; [intros j' Hj'; lia|].
              exists j, len'. split; [lia|exact Hj].
    + cbn [finditer_from]. split.
      * intros Hin. apply IH in Hin.
        -- destruct Hin as (j & len' & -> & Hj).
           exists (S j), len'. split; [lia|exact Hj].
        -- intros j Hj. apply (Hskip (S j)). lia.
      * intros (j & len' & -> & Hj). destruct j as [|j].
        -- rewrite (Hskip 0%nat) in Hj by lia. discriminate Hj.
        -- apply IH.
           ++ intros j' Hj'. apply (Hskip (S j')). lia.
           ++ exists j, len'. split; [lia|exact Hj].
Qed.

Lemma drop_chars_app_length (pre x : string) :
  drop_chars (String.length pre) (pre ++ x)%string = x.
Proof.
  induction pre as [|a pre IH]; simpl; [|exact IH].
  destruct x; reflexivity.
Qed.

Lemma drop_chars_split (j : nat) (s : string) (a : ascii) (x : string) :
  drop_chars j s = String a x ->
  exists pre, s = (pre ++ String a x)%string /\ String.length pre = j.
Proof.
  revert s. induction j as [|j IH]; intros s Hd.
  - exists EmptyString. destruct s; simpl in Hd; [discriminate Hd|].
    split; [exact Hd|reflexivity].
  - destruct s as [|b s]; [discriminate Hd|].
    simpl in Hd. destruct (IH s Hd) as (pre & -> & <-).
    exists (String b pre). split; reflexivity.
Qed.

Lemma match_at_iff (s : string) (j : nat) (w : string) :
  (exists len, match_here (drop_chars j s) = Some (w, len)) <-> mention_at s j w.
Proof.
  split.
  - intros (len & Hm).
    apply match_here_sound in Hm as (c & post & Hd & Hw & Hc & _).
    change ("@" ++ w ++ String c post)%string
      with (String "@" (w ++ String c post)%string) in Hd.
    apply drop_chars_split in Hd as (pre & -> & <-).
    exists pre, c, post. repeat split; assumption.
  - intros (pre & c & post & -> & <- & Hw & Hc).
    exists (String.length w + 2)%nat.
    rewrite drop_chars_app_length. apply match_here_complete; assumption.
Qed.

(** The matches come in increasing order of their start, none before
    [pos]. *)
Lemma finditer_from_sorted (s : string) (skip pos : nat) :
  StronglySorted lt (map fst (finditer_from skip pos s))
  /\ Forall (fun i => (pos <= i)%nat) (map fst (finditer_from skip pos s)).
Proof.
  revert skip pos. induction s as [|a s IH]; intros skip pos.
  - split; constructor.
  - cbn [finditer_from]. destruct skip as [|skip].
    + destruct (match_here (String a s)) as [[name len]|].
      * destruct (IH (len - 1)%nat (S pos)) as [Hs Hb].
        split.
        -- simpl. constructor; [exact Hs|].
           eapply Forall_impl; [exact Hb|]. intros i Hi. simpl in Hi. lia.
        -- simpl. constructor; [lia|].
           eapply Forall_impl; [exact Hb|]. intros i Hi. simpl in Hi. lia.
      * destruct (IH 0%nat (S pos)) as [Hs Hb].
        split; [exact Hs|].
        eapply Forall_impl; [exact Hb|]. intros i Hi. simpl in Hi. lia.
    + destruct (IH skip (S pos)) as [Hs Hb].
      split; [exact Hs|].
      eapply Forall_impl; [exact Hb|]. intros i Hi. simpl in Hi. lia.
Qed.

Lemma all_chars_app (p : ascii -> bool) (x y : string) :
  all_chars p (x ++ y)%string = all_chars p x && all_chars p y.
Proof.
  induction x as [|a x IH]; simpl; [reflexivity|].
  rewrite IH. apply andb_assoc.
Qed.

Lemma no_space_no_mention (text : string) :
  all_chars (fun c => negb (is_space c)) text = true ->
  forall i w, ~ mention_at text i w.
Proof.
  intros Hall i w (pre & c & post & -> & _ & _ & Hc).
  rewrite !all_chars_app in Hall. simpl in Hall. rewrite Hc in Hall.
  simpl in Hall. rewrite !andb_false_r in Hall. discriminate Hall.
Qed.

Section MentionProperties.

Variable clock : nat -> datetime.
Variable uuid4 : nat -> string.
Variable json_dumps : json -> string.

Lemma store_notification_total (c : Candidate) (w : World) :
  exists db',
    store_notification clock uuid4 c w
    = (Ret tt, mkWorld db' (S (w_ticks w)) (S (w_uuids w)) (w_sends w)).
Proof.
  unfold store_notification, bind, draw_uuid, now. simpl.
  destruct (create_notification (w_db w) (clock (w_ticks w)) (uuid4 (w_uuids w))
              (candidate_object c)) as [ok db'].
  exists db'. reflexivity.
Qed.

Lemma for_each_store_notification (cs : list Candidate) (w : World) :
  exists db',
    for_each cs (store_notification clock uuid4) w
    = (Ret tt, mkWorld db' (w_ticks w + length cs)%nat
                 (w_uuids w + length cs)%nat (w_sends w)).
Proof.
  revert w. induction cs as [|c cs IH]; intros w.
  - exists (w_db w). simpl. unfold ret. destruct w. simpl.
    rewrite !Nat.add_0_r. reflexivity.
  - destruct (store_notification_total c w) as (db1 & H1).
    destruct (IH (mkWorld db1 (S (w_ticks w)) (S (w_uuids w)) (w_sends w)))
      as (db2 & H2).
    exists db2. simpl. unfold bind. rewrite H1, H2. simpl.
    repeat f_equal; lia.
Qed.

(** C9 (amended).  [handle_mention] scans the body with a newline
    appended.  It passes to [store_notification] one MENTION candidate for
    each place of that text where an at sign is followed by a username
    (a lowercase letter and 2 to 15 characters of [a-z0-9-]) and a
    whitespace character, in the order of the text, with [to_username]
    the name and [from_username] the author; a name mentioned twice gives
    two candidates and their number is not bounded. *)
Theorem mentions_exact (op : Op) (body : string) (author permlink : json)
    (w : World) :
  py_getitem_key (op_data op) "body" = Ret (JStr body) ->
  py_getitem_key (op_data op) "author" = Ret author ->
  py_getitem_key (op_data op) "permlink" = Ret permlink ->
  let haystack := (body ++ newline)%string in
  let found := finditer_from 0 0 haystack in
  (forall i name, In (i, name) found <-> mention_at haystack i name)
  /\ StronglySorted lt (map fst found)
  /\ handle_mention clock uuid4 json_dumps op w
     = (for_each
          (map (fun m => mention_candidate json_dumps (op_trx_id op) author
                           permlink (snd m)) found)
          (store_notification clock uuid4) ;; ret true) w
  /\ exists w',
       handle_mention clock uuid4 json_dumps op w = (Ret true, w')
       /\ w_uuids w' = (w_uuids w + length found)%nat
       /\ w_sends w' = w_sends w.
Proof.
  intros Hbody Hauthor Hpermlink haystack found.
  assert (handle_mention clock uuid4 json_dumps op w
          = (for_each
               (map (fun m => mention_candidate json_dumps (op_trx_id op) author
                                permlink (snd m)) found)
               (store_notification clock uuid4) ;; ret true) w) as Hrun.
  { unfold handle_mention, bind at 1 2 3 4, lift.
    rewrite Hbody. simpl. rewrite Hauthor, Hpermlink.
    unfold mention_candidates, findall_mentions. rewrite map_map.
    reflexivity. }
  split; [|split; [|split]].
  - intros i name. unfold found.
    rewrite finditer_from_spec by (intros j Hj; lia).
    rewrite <- match_at_iff. split.
    + intros (j & len & -> & Hm). exists len. exact Hm.
    + intros (len & Hm). exists i, len. split; [reflexivity|exact Hm].
  - apply finditer_from_sorted.
  - exact Hrun.
  - rewrite Hrun.
    destruct (for_each_store_notification
                (map (fun m => mention_candidate json_dumps (op_trx_id op) author
                                 permlink (snd m)) found) w) as (db' & Hfor).
    unfold bind. rewrite Hfor. eexists. split; [reflexivity|].
    simpl. rewrite length_map. split; reflexivity.
Qed.

End MentionProperties.

(** C9 as stated fails on a mention that ends the body: "@bob" holds no
    username followed by whitespace, and [handle_mention] still passes
    one candidate for bob to [store_notification]. *)
Lemma mention_at_end_of_body :
  (forall i w, ~ mention_at "@bob" i w)
  /\ mention_candidates example_json_dumps "T3" (JStr "alice") (JStr "p1")
       ("@bob" ++ newline)%string
     = [mention_candidate example_json_dumps "T3" (JStr "alice") (JStr "p1") "bob"]
  /\ fst (handle_mention example_clock example_uuid4 example_json_dumps
            (mention_comment "@bob") empty_world) = Ret true
  /\ map n_to_username
       (notifications (w_db (snd (handle_mention example_clock example_uuid4
                                    example_json_dumps (mention_comment "@bob")
                                    empty_world))))
     = ["bob"].
Proof.
  split; [|split; [|split]].
  - apply no_space_no_mention. reflexivity.
  - reflexivity.
  - reflexivity.
  - reflexivity.
Qed.

Lemma mentions_exact_witness :
  let haystack := ("hi @bob and @bob" ++ newline)%string in
  let found := finditer_from 0 0 haystack in
  (forall i name, In (i, name) found <-> mention_at haystack i name)
  /\ StronglySorted lt (map fst found)
  /\ handle_mention example_clock example_uuid4 example_json_dumps
       (mention_comment "hi @bob and @bob") empty_world
     = (for_each
          (map (fun m => mention_candidate example_json_dumps "T3" (JStr "alice")
                           (JStr "p1") (snd m)) found)
          (store_notification example_clock example_uuid4) ;; ret true) empty_world
  /\ exists w',
       handle_mention example_clock example_uuid4 example_json_dumps
         (mention_comment "hi @bob and @bob") empty_world = (Ret true, w')
       /\ w_uuids w' = (w_uuids empty_world + length found)%nat
       /\ w_sends w' = w_sends empty_world.
Proof.
  apply (mentions_exact example_clock example_uuid4 example_json_dumps
           (mention_comment "hi @bob and @bob") "hi @bob and @bob"
           (JStr "alice") (JStr "p1") empty_world); reflexivity.
Defined.

(** ** Dispatcher: routing by preferences *)

Lemma add_transport_types_lookup (transport_name : string)
    (transport_data : TransportData) (notify_type : string)
    (m : gmap string (list (string * string))) (l : list (string * string)) :
  m !! notify_type = entry_of l ->
  add_transport_types transport_name transport_data m !! notify_type
  = entry_of (l ++ map (fun _ => (transport_name, sub_data transport_data))
                    (List.filter (String.eqb notify_type)
                                 (notification_types transport_data))).
Proof.
  unfold add_transport_types.
  generalize (notification_types transport_data) as types.
  intros types. revert m l.
  induction types as [|nt types IH]; intros m l Hm; simpl.
  - rewrite app_nil_r. exact Hm.
  - destruct (String.eqb_spec notify_type nt) as [<-|Hne].
    + rewrite (IH _ (l ++ [(transport_name, sub_data transport_data)])).
      * rewrite <- app_assoc. reflexivity.
      * rewrite lookup_insert_eq, Hm.
        destruct l; simpl; reflexivity.
    + apply IH. rewrite lookup_insert_ne by (intros Heq; apply Hne; symmetry; exact Heq).
      exact Hm.
Qed.

Lemma notify_types_transports_lookup (user_transports : Transports)
    (notify_type : string) :
  notify_types_transports user_transports !! notify_type
  = entry_of (enabled_pairs user_transports notify_type).
Proof.
  unfold notify_types_transports, enabled_pairs.
  assert (forall (m : gmap string (list (string * string))) l,
            m !! notify_type = entry_of l ->
            fold_left (fun m t => add_transport_types (fst t) (snd t) m)
              user_transports m !! notify_type
            = entry_of
                (l ++ flat_map
                        (fun t =>
                           map (fun _ => (fst t, sub_data (snd t)))
                             (List.filter (String.eqb notify_type)
                                (notification_types (snd t)))) user_transports))
    as Hgen.
  { induction user_transports as [|t ts IH]; intros m l Hm; simpl.
    - rewrite app_nil_r. exact Hm.
    - rewrite (IH _ _ (add_transport_types_lookup (fst t) (snd t) notify_type m l Hm)).
      rewrite <- app_assoc. reflexivity. }
  apply (Hgen ∅ []). apply lookup_empty.
Qed.

Lemma for_each_app {A} (xs ys : list A) (body : A -> Py unit) (w : World) :
  for_each (xs ++ ys) body w = (for_each xs body ;; for_each ys body) w.
Proof.
  revert w. induction xs as [|x xs IH]; intros w.
  - reflexivity.
  - cbn [app for_each]. unfold bind.
    destruct (body x w) as [[u|e] w1]; [|reflexivity].
    rewrite IH. reflexivity.
Qed.

(** ** Dispatcher *)

Section DispatcherProperties.

Variable clock : nat -> datetime.
Variable json_loads : string -> option json.
Variable configured_transports : gmap string Transport.

Lemma send_to_transport_step (username : string) (n : Notification) (data : json)
    (t : string * string) (w : World) :
  engine_ok (w_db w) = true ->
  json_loads (n_json_data n) = Some data ->
  exists w',
    send_to_transport clock json_loads configured_transports username n t w
    = (Ret tt, w')
    /\ fan_out_result configured_transports username n data [t] w w'.
Proof.
  intros Hok Hloads.
  unfold send_to_transport, try_except, fan_out_result, attempted, delivered.
  cbn [List.filter].
  destruct (configured_transports !! fst t) as [transport|] eqn:Hconf.
  - unfold bind at 1, ret at 1. unfold bind at 1, loads. rewrite Hloads.
    unfold ret at 1. unfold bind at 1, send_notification.
    fold (send_call username n data t).
    destruct (transport (send_call username n data t)) eqn:Hsend.
    + unfold mark_sent_now, bind, now, mark_sent. cbn [w_db w_ticks].
      rewrite Hok. eexists. split; [reflexivity|].
      cbn. repeat split.
      * exact Hok.
      * eexists. split; [reflexivity|]. reflexivity.
    + unfold ret. eexists. split; [reflexivity|].
      cbn. repeat split.
      * exact Hok.
      * exists []. split; [rewrite app_nil_r; reflexivity|reflexivity].
  - unfold bind at 1, throw, ret. eexists. split; [reflexivity|].
    cbn. repeat split.
    + exact Hok.
    + rewrite app_nil_r. reflexivity.
    + exists []. split; [rewrite app_nil_r; reflexivity|reflexivity].
Qed.

Lemma fan_out_result_cons (username : string) (n : Notification) (data : json)
    (t : string * string) (ts : list (string * string)) (w w1 w2 : World) :
  fan_out_result configured_transports username n data [t] w w1 ->
  fan_out_result configured_transports username n data ts w1 w2 ->
  fan_out_result configured_transports username n data (t :: ts) w w2.
Proof.
  intros (Hok1 & Hs1 & (new1 & Ha1 & Hn1) & Hno1 & Hu1)
         (Hok2 & Hs2 & (new2 & Ha2 & Hn2) & Hno2 & Hu2).
  unfold fan_out_result.
  change (t :: ts) with ([t] ++ ts).
  unfold attempted, delivered in *. rewrite !List.filter_app, !map_app.
  repeat split.
  - exact Hok2.
  - rewrite Hs2, Hs1, <- app_assoc. reflexivity.
  - exists (new1 ++ new2). split.
    + rewrite Ha2, Ha1, <- app_assoc. reflexivity.
    + rewrite map_app, Hn1, Hn2. reflexivity.
  - rewrite Hno2. exact Hno1.
  - rewrite Hu2. exact Hu1.
Qed.

Lemma fan_out (username : string) (n : Notification) (data : json)
    (ts : list (string * string)) (w : World) :
  engine_ok (w_db w) = true ->
  json_loads (n_json_data n) = Some data ->
  exists w',
    for_each ts (send_to_transport clock json_loads configured_transports username n) w
    = (Ret tt, w')
    /\ fan_out_result configured_transports username n data ts w w'.
Proof.
  intros Hok Hloads. revert w Hok.
  induction ts as [|t ts IH]; intros w Hok.
  - exists w. split; [reflexivity|]. unfold fan_out_result. cbn.
    repeat split.
    + exact Hok.
    + rewrite app_nil_r. reflexivity.
    + exists []. split; [rewrite app_nil_r; reflexivity|reflexivity].
  - destruct (send_to_transport_step username n data t w Hok Hloads)
      as (w1 & Hrun1 & Hres1).
    destruct (IH w1 (proj1 Hres1)) as (w2 & Hrun2 & Hres2).
    exists w2. split.
    + cbn [for_each]. unfold bind. rewrite Hrun1. exact Hrun2.
    + eapply fan_out_result_cons; eassumption.
Qed.

Lemma record_grows_refl (w : World) : record_grows w w.
Proof. split; exists []; rewrite app_nil_r; reflexivity. Qed.

Lemma record_grows_trans (w1 w2 w3 : World) :
  record_grows w1 w2 -> record_grows w2 w3 -> record_grows w1 w3.
Proof.
  intros [(c1 & Hc1) (a1 & Ha1)] [(c2 & Hc2) (a2 & Ha2)]. split.
  - exists (c1 ++ c2). rewrite Hc2, Hc1, app_assoc. reflexivity.
  - exists (a1 ++ a2). rewrite Ha2, Ha1, app_assoc. reflexivity.
Qed.

Lemma keeps_record_ret {A} (a : A) : keeps_record (ret a).
Proof. intros w. apply record_grows_refl. Qed.

Lemma keeps_record_bind {A B} (m : Py A) (k : A -> Py B) :
  keeps_record m -> (forall a, keeps_record (k a)) -> keeps_record (bind m k).
Proof.
  intros Hm Hk w. unfold bind. specialize (Hm w).
  destruct (m w) as [[a|e] w1]; cbn [snd] in *.
  - eapply record_grows_trans; [exact Hm|apply Hk].
  - exact Hm.
Qed.

Lemma keeps_record_for_each {A} (xs : list A) (body : A -> Py unit) :
  (forall x, keeps_record (body x)) -> keeps_record (for_each xs body).
Proof.
  intros Hbody. induction xs as [|x xs IH]; cbn [for_each].
  - apply keeps_record_ret.
  - apply keeps_record_bind; [apply Hbody|intros _; exact IH].
Qed.

Lemma get_user_transports_actions (db : YoDatabase) (username : string)
    (retry : bool) :
  actions (snd (get_user_transports db username retry)) = actions db.
Proof.
  unfold get_user_transports, create_user.
  destruct (select_user_transports db username); [reflexivity|].
  destruct retry; [reflexivity|].
  destruct (negb (engine_ok db)); [reflexivity|].
  destruct (existsb _ (user_settings db)); reflexivity.
Qed.

Lemma keeps_record_send_to_transport (username : string) (n : Notification)
    (t : string * string) :
  keeps_record (send_to_transport clock json_loads configured_transports
                  username n t).
Proof.
  intros w.
  unfold send_to_transport, try_except, mark_sent_now, send_notification, loads,
    now, mark_sent, with_db, bind, ret, throw.
  destruct (configured_transports !! fst t) as [transport|];
    [|apply record_grows_refl].
  destruct (json_loads (n_json_data n)) as [data|]; [|apply record_grows_refl].
  cbv beta iota.
  destruct (transport _); cbn [w_db w_ticks];
    [destruct (engine_ok (w_db w))|];
    (split; cbn; eexists; first [reflexivity | symmetry; apply app_nil_r]).
Qed.

Lemma keeps_record_dispatch_notification (username : string)
    (user_notify_types_transports : gmap string (list (string * string)))
    (n : Notification) :
  keeps_record (dispatch_notification clock json_loads configured_transports
                  username user_notify_types_transports n).
Proof.
  unfold dispatch_notification. apply keeps_record_bind.
  - intros w. split; cbn; exists []; rewrite app_nil_r; reflexivity.
  - intros allowed. destruct (negb allowed); [apply keeps_record_ret|].
    apply keeps_record_bind.
    + destruct (user_notify_types_transports !! n_notify_type n);
        intros w; split; cbn; exists []; rewrite app_nil_r; reflexivity.
    + intros ts. apply keeps_record_for_each.
      intros t. apply keeps_record_send_to_transport.
Qed.

Lemma keeps_record_dispatch_user (entry : string * list Notification) :
  keeps_record (dispatch_user clock json_loads configured_transports entry).
Proof.
  destruct entry as [username notifications]. unfold dispatch_user.
  apply keeps_record_bind.
  - intros w. pose proof (get_user_transports_actions (w_db w) username false) as Ha.
    destruct (get_user_transports (w_db w) username false) as [r db'].
    cbn [snd] in *. split; cbn.
    + exists []. rewrite app_nil_r. reflexivity.
    + exists []. rewrite app_nil_r. exact Ha.
  - intros user_transports. apply keeps_record_for_each.
    intros n. apply keeps_record_dispatch_notification.
Qed.

(** The cycle that came to [n] goes on with the body of the loop for [n]
    and then with what is left. *)
Lemma cycle_reaches_run (w : World) (username : string) (settings : Transports)
    (n : Notification) (w_n : World) (rest : Py unit) :
  cycle_reaches clock json_loads configured_transports w username settings n
    w_n rest ->
  run_send_notify clock json_loads configured_transports w
  = (dispatch_notification clock json_loads configured_transports username
       (notify_types_transports settings) n ;; rest) w_n
  /\ record_grows w w_n.
Proof.
  intros (gpre & npre & npost & gpost & w1 & db2 & Hunsents & Hpre & Hsettings
          & Hnpre & ->).
  split.
  - unfold run_send_notify, bind at 1. rewrite Hunsents.
    rewrite for_each_app. unfold bind at 1. rewrite Hpre.
    cbn [for_each]. unfold bind at 1, dispatch_user at 1, bind at 1.
    rewrite Hsettings. cbv beta iota.
    rewrite for_each_app. unfold bind at 1. rewrite Hnpre.
    cbn [for_each]. unfold bind. 
    destruct (dispatch_notification clock json_loads configured_transports
                username (notify_types_transports settings) n w_n)
      as [[[]|e] w2]; reflexivity.
  - apply (record_grows_trans w w1).
    + pose proof (keeps_record_for_each gpre
                    (dispatch_user clock json_loads configured_transports)
                    keeps_record_dispatch_user w) as H.
      rewrite Hpre in H. exact H.
    + apply (record_grows_trans w1 (with_db w1 db2)).
      * pose proof (get_user_transports_actions (w_db w1) username false) as Ha.
        rewrite Hsettings in Ha. cbn [snd] in Ha.
        split; cbn; exists []; rewrite app_nil_r; [reflexivity|exact Ha].
      * pose proof (keeps_record_for_each npre
                      (dispatch_notification clock json_loads
                         configured_transports username
                         (notify_types_transports settings))
                      (keeps_record_dispatch_notification username _)
                      (with_db w1 db2)) as H.
        rewrite Hnpre in H. exact H.
Qed.

(** C2 (amended).  Take a notification the cycle of [run_send_notify]
    comes to, approved by the rate limit there, with a payload that
    loads, on a store that answers, whose type at least one of the
    user's transports lists.  For every listing of the type in the
    user's settings, in their order, whose transport the sender has
    configured, the cycle calls send once; it records one Action
    ("Sent", with the notification's id, recipient and priority) for each
    call that returned and none for a call that raised, raises nothing,
    and goes on with the rest of the cycle. *)
Theorem approved_fan_out (w : World) (username : string) (settings : Transports)
    (n : Notification) (w_n : World) (rest : Py unit) (data : json) :
  cycle_reaches clock json_loads configured_transports w username settings n
    w_n rest ->
  engine_ok (w_db w_n) = true ->
  json_loads (n_json_data n) = Some data ->
  approved clock w_n n ->
  enabled_pairs settings (n_notify_type n) <> [] ->
  let ts := enabled_pairs settings (n_notify_type n) in
  let calls := map (send_call username n data)
                 (attempted configured_transports ts) in
  exists w' new,
    run_send_notify clock json_loads configured_transports w = rest w'
    /\ w_sends w' = w_sends w_n ++ calls
    /\ actions (w_db w') = actions (w_db w_n) ++ new
    /\ map action_summary new
       = map (sent_summary n) (delivered configured_transports username n data ts)
    /\ recorded_within w calls new
         (snd (run_send_notify clock json_loads configured_transports w)).
Proof.
  intros Hreach Hok Hloads Happroved Hlisted ts calls.
  assert (notify_types_transports settings !! n_notify_type n = Some ts) as Hts.
  { rewrite notify_types_transports_lookup. unfold ts, entry_of.
    destruct (enabled_pairs settings (n_notify_type n));
      [contradiction|reflexivity]. }
  destruct (cycle_reaches_run w username settings n w_n rest Hreach)
    as [Hrun Hbefore].
  assert (exists w',
            dispatch_notification clock json_loads configured_transports
              username (notify_types_transports settings) n w_n = (Ret tt, w')
            /\ fan_out_result configured_transports username n data ts
                 (mkWorld (w_db w_n)
                    (w_ticks w_n + clock_reads (n_priority_level n))%nat
                    (w_uuids w_n) (w_sends w_n)) w')
    as (w' & Hbody & (_ & Hsends & (new & Hactions & Hsummary) & _)).
  { unfold dispatch_notification, bind at 1, check_ratelimit_now.
    unfold approved in Happroved. rewrite Happroved. cbn [negb].
    unfold bind at 1. rewrite Hts. unfold ret at 1.
    apply (fan_out username n data ts
             (mkWorld (w_db w_n)
                (w_ticks w_n + clock_reads (n_priority_level n))%nat
                (w_uuids w_n) (w_sends w_n)) Hok Hloads). }
  cbn [w_sends w_db] in Hsends, Hactions.
  assert (run_send_notify clock json_loads configured_transports w = rest w')
    as Hrest.
  { rewrite Hrun. unfold bind. rewrite Hbody. reflexivity. }
  exists w', new.
  split; [exact Hrest|]. split; [exact Hsends|]. split; [exact Hactions|].
  split; [exact Hsummary|].
  assert (record_grows w' (snd (rest w'))) as Hafter.
  { destruct Hreach as (gpre & npre & npost & gpost & w1 & db2 & _ & _ & _ & _
                        & ->).
    apply keeps_record_bind.
    - apply keeps_record_for_each. intros m.
      apply keeps_record_dispatch_notification.
    - intros _. apply keeps_record_for_each. intros g.
      apply keeps_record_dispatch_user. }
  destruct Hbefore as [(before & Hb1) (earlier & Hb2)].
  destruct Hafter as [(after & Ha1) (later & Ha2)].
  exists before, after, earlier, later.
  rewrite Hrest, Ha1, Ha2, Hsends, Hactions, Hb1, Hb2, <- !app_assoc.
  split; reflexivity.
Qed.

End DispatcherProperties.

Lemma approved_fan_out_witness :
  let w_n := snd (dispatch_user example_clock example_json_loads mixed_transports
                    ("alice", [vote_to "n1" "alice"]) alice_carol_world) in
  let rest :=
    (for_each []
       (dispatch_notification example_clock example_json_loads mixed_transports
          "carol" (notify_types_transports three_ways_settings)) ;;
     for_each [] (dispatch_user example_clock example_json_loads mixed_transports))
  in
  let ts := enabled_pairs three_ways_settings
              (n_notify_type (vote_to "n2" "carol")) in
  let calls := map (send_call "carol" (vote_to "n2" "carol") (JObj []))
                 (attempted mixed_transports ts) in
  exists w' new,
    run_send_notify example_clock example_json_loads mixed_transports
      alice_carol_world = rest w'
    /\ w_sends w' = w_sends w_n ++ calls
    /\ actions (w_db w') = actions (w_db w_n) ++ new
    /\ map action_summary new
       = map (sent_summary (vote_to "n2" "carol"))
           (delivered mixed_transports "carol" (vote_to "n2" "carol") (JObj []) ts)
    /\ recorded_within alice_carol_world calls new
         (snd (run_send_notify example_clock example_json_loads mixed_transports
                 alice_carol_world)).
Proof.
  apply (approved_fan_out example_clock example_json_loads mixed_transports
           alice_carol_world "carol" three_ways_settings (vote_to "n2" "carol")
           (snd (dispatch_user example_clock example_json_loads mixed_transports
                   ("alice", [vote_to "n1" "alice"]) alice_carol_world))
           (for_each []
              (dispatch_notification example_clock example_json_loads
                 mixed_transports "carol"
                 (notify_types_transports three_ways_settings)) ;;
            for_each []
              (dispatch_user example_clock example_json_loads mixed_transports))
           (JObj [])).
  - exists [("alice", [vote_to "n1" "alice"])], [], [], [],
      (snd (dispatch_user example_clock example_json_loads mixed_transports
              ("alice", [vote_to "n1" "alice"]) alice_carol_world)),
      (w_db (snd (dispatch_user example_clock example_json_loads mixed_transports
                    ("alice", [vote_to "n1" "alice"]) alice_carol_world))).
    split; [vm_compute; reflexivity|].
    split; [vm_compute; reflexivity|].
    split; [vm_compute; reflexivity|].
    split; [vm_compute; reflexivity|reflexivity].
  - vm_compute. reflexivity.
  - reflexivity.
  - vm_compute. reflexivity.
  - vm_compute. discriminate.
Defined.

(** In that cycle carol's vote is sent on mock and sms, not on email,
    and only mock's call is recorded. *)
Example mixed_fan_out :
  enabled_pairs three_ways_settings "vote" = three_ways
  /\ attempted mixed_transports three_ways = [("mock", ""); ("sms", "+100")]
  /\ delivered mixed_transports "carol" (vote_to "n2" "carol") (JObj []) three_ways
     = [("mock", "")].
Proof. repeat split; vm_compute; reflexivity. Qed.

(** A type listed twice on a transport is sent twice and recorded
    twice. *)
Example listed_twice_sent_twice :
  let w' := snd (run_send_notify example_clock example_json_loads working_mock
                   twice_listed_world) in
  w_sends w'
  = [send_call "bob" (vote_to "n1" "bob") (JObj []) ("mock", "");
     send_call "bob" (vote_to "n1" "bob") (JObj []) ("mock", "")]
  /\ map action_summary (actions (w_db w'))
     = [sent_summary (vote_to "n1" "bob") ("mock", "");
        sent_summary (vote_to "n1" "bob") ("mock", "")].
Proof. split; vm_compute; reflexivity. Qed.

(** A payload that does not load raises inside the [try], before the
    send: the cycle ends without a call and without an Action. *)
Example unloadable_payload_not_sent :
  run_send_notify example_clock example_json_loads working_mock unloadable_world
  = (Ret tt, mkWorld (w_db unloadable_world) 2 0 []).
Proof. vm_compute. reflexivity. Qed.

(** The flow of a vote through a cycle: sent on the mock transport and
    recorded. *)
Example vote_flow_cycle :
  let w' := snd (run_send_notify example_clock example_json_loads working_mock
                   bob_world) in
  w_sends w' = [send_call "bob" (vote_to "n1" "bob") (JObj []) ("mock", "")]
  /\ map action_summary (actions (w_db w'))
     = [sent_summary (vote_to "n1" "bob") ("mock", "")]
  /\ get_wwwpoll_unsents (w_db w') = Ret [].
Proof. repeat split; vm_compute; reflexivity. Qed.

(** C2 as stated fails when the transport raises: bob's vote is approved
    and the mock transport is enabled for votes; the cycle calls send on
    it, the call raises, and the cycle ends with no Action recorded. *)
Lemma failed_send_records_no_action :
  approved example_clock bob_world (vote_to "n1" "bob")
  /\ notify_types_transports (mock_only ["vote"]) !! "vote" = Some [("mock", "")]
  /\ fst (run_send_notify example_clock example_json_loads failing_mock bob_world)
     = Ret tt
  /\ w_sends (snd (run_send_notify example_clock example_json_loads failing_mock
                     bob_world))
     = [send_call "bob" (vote_to "n1" "bob") (JObj []) ("mock", "")]
  /\ actions (w_db (snd (run_send_notify example_clock example_json_loads
                           failing_mock bob_world)))
     = [].
Proof.
  repeat split; vm_compute; reflexivity.
Qed.

Section UnroutedType.

Variable clock : nat -> datetime.
Variable json_loads : string -> option json.
Variable configured_transports : gmap string Transport.

(** An approved notification whose type has no entry in the user's
    mapping raises KeyError out of the loop over notifications, whatever
    follows it. *)
Lemma dispatch_unrouted_raises (username : string)
    (user_notify_types_transports : gmap string (list (string * string)))
    (n : Notification) (rest : list Notification) (w : World) :
  approved clock w n ->
  user_notify_types_transports !! n_notify_type n = None ->
  exists w',
    for_each (n :: rest)
      (dispatch_notification clock json_loads configured_transports username
         user_notify_types_transports) w
    = (Raise (KeyError (n_notify_type n)), w')
    /\ w_sends w' = w_sends w
    /\ w_db w' = w_db w.
Proof.
  intros Happroved Hnone.
  cbn [for_each]. unfold bind at 1.
  unfold dispatch_notification, bind at 1, check_ratelimit_now.
  unfold approved in Happroved. rewrite Happroved. cbn [negb].
  unfold bind at 1. rewrite Hnone. unfold throw.
  eexists. split; [reflexivity|]. split; reflexivity.
Qed.

End UnroutedType.

(** C3 on a concrete cycle: bob has votes enabled for no transport, carol
    has them on the mock transport, each has an unsent vote.  bob's vote
    reaches no transport, but the KeyError of the lookup leaves
    [run_send_notify] and carol's vote is not processed, though a cycle
    without bob's notification delivers it. *)
Theorem unrouted_type_aborts_cycle :
  approved example_clock bob_carol_world (vote_to "n1" "bob")
  /\ notify_types_transports (mock_only ["follow"]) !! "vote" = None
  /\ fst (run_send_notify example_clock example_json_loads working_mock
            bob_carol_world)
     = Raise (KeyError "vote")
  /\ w_sends (snd (run_send_notify example_clock example_json_loads working_mock
                     bob_carol_world))
     = []
  /\ w_sends (snd (run_send_notify example_clock example_json_loads working_mock
                     carol_world))
     = [send_call "carol" (vote_to "n2" "carol") (JObj []) ("mock", "")].
Proof.
  repeat split; vm_compute; reflexivity.
Qed.

(** * Further properties *)

(** ** Leader lease: bootstrap, takeover, renewal *)

Lemma active_follower_row_live (now : datetime) (follower_id : string)
    (lock_timeout : Z) (r : ChainStatus) :
  now < lock_expires r ->
  active_follower_row now follower_id lock_timeout r = r.
Proof.
  intros Hlive. unfold active_follower_row, active_follower_where.
  destruct (Z.leb_spec (lock_expires r) now); [lia|reflexivity].
Qed.

Lemma active_follower_row_expired (now : datetime) (follower_id : string)
    (lock_timeout : Z) (r : ChainStatus) :
  lock_expires r <= now ->
  active_follower_row now follower_id lock_timeout r
  = taken_over r now follower_id lock_timeout.
Proof.
  intros Hexp. unfold active_follower_row, active_follower_where.
  destruct (Z.leb_spec (lock_expires r) now); [reflexivity|lia].
Qed.

Lemma try_active_follower_single (db : YoDatabase) (now : datetime)
    (follower_id : string) (block : option Z) (lock_timeout : Z) (r : ChainStatus) :
  engine_ok db = true ->
  chain_status db = [r] ->
  try_active_follower db now follower_id block lock_timeout
  = (Ret (Some (active_follower_row now follower_id lock_timeout r)),
     with_chain_status db [active_follower_row now follower_id lock_timeout r]).
Proof.
  intros Hok Hrows. unfold try_active_follower. rewrite Hok, Hrows.
  unfold get_chain_status. destruct db. simpl in *. rewrite Hok. reflexivity.
Qed.

(** X1.  On an empty chain status table the first caller of
    [try_active_follower] becomes the holder: one row with its id, the
    block it passed and the deadline now plus the lease; a rival calling
    before that deadline changes nothing and is told who holds the
    lease. *)
Theorem first_follower_bootstraps (db : YoDatabase) (t1 t2 : datetime)
    (id1 id2 : string) (block1 block2 : option Z) (lease1 lease2 : Z) :
  engine_ok db = true ->
  chain_status db = [] ->
  t2 < t1 + timedelta_seconds lease1 ->
  let row := mkChainStatus 1 block1 t1 (t1 + timedelta_seconds lease1) id1 in
  let first := try_active_follower db t1 id1 block1 lease1 in
  let second := try_active_follower (snd first) t2 id2 block2 lease2 in
  first = (Ret (Some row), with_chain_status db [row])
  /\ second = (Ret (Some row), with_chain_status db [row]).
Proof.
  intros Hok Hempty Hrival row first second.
  assert (first = (Ret (Some row), with_chain_status db [row])) as Hfirst.
  { unfold first, try_active_follower. rewrite Hok, Hempty.
    unfold get_chain_status. simpl. rewrite Hok. reflexivity. }
  split; [exact Hfirst|].
  unfold second. rewrite Hfirst. cbn [snd].
  rewrite (try_active_follower_single _ t2 id2 block2 lease2 row);
    [|exact Hok|reflexivity].
  rewrite active_follower_row_live by exact Hrival.
  reflexivity.
Qed.

Lemma first_follower_bootstraps_witness :
  let row := mkChainStatus 1 (Some 99) 5000000 (5000000 + timedelta_seconds 30)
               "follower-a" in
  let first := try_active_follower empty_db 5000000 "follower-a" (Some 99) 30 in
  let second := try_active_follower (snd first) 6000000 "follower-b" None 30 in
  first = (Ret (Some row), with_chain_status empty_db [row])
  /\ second = (Ret (Some row), with_chain_status empty_db [row]).
Proof.
  apply (first_follower_bootstraps empty_db 5000000 6000000 "follower-a"
           "follower-b" (Some 99) None 30 30).
  - reflexivity.
  - reflexivity.
  - unfold timedelta_seconds. lia.
Defined.

(** X2.  Once the lease has expired, [try_active_follower] hands it to
    the caller: holder and deadline change, [last_processed_block] and
    [last_processed_time] stay; a rival calling before the new deadline is
    refused and the table stays as the first caller left it. *)
Theorem expired_lease_takeover (db : YoDatabase) (r : ChainStatus)
    (t1 t2 : datetime) (id1 id2 : string) (block1 block2 : option Z)
    (lease1 lease2 : Z) :
  engine_ok db = true ->
  chain_status db = [r] ->
  lock_expires r <= t1 ->
  t2 < t1 + timedelta_seconds lease1 ->
  let first := try_active_follower db t1 id1 block1 lease1 in
  let second := try_active_follower (snd first) t2 id2 block2 lease2 in
  first = (Ret (Some (taken_over r t1 id1 lease1)),
           with_chain_status db [taken_over r t1 id1 lease1])
  /\ second = first.
Proof.
  intros Hok Hrows Hexp Hrival first second.
  assert (first = (Ret (Some (taken_over r t1 id1 lease1)),
                   with_chain_status db [taken_over r t1 id1 lease1])) as Hfirst.
  { unfold first.
    rewrite (try_active_follower_single db t1 id1 block1 lease1 r Hok Hrows).
    rewrite active_follower_row_expired by exact Hexp. reflexivity. }
  split; [exact Hfirst|].
  unfold second. rewrite Hfirst. cbn [snd].
  rewrite (try_active_follower_single _ t2 id2 block2 lease2
             (taken_over r t1 id1 lease1)); [|exact Hok|reflexivity].
  rewrite active_follower_row_live by exact Hrival.
  reflexivity.
Qed.

Lemma expired_lease_takeover_witness :
  let r := mkChainStatus 1 (Some 41) 0 100000000 "follower-a" in
  let first := try_active_follower expired_db 100000000 "follower-b" None 20 in
  let second := try_active_follower (snd first) 119999999 "follower-c" None 20 in
  first = (Ret (Some (taken_over r 100000000 "follower-b" 20)),
           with_chain_status expired_db [taken_over r 100000000 "follower-b" 20])
  /\ second = first.
Proof.
  apply (expired_lease_takeover expired_db
           (mkChainStatus 1 (Some 41) 0 100000000 "follower-a")
           100000000 119999999 "follower-b" "follower-c" None None 20 20).
  - reflexivity.
  - reflexivity.
  - simpl. lia.
  - unfold timedelta_seconds. lia.
Defined.

(** X3.  When the holder advances with [try_update_status], the lease is
    renewed from that moment: a rival calling [try_active_follower] before
    now plus the new timeout is refused, and one calling at or after it
    takes the lease over, keeping the advanced block. *)
Theorem renewal_keeps_rivals_out (db : YoDatabase) (r : ChainStatus)
    (now : datetime) (recorded new_block lock_timeout : Z)
    (rival_time : datetime) (rival : string) (rival_block : option Z)
    (rival_lease : Z) :
  engine_ok db = true ->
  chain_status db = [r] ->
  last_processed_block r = Some recorded ->
  recorded <= new_block ->
  let renewed := try_update_status db now (active_follower_id r) new_block
                   lock_timeout in
  let after := try_active_follower (snd renewed) rival_time rival rival_block
                 rival_lease in
  renewed = (Ret (Some (advanced r now new_block lock_timeout)),
             with_chain_status db [advanced r now new_block lock_timeout])
  /\ (rival_time < now + timedelta_seconds lock_timeout -> after = renewed)
  /\ (now + timedelta_seconds lock_timeout <= rival_time ->
      chain_status (snd after)
      = [taken_over (advanced r now new_block lock_timeout) rival_time rival
           rival_lease]).
Proof.
  intros Hok Hrows Hrec Hle renewed after.
  assert (renewed = (Ret (Some (advanced r now new_block lock_timeout)),
                     with_chain_status db [advanced r now new_block lock_timeout]))
    as Hrenewed.
  { unfold renewed, try_update_status. rewrite Hok, Hrows. cbn [map].
    unfold update_status_row.
    assert (update_status_where (active_follower_id r) new_block r = true) as ->.
    { apply update_status_where_iff. split; [reflexivity|].
      exists recorded. split; assumption. }
    unfold get_chain_status. simpl. rewrite Hok. reflexivity. }
  split; [exact Hrenewed|].
  unfold after. rewrite Hrenewed. cbn [snd].
  rewrite (try_active_follower_single _ rival_time rival rival_block rival_lease
             (advanced r now new_block lock_timeout)); [|exact Hok|reflexivity].
  split.
  - intros Hearly. rewrite active_follower_row_live by exact Hearly. reflexivity.
  - intros Hlate. rewrite active_follower_row_expired by exact Hlate. reflexivity.
Qed.

Lemma renewal_keeps_rivals_out_witness :
  let r := mkChainStatus 1 (Some 41) 0 100000000 "follower-a" in
  let renewed := try_update_status expired_db 90000000 "follower-a" 42 20 in
  let after := try_active_follower (snd renewed) 100000000 "follower-b" None 20 in
  renewed = (Ret (Some (advanced r 90000000 42 20)),
             with_chain_status expired_db [advanced r 90000000 42 20])
  /\ (100000000 < 90000000 + timedelta_seconds 20 -> after = renewed)
  /\ (90000000 + timedelta_seconds 20 <= 100000000 ->
      chain_status (snd after)
      = [taken_over (advanced r 90000000 42 20) 100000000 "follower-b" 20]).
Proof.
  apply (renewal_keeps_rivals_out expired_db
           (mkChainStatus 1 (Some 41) 0 100000000 "follower-a")
           90000000 41 42 20 100000000 "follower-b" None 20).
  - reflexivity.
  - reflexivity.
  - reflexivity.
  - lia.
Defined.

(** ** Notification store: insertion *)

Lemma existsb_false_In {A} (f : A -> bool) (l : list A) (x : A) :
  existsb f l = false -> In x l -> f x = false.
Proof.
  intros Hnone Hin. destruct (f x) eqn:Hfx; [|reflexivity].
  assert (existsb f l = true) as Hsome
    by (apply existsb_exists; exists x; split; assumption).
  rewrite Hsome in Hnone. discriminate Hnone.
Qed.

Lemma unique_col_eq_sym (a b : option string) :
  unique_col_eq a b = unique_col_eq b a.
Proof. destruct a, b; simpl; try reflexivity. apply String.eqb_sym. Qed.

Lemma notification_idx_conflict_sym (a b : Notification) :
  notification_idx_conflict a b = notification_idx_conflict b a.
Proof.
  unfold notification_idx_conflict.
  rewrite (String.eqb_sym (n_to_username a)), (String.eqb_sym (n_notify_type a)),
    (unique_col_eq_sym (n_trx_id a)), (unique_col_eq_sym (n_from_username a)).
  reflexivity.
Qed.

Lemma notification_idx_conflict_key (row r : Notification)
    (to_username trx_id from_username : string) :
  notification_idx_conflict row r = true ->
  n_to_username row = to_username ->
  n_trx_id row = Some trx_id ->
  n_from_username row = Some from_username ->
  n_to_username r = to_username
  /\ n_notify_type r = n_notify_type row
  /\ n_trx_id r = Some trx_id
  /\ n_from_username r = Some from_username.
Proof.
  unfold notification_idx_conflict, unique_col_eq.
  intros Hc Hto Htrx Hfrom. rewrite Hto, Htrx, Hfrom in Hc.
  apply andb_true_iff in Hc as [Hc H4].
  apply andb_true_iff in Hc as [Hc H3].
  apply andb_true_iff in Hc as [H1 H2].
  apply String.eqb_eq in H1, H2.
  destruct (n_trx_id r) as [x|]; [|discriminate H3].
  destruct (n_from_username r) as [y|]; [|discriminate H4].
  apply String.eqb_eq in H3, H4. subst. repeat split; congruence.
Qed.

(** What an insert does to the table: nothing, or one more row at the
    end that shares no nid and no index key with the rows before it. *)
Lemma insert_notification_cases (db : YoDatabase) (row : Notification) :
  (exists e, insert_notification db row = (Some e, db))
  \/ (insert_notification db row
      = (None, with_notifications db (notifications db ++ [row]))
      /\ engine_ok db = true
      /\ existsb (fun r => String.eqb (n_nid r) (n_nid row)) (notifications db) = false
      /\ existsb (notification_idx_conflict row) (notifications db) = false).
Proof.
  unfold insert_notification.
  destruct (engine_ok db); simpl; [|left; eauto].
  destruct (existsb (fun r => String.eqb (n_nid r) (n_nid row)) (notifications db));
    [left; eauto|].
  destruct (existsb (notification_idx_conflict row) (notifications db));
    [left; eauto|].
  right. repeat split.
Qed.

(** The same for [create_notification], with the row it binds. *)
Lemma create_notification_cases (db : YoDatabase) (now : datetime) (uuid : string)
    (o : NotificationObject) :
  create_notification db now uuid o = (false, db)
  \/ exists row,
       bind_notification (match no_nid o with Some nid => nid | None => uuid end)
         now o = inr row
       /\ create_notification db now uuid o
          = (true, with_notifications db (notifications db ++ [row]))
       /\ engine_ok db = true
       /\ existsb (fun r => String.eqb (n_nid r) (n_nid row)) (notifications db) = false
       /\ existsb (notification_idx_conflict row) (notifications db) = false.
Proof.
  unfold create_notification.
  destruct (engine_ok db) eqn:Hok; simpl; [|left; reflexivity].
  destruct (bind_notification _ now o) as [e|row] eqn:Hbind.
  - left. destruct (is_duplicate_entry_error e); reflexivity.
  - destruct (insert_notification_cases db row)
      as [(e & Hins) | (Hins & _ & Hpk & Hidx)].
    + left. rewrite Hins. destruct (is_duplicate_entry_error e); reflexivity.
    + right. exists row. rewrite Hins. repeat split; assumption.
Qed.

Lemma store_consistent_snoc (rows : list Notification) (row : Notification) :
  store_consistent rows ->
  existsb (fun r => String.eqb (n_nid r) (n_nid row)) rows = false ->
  existsb (notification_idx_conflict row) rows = false ->
  store_consistent (rows ++ [row]).
Proof.
  intros [Hnodup Hpairs] Hpk Hidx. split.
  - rewrite map_app. apply NoDup_app. split; [exact Hnodup|]. split.
    + intros nid Hin Hlast. simpl in Hlast.
      apply list_elem_of_In in Hin, Hlast.
      destruct Hlast as [<-|[]].
      apply in_map_iff in Hin as (r & Heq & Hr).
      pose proof (existsb_false_In _ _ r Hpk Hr) as Hne. simpl in Hne.
      rewrite Heq, String.eqb_refl in Hne. discriminate Hne.
    + simpl. apply NoDup_cons. split; [|constructor].
      intros Hin. apply list_elem_of_In in Hin. destruct Hin.
  - intros i j a b Hij Ha Hb.
    apply lookup_snoc_Some in Ha as [[Hi Ha] | [Hi <-]];
      apply lookup_snoc_Some in Hb as [[Hj Hb] | [Hj <-]].
    + exact (Hpairs i j a b Hij Ha Hb).
    + rewrite notification_idx_conflict_sym.
      apply (existsb_false_In _ _ a Hidx).
      apply list_elem_of_In. eapply list_elem_of_lookup_2. exact Ha.
    + apply (existsb_false_In _ _ b Hidx).
      apply list_elem_of_In. eapply list_elem_of_lookup_2. exact Hb.
    + lia.
Qed.

(** X4.  [create_notification] keeps the table consistent with its
    constraints: if no two rows share a nid or conflict on the unique
    index before the call, none do after it, whatever the object, the
    clock and the generated id. *)
Theorem create_notification_keeps_constraints (db : YoDatabase) (now : datetime)
    (uuid : string) (o : NotificationObject) :
  store_consistent (notifications db) ->
  store_consistent (notifications (snd (create_notification db now uuid o))).
Proof.
  intros Hcons.
  destruct (create_notification_cases db now uuid o)
    as [-> | (row & _ & -> & _ & Hpk & Hidx)].
  - exact Hcons.
  - simpl. apply store_consistent_snoc; assumption.
Qed.

Lemma create_notification_keeps_constraints_witness :
  store_consistent
    (notifications (snd (create_notification one_vote_db 9000000 "nid-2"
                           update_object))).
Proof.
  apply (create_notification_keeps_constraints one_vote_db 9000000 "nid-2"
           update_object).
  split.
  - simpl. apply NoDup_cons. split; [|constructor].
    intros Hin. apply list_elem_of_In in Hin. destruct Hin.
  - intros i j a b Hij Ha Hb.
    destruct i as [|i]; destruct j as [|j]; try lia; discriminate.
Defined.

Lemma create_notification_key_stored (db : YoDatabase) (now : datetime)
    (uuid : string) (o : NotificationObject)
    (to_username trx_id from_username : string) :
  no_to_username o = SqlText to_username ->
  no_trx_id o = SqlText trx_id ->
  no_from_username o = SqlText from_username ->
  has_key db to_username (no_notify_type o) trx_id from_username ->
  snd (create_notification db now uuid o) = db.
Proof.
  intros Hto Htrx Hfrom Hkey.
  destruct (create_notification_cases db now uuid o)
    as [-> | (row & Hbind & _ & _ & _ & Hidx)]; [reflexivity|].
  unfold bind_notification in Hbind. rewrite Hto, Htrx, Hfrom in Hbind.
  simpl in Hbind. injection Hbind as <-.
  rewrite (existsb_conflict db _ to_username (no_notify_type o) trx_id
             from_username Hkey) in Hidx by reflexivity.
  discriminate Hidx.
Qed.

Lemma create_notification_stores_key (db : YoDatabase) (now : datetime)
    (uuid : string) (o : NotificationObject)
    (to_username trx_id from_username : string) :
  no_nid o = None ->
  no_to_username o = SqlText to_username ->
  no_trx_id o = SqlText trx_id ->
  no_from_username o = SqlText from_username ->
  ~ In uuid (map n_nid (notifications db)) ->
  engine_ok db = true ->
  has_key (snd (create_notification db now uuid o)) to_username
    (no_notify_type o) trx_id from_username.
Proof.
  intros Hnid Hto Htrx Hfrom Hfresh Hok. unfold create_notification.
  rewrite Hok, Hnid. simpl.
  unfold bind_notification. rewrite Hto, Htrx, Hfrom. simpl.
  set (row := mkNotification uuid (no_notify_type o) to_username
                (Some from_username) (no_json_data o) (no_priority_level o)
                now (Some trx_id)).
  unfold insert_notification. rewrite Hok. simpl.
  destruct (existsb (fun r => String.eqb (n_nid r) uuid) (notifications db))
    eqn:Hpk.
  { exfalso. apply Hfresh.
    apply existsb_exists in Hpk as (r & Hr & Heq).
    apply String.eqb_eq in Heq. apply in_map_iff. exists r. split; assumption. }
  destruct (existsb (notification_idx_conflict row) (notifications db)) eqn:Hidx.
  - simpl. apply existsb_exists in Hidx as (r & Hr & Hc);
      destruct (notification_idx_conflict_key row r to_username trx_id
                  from_username Hc) as (H1 & H2 & H3 & H4); try reflexivity;
      exists r; (split; [exact Hr|]); (split; [exact H1|]);
      (split; [exact H2|]); (split; [exact H3|exact H4]).
  - simpl. exists row. repeat split. apply in_app_iff. right. left. reflexivity.
Qed.

Lemma create_notification_engine_ok (db : YoDatabase) (now : datetime)
    (uuid : string) (o : NotificationObject) :
  engine_ok (snd (create_notification db now uuid o)) = engine_ok db.
Proof.
  destruct (create_notification_cases db now uuid o)
    as [-> | (row & _ & -> & _)]; reflexivity.
Qed.

(** X5.  Storing is idempotent on a complete key: for an object with a
    [to_username], a [trx_id] and a [from_username] and a generated id
    not yet in the table, a second [create_notification] of the same
    object (at any time, under any new id) leaves the database as the
    first call left it, and after the first call on a store that answers
    the key is in the table. *)
Theorem create_notification_idempotent (db : YoDatabase) (t1 t2 : datetime)
    (uuid1 uuid2 : string) (o : NotificationObject)
    (to_username trx_id from_username : string) :
  no_nid o = None ->
  no_to_username o = SqlText to_username ->
  no_trx_id o = SqlText trx_id ->
  no_from_username o = SqlText from_username ->
  ~ In uuid1 (map n_nid (notifications db)) ->
  let once := snd (create_notification db t1 uuid1 o) in
  let twice := snd (create_notification once t2 uuid2 o) in
  twice = once
  /\ (engine_ok db = true ->
      has_key once to_username (no_notify_type o) trx_id from_username).
Proof.
  intros Hnid Hto Htrx Hfrom Hfresh once twice.
  split.
  - destruct (engine_ok db) eqn:Hok.
    + unfold twice.
      apply (create_notification_key_stored once t2 uuid2 o to_username trx_id
               from_username Hto Htrx Hfrom).
      apply create_notification_stores_key; assumption.
    + unfold twice, once, create_notification. rewrite Hok. simpl. rewrite Hok.
      reflexivity.
  - intros Hok. apply create_notification_stores_key; assumption.
Qed.

Lemma create_notification_idempotent_witness :
  let once := snd (create_notification empty_db 1000000 "uuid-0" vote_object) in
  let twice := snd (create_notification once 2000000 "uuid-1" vote_object) in
  twice = once
  /\ (engine_ok empty_db = true ->
      has_key once "bob" (no_notify_type vote_object) "T1" "alice").
Proof.
  apply (create_notification_idempotent empty_db 1000000 2000000 "uuid-0" "uuid-1"
           vote_object "bob" "T1" "alice"); try reflexivity.
  intros [].
Defined.

(** ** Unsent notifications *)

Lemma unsent_nids_In (db : YoDatabase) (nid : string) :
  In nid (unsent_nids db)
  <-> In nid (map n_nid (notifications db))
      /\ ~ In nid (map a_nid (actions db)).
Proof.
  unfold unsent_nids. rewrite nodup_In, filter_In.
  split; intros [Hn Hs]; (split; [exact Hn|]).
  - intros Ha. apply negb_true_iff in Hs.
    assert (existsb (String.eqb nid)
              (flat_map (fun a => map n_nid
                  (List.filter (fun n => String.eqb (a_nid a) (n_nid n))
                               (notifications db))) (actions db)) = true) as Ht.
    { apply existsb_exists. exists nid. split; [|apply String.eqb_refl].
      apply in_flat_map.
      apply in_map_iff in Ha as (a & Heq & Ha).
      exists a. split; [exact Ha|].
      apply in_map_iff in Hn as (n & Hnid & Hn).
      apply in_map_iff. exists n. split; [exact Hnid|].
      apply filter_In. split; [exact Hn|].
      rewrite Heq, Hnid. apply String.eqb_refl. }
    rewrite Ht in Hs. discriminate Hs.
  - apply negb_true_iff.
    destruct (existsb _ _) eqn:Ht; [|reflexivity].
    exfalso. apply Hs.
    apply existsb_exists in Ht as (x & Hx & Heq).
    apply String.eqb_eq in Heq. subst x.
    apply in_flat_map in Hx as (a & Ha & Hx).
    apply in_map_iff in Hx as (n & Hnid & Hf).
    apply filter_In in Hf as [_ Heq]. apply String.eqb_eq in Heq.
    apply in_map_iff. exists a. split; [congruence|exact Ha].
Qed.

Lemma unsent_nids_NoDup (db : YoDatabase) : NoDup (unsent_nids db).
Proof. unfold unsent_nids. apply NoDup_ListNoDup, List.NoDup_nodup. Qed.

(** X6.  The compound select of [get_wwwpoll_unsents] picks each
    notification id that no Action names, once: an id is selected iff a
    notification has it and the Action ledger does not mention it,
    whatever the transport or status of the Action. *)
Theorem unsent_means_no_action (db : YoDatabase) :
  NoDup (unsent_nids db)
  /\ forall nid,
       In nid (unsent_nids db)
       <-> In nid (map n_nid (notifications db))
           /\ ~ In nid (map a_nid (actions db)).
Proof. split; [apply unsent_nids_NoDup|apply unsent_nids_In]. Qed.

(** X7.  One recorded Action takes a notification out of the unsent set
    for good: after [mark_sent] on any transport its id is no longer
    selected, and the selection of every other id is as before. *)
Theorem mark_sent_clears_unsent (db : YoDatabase) (now : datetime)
    (n : Notification) (transport : string) :
  engine_ok db = true ->
  let db' := snd (mark_sent db now n transport) in
  ~ In (n_nid n) (unsent_nids db')
  /\ forall nid, nid <> n_nid n ->
       (In nid (unsent_nids db') <-> In nid (unsent_nids db)).
Proof.
  intros Hok db'.
  assert (notifications db' = notifications db
          /\ map a_nid (actions db') = map a_nid (actions db) ++ [n_nid n])
    as [Hn Ha].
  { unfold db', mark_sent. rewrite Hok. simpl. rewrite map_app. split; reflexivity. }
  split.
  - rewrite unsent_nids_In, Ha. intros [_ Hnot]. apply Hnot.
    apply in_app_iff. right. left. reflexivity.
  - intros nid Hne. rewrite !unsent_nids_In, Hn, Ha, in_app_iff. simpl.
    split; intros [H1 H2]; (split; [exact H1|]).
    + intros Hin. apply H2. left. exact Hin.
    + intros [Hin | [Heq | []]]; [apply H2; exact Hin|].
      apply Hne. symmetry. exact Heq.
Qed.

Lemma mark_sent_clears_unsent_witness :
  let db' := snd (mark_sent half_sent_db 2000000 (vote_to "n2" "carol") "mock") in
  ~ In "n2" (unsent_nids db')
  /\ forall nid, nid <> "n2" ->
       (In nid (unsent_nids db') <-> In nid (unsent_nids half_sent_db)).
Proof.
  apply (mark_sent_clears_unsent half_sent_db 2000000 (vote_to "n2" "carol") "mock").
  reflexivity.
Defined.

Lemma dict_append_keys {A} (k : string) (v : A) (d : list (string * list A))
    (k' : string) :
  In k' (map fst (dict_append k v d)) <-> k' = k \/ In k' (map fst d).
Proof.
  induction d as [|[k0 vs] d IH]; simpl.
  - split; [intros [<-|[]]; left; reflexivity|intros [->|[]]; left; reflexivity].
  - destruct (String.eqb_spec k0 k) as [->|Hne]; simpl.
    + intuition congruence.
    + rewrite IH. intuition congruence.
Qed.

Lemma dict_append_keys_NoDup {A} (k : string) (v : A) (d : list (string * list A)) :
  NoDup (map fst d) -> NoDup (map fst (dict_append k v d)).
Proof.
  induction d as [|[k0 vs] d IH]; simpl; intros Hd.
  - apply NoDup_cons. split; [|constructor].
    intros Hin. apply list_elem_of_In in Hin. destruct Hin.
  - apply NoDup_cons in Hd as [Hk0 Hd].
    destruct (String.eqb_spec k0 k) as [->|Hne]; simpl.
    + apply NoDup_cons. split; assumption.
    + apply NoDup_cons. split; [|apply IH; exact Hd].
      intros Hin. apply list_elem_of_In, dict_append_keys in Hin.
      destruct Hin as [->|Hin]; [apply Hne; reflexivity|].
      apply Hk0, list_elem_of_In. exact Hin.
Qed.

Lemma dict_append_well_formed (k : string) (v : Notification)
    (d : list (string * list Notification)) :
  groups_well_formed d ->
  n_to_username v = k ->
  groups_well_formed (dict_append k v d).
Proof.
  intros [Hkeys Hgroups] Hv. split; [apply dict_append_keys_NoDup; exact Hkeys|].
  clear Hkeys. induction Hgroups as [|[k0 vs] d [Hne Hall] Htail IH]; simpl.
  - constructor; [|constructor]. simpl. split; [discriminate|].
    constructor; [exact Hv|constructor].
  - simpl in Hne, Hall. destruct (String.eqb_spec k0 k) as [->|Hk].
    + constructor; [|exact Htail]. simpl. split.
      * destruct vs; discriminate.
      * apply Forall_app. split; [exact Hall|]. constructor; [exact Hv|constructor].
    + constructor; [|exact IH]. simpl. split; assumption.
Qed.

Lemma dict_append_rows {A} (k : string) (v : A) (d : list (string * list A)) :
  grouped_rows (dict_append k v d) ≡ₚ grouped_rows d ++ [v].
Proof.
  unfold grouped_rows. induction d as [|[k0 vs] d IH]; simpl; [reflexivity|].
  destruct (String.eqb_spec k0 k) as [->|Hk]; simpl.
  - rewrite <- !app_assoc. apply Permutation_app_head, Permutation_app_comm.
  - rewrite IH, app_assoc. reflexivity.
Qed.

Lemma fold_groups (db : YoDatabase) (nids : list string)
    (acc : list (string * list Notification)) :
  groups_well_formed acc ->
  let groups :=
    fold_left
      (fun retval nid =>
         match List.find (fun n => String.eqb (n_nid n) nid) (notifications db) with
         | Some row => dict_append (n_to_username row) row retval
         | None => retval
         end) nids acc in
  groups_well_formed groups
  /\ grouped_rows groups ≡ₚ grouped_rows acc ++ rows_with db nids.
Proof.
  revert acc. induction nids as [|nid nids IH]; intros acc Hacc; simpl.
  - split; [exact Hacc|]. rewrite app_nil_r. reflexivity.
  - destruct (List.find _ (notifications db)) as [row|] eqn:Hfind.
    + destruct (IH (dict_append (n_to_username row) row acc)) as [Hwf Hrows].
      { apply dict_append_well_formed; [exact Hacc|reflexivity]. }
      split; [exact Hwf|].
      rewrite Hrows, dict_append_rows, <- app_assoc. reflexivity.
    + apply IH. exact Hacc.
Qed.

Lemma find_by_nid (rows : list Notification) (n : Notification) :
  NoDup (map n_nid rows) ->
  In n rows ->
  List.find (fun r => String.eqb (n_nid r) (n_nid n)) rows = Some n.
Proof.
  induction rows as [|r rows IH]; simpl; intros Hnodup Hin; [destruct Hin|].
  apply NoDup_cons in Hnodup as [Hr Hnodup].
  destruct Hin as [->|Hin].
  - rewrite String.eqb_refl. reflexivity.
  - destruct (String.eqb_spec (n_nid r) (n_nid n)) as [Heq|Hne].
    + exfalso. apply Hr. rewrite Heq. apply list_elem_of_In, in_map. exact Hin.
    + apply IH; assumption.
Qed.

Lemma rows_with_In (db : YoDatabase) (nids : list string) (n : Notification) :
  NoDup (map n_nid (notifications db)) ->
  In n (rows_with db nids) <-> In n (notifications db) /\ In (n_nid n) nids.
Proof.
  intros Hnodup. unfold rows_with. rewrite in_flat_map. split.
  - intros (nid & Hnid & Hin).
    destruct (List.find _ (notifications db)) as [row|] eqn:Hfind; [|destruct Hin].
    destruct Hin as [->|[]].
    apply find_some in Hfind as [Hrow Heq]. apply String.eqb_eq in Heq.
    split; [exact Hrow|]. rewrite Heq. exact Hnid.
  - intros [Hrow Hnid]. exists (n_nid n). split; [exact Hnid|].
    rewrite (find_by_nid _ n Hnodup Hrow). left. reflexivity.
Qed.

Lemma rows_with_nids (db : YoDatabase) (nids : list string) :
  Forall (fun nid => In nid (map n_nid (notifications db))) nids ->
  map n_nid (rows_with db nids) = nids.
Proof.
  induction 1 as [|nid nids Hnid _ IH]; [reflexivity|].
  unfold rows_with in *. simpl. rewrite map_app, IH.
  apply in_map_iff in Hnid as (n & Heq & Hn).
  destruct (List.find (fun r => String.eqb (n_nid r) nid) (notifications db))
    as [row|] eqn:Hfind.
  - apply find_some in Hfind as [_ Hrow]. apply String.eqb_eq in Hrow.
    simpl. rewrite Hrow. reflexivity.
  - exfalso. apply (find_none _ _ Hfind) in Hn.
    rewrite Heq, String.eqb_refl in Hn. discriminate Hn.
Qed.

(** X8.  [get_wwwpoll_unsents] on a store that answers returns a dict
    with one key per recipient, each holding a non-empty list of
    notifications addressed to that recipient; together the lists hold
    exactly the notifications no Action names, each once. *)
Theorem unsents_grouped_by_recipient (db : YoDatabase) :
  engine_ok db = true ->
  NoDup (map n_nid (notifications db)) ->
  exists groups,
    get_wwwpoll_unsents db = Ret groups
    /\ groups_well_formed groups
    /\ NoDup (map n_nid (grouped_rows groups))
    /\ forall n,
         In n (grouped_rows groups)
         <-> In n (notifications db) /\ ~ In (n_nid n) (map a_nid (actions db)).
Proof.
  intros Hok Hnodup. unfold get_wwwpoll_unsents. rewrite Hok.
  eexists. split; [reflexivity|].
  destruct (fold_groups db (unsent_nids db) []) as [Hwf Hrows].
  { split; constructor. }
  simpl in Hrows. split; [exact Hwf|]. split.
  - rewrite Hrows. rewrite rows_with_nids; [apply unsent_nids_NoDup|].
    apply Forall_forall. intros nid Hnid. apply list_elem_of_In in Hnid.
    apply unsent_nids_In in Hnid as [Hnid _]. exact Hnid.
  - intros n. rewrite Hrows, (rows_with_In db _ n Hnodup), unsent_nids_In.
    split.
    + intros [Hn [_ Ha]]. split; assumption.
    + intros [Hn Ha]. split; [exact Hn|]. split; [|exact Ha].
      apply in_map. exact Hn.
Qed.

Lemma unsents_grouped_by_recipient_witness :
  exists groups,
    get_wwwpoll_unsents half_sent_db = Ret groups
    /\ groups_well_formed groups
    /\ NoDup (map n_nid (grouped_rows groups))
    /\ forall n,
         In n (grouped_rows groups)
         <-> In n (notifications half_sent_db)
             /\ ~ In (n_nid n) (map a_nid (actions half_sent_db)).
Proof.
  apply (unsents_grouped_by_recipient half_sent_db).
  - reflexivity.
  - simpl. apply NoDup_cons. split.
    + intros Hin. apply list_elem_of_In in Hin. destruct Hin as [Heq|[]].
      discriminate Heq.
    + apply NoDup_cons. split; [|constructor].
      intros Hin. apply list_elem_of_In in Hin. destruct Hin.
Defined.

(** ** User settings *)

Lemma find_user_none (db : YoDatabase) (username : string) :
  ~ user_known db username ->
  List.find (fun u => String.eqb (us_username u) username) (user_settings db) = None
  /\ existsb (fun u => String.eqb (us_username u) username) (user_settings db) = false.
Proof.
  intros Hunknown. split.
  - destruct (List.find _ (user_settings db)) as [u|] eqn:Hfind; [|reflexivity].
    exfalso. apply Hunknown. apply find_some in Hfind as [Hu Heq].
    apply String.eqb_eq in Heq. exists u. split; assumption.
  - destruct (existsb _ (user_settings db)) eqn:Hex; [|reflexivity].
    exfalso. apply Hunknown. apply existsb_exists in Hex as (u & Hu & Heq).
    apply String.eqb_eq in Heq. exists u. split; assumption.
Qed.

Lemma find_user_snoc (rows : list UserSettings) (username : string)
    (transports : Transports) :
  List.find (fun u => String.eqb (us_username u) username) rows = None ->
  List.find (fun u => String.eqb (us_username u) username)
    (rows ++ [mkUserSettings username transports])
  = Some (mkUserSettings username transports).
Proof.
  induction rows as [|r rows IH]; simpl; intros Hnone.
  - rewrite String.eqb_refl. reflexivity.
  - destruct (String.eqb (us_username r) username); [discriminate Hnone|].
    apply IH. exact Hnone.
Qed.

(** X9.  [get_user_transports] for a user without settings creates the
    user with the default settings (inbox polling for every notification
    type, email for none) and returns them; asking again returns the same
    settings and writes nothing more.  With [retry=True] nothing is
    created and the answer is [None]. *)
Theorem unknown_user_gets_defaults (db : YoDatabase) (username : string) :
  engine_ok db = true ->
  ~ user_known db username ->
  let db' := with_user_settings db
               (user_settings db
                ++ [mkUserSettings username DEFAULT_USER_TRANSPORT_SETTINGS]) in
  get_user_transports db username false
  = (Some DEFAULT_USER_TRANSPORT_SETTINGS, db')
  /\ (forall retry,
        get_user_transports db' username retry
        = (Some DEFAULT_USER_TRANSPORT_SETTINGS, db'))
  /\ get_user_transports db username true = (None, db).
Proof.
  intros Hok Hunknown db'.
  destruct (find_user_none db username Hunknown) as [Hfind Hex].
  assert (select_user_transports db username = None) as Hsel.
  { unfold select_user_transports. rewrite Hok, Hfind. reflexivity. }
  assert (select_user_transports db' username
          = Some DEFAULT_USER_TRANSPORT_SETTINGS) as Hsel'.
  { unfold select_user_transports, db'. simpl. rewrite Hok.
    rewrite (find_user_snoc _ _ _ Hfind). reflexivity. }
  split; [|split].
  - unfold get_user_transports. rewrite Hsel.
    unfold create_user. rewrite Hok, Hex. simpl. fold db'. rewrite Hsel'.
    reflexivity.
  - intros retry. unfold get_user_transports. rewrite Hsel'. reflexivity.
  - unfold get_user_transports. rewrite Hsel. reflexivity.
Qed.

Lemma unknown_user_gets_defaults_witness :
  let db' := with_user_settings empty_db
               (user_settings empty_db
                ++ [mkUserSettings "dave" DEFAULT_USER_TRANSPORT_SETTINGS]) in
  get_user_transports empty_db "dave" false
  = (Some DEFAULT_USER_TRANSPORT_SETTINGS, db')
  /\ (forall retry,
        get_user_transports db' "dave" retry
        = (Some DEFAULT_USER_TRANSPORT_SETTINGS, db'))
  /\ get_user_transports empty_db "dave" true = (None, empty_db).
Proof.
  apply (unknown_user_gets_defaults empty_db "dave").
  - reflexivity.
  - intros (u & [] & _).
Defined.

(** X10.  [create_user] never overwrites: for a user who has settings it
    returns [False] and leaves the table as it is, so
    [get_user_transports] keeps returning the stored settings; for a new
    user it stores the given settings and [get_user_transports] returns
    them. *)
Theorem create_user_keeps_existing (db : YoDatabase) (username : string)
    (transports : Transports) :
  engine_ok db = true ->
  (user_known db username ->
   create_user db username (Some transports) = (false, db))
  /\ (~ user_known db username ->
      let db' := snd (create_user db username (Some transports)) in
      fst (create_user db username (Some transports)) = true
      /\ forall retry, get_user_transports db' username retry = (Some transports, db')).
Proof.
  intros Hok. split.
  - intros (u & Hu & Hname). unfold create_user. rewrite Hok. simpl.
    assert (existsb (fun u => String.eqb (us_username u) username)
              (user_settings db) = true) as ->; [|reflexivity].
    apply existsb_exists. exists u. split; [exact Hu|].
    rewrite Hname. apply String.eqb_refl.
  - intros Hunknown.
    destruct (find_user_none db username Hunknown) as [Hfind Hex].
    unfold create_user. rewrite Hok, Hex. simpl. split; [reflexivity|].
    intros retry. unfold get_user_transports, select_user_transports. simpl.
    rewrite Hok, (find_user_snoc _ _ _ Hfind). reflexivity.
Qed.

Lemma create_user_keeps_existing_witness :
  (user_known (w_db bob_world) "bob" ->
   create_user (w_db bob_world) "bob" (Some (mock_only ["follow"]))
   = (false, w_db bob_world))
  /\ (~ user_known (w_db bob_world) "bob" ->
      let db' := snd (create_user (w_db bob_world) "bob"
                        (Some (mock_only ["follow"]))) in
      fst (create_user (w_db bob_world) "bob" (Some (mock_only ["follow"]))) = true
      /\ forall retry,
           get_user_transports db' "bob" retry = (Some (mock_only ["follow"]), db')).
Proof.
  apply (create_user_keeps_existing (w_db bob_world) "bob" (mock_only ["follow"])).
  reflexivity.
Defined.

(** ** Rate limits *)

Lemma filter_length_le {A} (f g : A -> bool) (l : list A) :
  (forall x, f x = true -> g x = true) ->
  (length (List.filter f l) <= length (List.filter g l))%nat.
Proof.
  intros Himp. induction l as [|x l IH]; simpl; [lia|].
  destruct (f x) eqn:Hf.
  - rewrite (Himp x Hf). simpl. lia.
  - destruct (g x); simpl; lia.
Qed.

Lemma get_priority_count_mono (db : YoDatabase) (now : datetime)
    (to_username : string) (p1 p2 w1 w2 : Z) :
  p1 <= p2 ->
  w1 <= w2 ->
  get_priority_count db now to_username p2 w1 None
  <= get_priority_count db now to_username p1 w2 None.
Proof.
  intros Hp Hw. destruct (engine_ok db) eqn:Hok.
  - rewrite !get_priority_count_up by exact Hok.
    apply inj_le, filter_length_le. intros a.
    unfold priority_count_where, timedelta_seconds.
    rewrite !andb_true_iff, !Z.leb_le. intros [[H1 H2] H3].
    repeat split; [exact H1|lia|lia].
  - rewrite !get_priority_count_down by exact Hok. lia.
Qed.

(** X11.  The admission count is nested: for one user and one moment it
    can only shrink when the priority level rises or the window narrows,
    and it never exceeds the number of Actions in the ledger. *)
Theorem priority_count_nested (db : YoDatabase) (now : datetime)
    (to_username : string) (p1 p2 w1 w2 : Z) :
  p1 <= p2 ->
  w1 <= w2 ->
  get_priority_count db now to_username p2 w1 None
  <= get_priority_count db now to_username p1 w2 None
  /\ get_priority_count db now to_username p1 w2 None
     <= Z.of_nat (length (actions db)).
Proof.
  intros Hp Hw. split; [apply get_priority_count_mono; assumption|].
  destruct (engine_ok db) eqn:Hok.
  - rewrite get_priority_count_up by exact Hok.
    apply inj_le, List.filter_length_le.
  - rewrite get_priority_count_down by exact Hok. lia.
Qed.

Lemma priority_count_nested_witness :
  get_priority_count busy_db 7200000000 "bob" Priority.PRIORITY 60 None
  <= get_priority_count busy_db 7200000000 "bob" Priority.LOW 3600 None
  /\ get_priority_count busy_db 7200000000 "bob" Priority.LOW 3600 None
     <= Z.of_nat (length (actions busy_db)).
Proof.
  apply (priority_count_nested busy_db 7200000000 "bob"
           Priority.LOW Priority.PRIORITY 60 3600).
  - unfold Priority.LOW, Priority.PRIORITY. lia.
  - lia.
Defined.

(** X12.  What override does to [check_ratelimit]: at ALWAYS it changes
    nothing; at PRIORITY, NORMAL and LOW it only admits more; at
    MARKETING it only admits less (its window grows to a day under the
    same threshold); a priority level outside 1..5 is denied with or
    without it. *)
Theorem override_direction (db : YoDatabase) (now : datetime) (n : Notification) :
  (n_priority_level n = Priority.ALWAYS ->
   check_ratelimit db now n true = check_ratelimit db now n false)
  /\ (n_priority_level n <> Priority.MARKETING ->
      check_ratelimit db now n false = true ->
      check_ratelimit db now n true = true)
  /\ (n_priority_level n = Priority.MARKETING ->
      check_ratelimit db now n true = true ->
      check_ratelimit db now n false = true)
  /\ (n_priority_level n < Priority.MARKETING \/ Priority.ALWAYS < n_priority_level n ->
      forall override, check_ratelimit db now n override = false).
Proof.
  unfold check_ratelimit, Priority.ALWAYS, Priority.PRIORITY, Priority.NORMAL,
    Priority.LOW, Priority.MARKETING.
  pose proof (get_priority_count_mono db now (n_to_username n) 1 1 3600 86400
                ltac:(lia) ltac:(lia)) as Hday.
  split; [|split; [|split]].
  - intros ->. reflexivity.
  - intros Hp.
    destruct (Z.eqb_spec (n_priority_level n) 5); [auto|].
    destruct (Z.eqb_spec (n_priority_level n) 4);
      [rewrite !Z.leb_le; lia|].
    destruct (Z.eqb_spec (n_priority_level n) 3);
      [rewrite Z.leb_le, Z.ltb_lt; lia|].
    destruct (Z.eqb_spec (n_priority_level n) 2);
      [rewrite Z.eqb_eq, Z.ltb_lt; lia|].
    destruct (Z.eqb_spec (n_priority_level n) 1); [contradiction|auto].
  - intros ->. simpl. rewrite !Z.leb_le. lia.
  - intros Hout override.
    destruct (Z.eqb_spec (n_priority_level n) 5); [lia|].
    destruct (Z.eqb_spec (n_priority_level n) 4); [lia|].
    destruct (Z.eqb_spec (n_priority_level n) 3); [lia|].
    destruct (Z.eqb_spec (n_priority_level n) 2); [lia|].
    destruct (Z.eqb_spec (n_priority_level n) 1); [lia|reflexivity].
Qed.

Lemma get_priority_count_mark_all (db : YoDatabase) (later : datetime)
    (to_username : string) (priority window : Z)
    (sends : list (datetime * Notification * string)) :
  engine_ok db = true ->
  Forall (fun s => n_to_username (snd (fst s)) = to_username
                   /\ priority <= n_priority_level (snd (fst s))
                   /\ later - timedelta_seconds window <= fst (fst s)) sends ->
  get_priority_count (mark_all db sends) later to_username priority window None
  = get_priority_count db later to_username priority window None
    + Z.of_nat (length sends).
Proof.
  intros Hok Hsends. revert db Hok.
  induction Hsends as [|[[t n] tr] sends (Hto & Hp & Ht) _ IH]; intros db Hok.
  - simpl. lia.
  - simpl in Hto, Hp, Ht. cbn [mark_all]. rewrite IH.
    + subst to_username.
      rewrite get_priority_count_after_mark_sent by assumption.
      cbn [length]. lia.
    + unfold mark_sent. rewrite Hok. exact Hok.
Qed.

(** X13.  The ALWAYS budget: for a user without earlier Actions, after
    [k] ALWAYS-level sends recorded by [mark_sent] within the last hour,
    a further ALWAYS notification is admitted iff [k] is below 10, with
    or without override. *)
Theorem always_budget_is_ten (db : YoDatabase) (later : datetime)
    (n : Notification) (sends : list (datetime * Notification * string))
    (override : bool) :
  engine_ok db = true ->
  no_actions_for (n_to_username n) (actions db) ->
  n_priority_level n = Priority.ALWAYS ->
  Forall (fun s => n_to_username (snd (fst s)) = n_to_username n
                   /\ Priority.ALWAYS <= n_priority_level (snd (fst s))
                   /\ later - timedelta_seconds 3600 <= fst (fst s)) sends ->
  check_ratelimit (mark_all db sends) later n override
  = (Z.of_nat (length sends) <? 10).
Proof.
  intros Hok Hnone Hp Hsends.
  unfold check_ratelimit. rewrite Hp. simpl.
  rewrite get_priority_count_mark_all by assumption.
  rewrite get_priority_count_no_actions by exact Hnone.
  reflexivity.
Qed.

Lemma always_budget_is_ten_witness :
  check_ratelimit
    (mark_all empty_db
       [(1000000, always_to_bob "a1", "mock"); (2000000, always_to_bob "a2", "mock")])
    3000000 (always_to_bob "a3") false
  = (Z.of_nat (length [(1000000, always_to_bob "a1", "mock");
                       (2000000, always_to_bob "a2", "mock")]) <? 10).
Proof.
  apply (always_budget_is_ten empty_db 3000000 (always_to_bob "a3")
           [(1000000, always_to_bob "a1", "mock"); (2000000, always_to_bob "a2", "mock")]
           false).
  - reflexivity.
  - constructor.
  - reflexivity.
  - repeat constructor; simpl; unfold timedelta_seconds; lia.
Defined.

(** X14.  The mapping the dispatcher builds from a user's settings sends
    a notification type to exactly the transports that list it, in the
    order of the settings and once per listing, each with that
    transport's sub data; a type no transport lists has no entry at
    all. *)
Theorem routing_follows_preferences (user_transports : Transports)
    (notify_type : string) :
  notify_types_transports user_transports !! notify_type
  = entry_of (enabled_pairs user_transports notify_type)
  /\ (forall transport_name sub,
        In (transport_name, sub) (enabled_pairs user_transports notify_type)
        <-> exists data,
              In (transport_name, data) user_transports
              /\ In notify_type (notification_types data)
              /\ sub = sub_data data)
  /\ (notify_types_transports user_transports !! notify_type = None
      <-> forall transport_name data,
            In (transport_name, data) user_transports ->
            ~ In notify_type (notification_types data)).
Proof.
  assert (forall transport_name sub,
            In (transport_name, sub) (enabled_pairs user_transports notify_type)
            <-> exists data,
                  In (transport_name, data) user_transports
                  /\ In notify_type (notification_types data)
                  /\ sub = sub_data data) as Hin.
  { intros transport_name sub. unfold enabled_pairs. rewrite in_flat_map. split.
    - intros ([name data] & Ht & Hp). simpl in Hp.
      apply in_map_iff in Hp as (nt & Heq & Hnt).
      apply filter_In in Hnt as [Hnt Hty]. apply String.eqb_eq in Hty. subst nt.
      injection Heq as <- <-. exists data. repeat split; assumption.
    - intros (data & Ht & Hnt & ->). exists (transport_name, data).
      split; [exact Ht|]. simpl. apply in_map_iff. exists notify_type.
      split; [reflexivity|]. apply filter_In. split; [exact Hnt|].
      apply String.eqb_refl. }
  split; [apply notify_types_transports_lookup|]. split; [exact Hin|].
  rewrite notify_types_transports_lookup. split.
  - intros Hnone transport_name data Ht Hnt.
    assert (In (transport_name, sub_data data)
              (enabled_pairs user_transports notify_type)) as Hp
      by (apply Hin; exists data; repeat split; assumption).
    destruct (enabled_pairs user_transports notify_type); [destruct Hp|].
    discriminate Hnone.
  - intros Hnone.
    destruct (enabled_pairs user_transports notify_type) as [|[name sub] l] eqn:Hpairs;
      [reflexivity|].
    exfalso.
    destruct (proj1 (Hin name sub) (or_introl eq_refl)) as (data & Ht & Hnt & _).
    exact (Hnone name data Ht Hnt).
Qed.

(** On settings with email for votes and follows and mock for votes, a
    vote goes to both and a follow to email only. *)
Example routing_example :
  notify_types_transports two_transport_settings !! "vote"
  = Some [("email", "bob@example.org"); ("mock", "")]
  /\ notify_types_transports two_transport_settings !! "follow"
     = Some [("email", "bob@example.org")]
  /\ notify_types_transports two_transport_settings !! "mention" = None.
Proof. repeat split; vm_compute; reflexivity. Qed.

Section DispatchOutcome.

Variable clock : nat -> datetime.
Variable json_loads : string -> option json.
Variable configured_transports : gmap string Transport.

Lemma dispatch_approved_result (username : string)
    (user_notify_types_transports : gmap string (list (string * string)))
    (n : Notification) (ts : list (string * string)) (data : json) (w : World) :
  engine_ok (w_db w) = true ->
  json_loads (n_json_data n) = Some data ->
  approved clock w n ->
  user_notify_types_transports !! n_notify_type n = Some ts ->
  exists w',
    dispatch_notification clock json_loads configured_transports username
      user_notify_types_transports n w = (Ret tt, w')
    /\ fan_out_result configured_transports username n data ts
         (mkWorld (w_db w) (w_ticks w + clock_reads (n_priority_level n))%nat
            (w_uuids w) (w_sends w)) w'.
Proof.
  intros Hok Hloads Happroved Hts.
  unfold dispatch_notification, bind at 1, check_ratelimit_now.
  unfold approved in Happroved. rewrite Happroved. cbn [negb].
  unfold bind at 1. rewrite Hts. unfold ret at 1.
  apply (fan_out clock json_loads configured_transports username n data ts
           (mkWorld (w_db w) (w_ticks w + clock_reads (n_priority_level n))%nat
              (w_uuids w) (w_sends w)) Hok Hloads).
Qed.

(** X15.  A notification leaves the unsent set in a pass of the
    dispatcher iff at least one send returned: one recorded Action
    removes it even when other enabled transports raised or are not
    configured (they are not tried again), and with no send returned it
    stays unsent for the next cycle. *)
Theorem unsent_until_one_send_returns (username : string)
    (user_notify_types_transports : gmap string (list (string * string)))
    (n : Notification) (ts : list (string * string)) (data : json) (w : World) :
  engine_ok (w_db w) = true ->
  json_loads (n_json_data n) = Some data ->
  approved clock w n ->
  user_notify_types_transports !! n_notify_type n = Some ts ->
  In (n_nid n) (unsent_nids (w_db w)) ->
  let w' := snd (dispatch_notification clock json_loads configured_transports
                   username user_notify_types_transports n w) in
  In (n_nid n) (unsent_nids (w_db w'))
  <-> delivered configured_transports username n data ts = [].
Proof.
  intros Hok Hloads Happroved Hts Hunsent w'.
  assert (exists new,
             notifications (w_db w') = notifications (w_db w)
             /\ actions (w_db w') = actions (w_db w) ++ new
             /\ map action_summary new
                = map (sent_summary n)
                    (delivered configured_transports username n data ts))
    as (new & Hn & Ha & Hnew).
  { destruct (dispatch_approved_result username user_notify_types_transports n ts
                data w Hok Hloads Happroved Hts)
      as (w2 & Hrun & (_ & _ & (new & Hact & Hsum) & Hnot & _)).
    unfold w'. rewrite Hrun. cbn [snd]. exists new.
    split; [exact Hnot|]. split; [exact Hact|exact Hsum]. }
  rewrite unsent_nids_In in Hunsent. destruct Hunsent as [Hrow Hnone].
  rewrite unsent_nids_In, Hn, Ha, map_app, in_app_iff.
  assert (map a_nid new
          = map (fun _ => n_nid n)
              (delivered configured_transports username n data ts)) as Hnids.
  { assert (map a_nid new = map (fun s => fst (fst (fst (fst s))))
                              (map action_summary new)) as ->
      by (rewrite map_map; reflexivity).
    rewrite Hnew, map_map. reflexivity. }
  rewrite Hnids. split.
  - intros [_ Hnot].
    destruct (delivered configured_transports username n data ts); [reflexivity|].
    exfalso. apply Hnot. right. left. reflexivity.
  - intros ->. split; [exact Hrow|]. intros [Hin|[]]. exact (Hnone Hin).
Qed.

End DispatchOutcome.

Lemma unsent_until_one_send_returns_witness :
  let w' := snd (dispatch_notification example_clock example_json_loads
                   mixed_transports "bob" {[ "vote" := three_ways ]}
                   (vote_to "n1" "bob") bob_world) in
  In "n1" (unsent_nids (w_db w'))
  <-> delivered mixed_transports "bob" (vote_to "n1" "bob") (JObj []) three_ways = [].
Proof.
  apply (unsent_until_one_send_returns example_clock example_json_loads
           mixed_transports "bob" {[ "vote" := three_ways ]} (vote_to "n1" "bob")
           three_ways (JObj []) bob_world).
  - reflexivity.
  - reflexivity.
  - reflexivity.
  - vm_compute. reflexivity.
  - vm_compute. left. reflexivity.
Defined.

(** ** Event classifier: what [notify] may do *)

Lemma only_adds_refl (w : World) : only_adds_notifications w w.
Proof.
  unfold only_adds_notifications.
  split; [exists []; rewrite app_nil_r; reflexivity|].
  do 5 (split; [reflexivity|]).
  intros Hc. exact Hc.
Qed.

Lemma only_adds_trans (w1 w2 w3 : World) :
  only_adds_notifications w1 w2 ->
  only_adds_notifications w2 w3 ->
  only_adds_notifications w1 w3.
Proof.
  intros ((n1 & Hn1) & Ha1 & Hu1 & Hc1 & He1 & Hs1 & Hk1)
         ((n2 & Hn2) & Ha2 & Hu2 & Hc2 & He2 & Hs2 & Hk2).
  unfold only_adds_notifications.
  split; [exists (n1 ++ n2); rewrite Hn2, Hn1, app_assoc; reflexivity|].
  do 5 (split; [congruence|]).
  intros Hc. apply Hk2, Hk1, Hc.
Qed.

Lemma adds_only_ret {A} (a : A) : adds_only (ret a).
Proof. intros w. apply only_adds_refl. Qed.

Lemma adds_only_throw {A} (e : exn) : adds_only (@throw A e).
Proof. intros w. apply only_adds_refl. Qed.

Lemma adds_only_lift {A} (o : outcome A) : adds_only (lift o).
Proof. intros w. apply only_adds_refl. Qed.

Lemma adds_only_bind {A B} (m : Py A) (k : A -> Py B) :
  adds_only m -> (forall a, adds_only (k a)) -> adds_only (bind m k).
Proof.
  intros Hm Hk w. unfold bind. specialize (Hm w).
  destruct (m w) as [[a|e] w1]; simpl in *.
  - eapply only_adds_trans; [exact Hm|apply Hk].
  - exact Hm.
Qed.

Lemma adds_only_gather {A} (a b : Py A) :
  adds_only a -> adds_only b -> adds_only (gather a b).
Proof.
  intros Ha Hb w. unfold gather. specialize (Ha w).
  destruct (a w) as [ra w1]. specialize (Hb w1).
  destruct (b w1) as [rb w2]. simpl in *.
  assert (only_adds_notifications w w2) as H
    by (eapply only_adds_trans; eassumption).
  destruct ra, rb; exact H.
Qed.

Lemma adds_only_for_each {A} (xs : list A) (body : A -> Py unit) :
  (forall x, adds_only (body x)) -> adds_only (for_each xs body).
Proof.
  intros Hbody. induction xs as [|x xs IH]; simpl.
  - apply adds_only_ret.
  - apply adds_only_bind; [apply Hbody|intros _; exact IH].
Qed.

Section ClassifierInvariants.

Variable clock : nat -> datetime.
Variable uuid4 : nat -> string.
Variable json_loads : string -> option json.
Variable json_dumps : json -> string.
Variable post_is_comment : string -> outcome bool.

Lemma adds_only_loads (text : string) : adds_only (loads json_loads text).
Proof.
  unfold loads. destruct (json_loads text);
    [apply adds_only_ret|apply adds_only_throw].
Qed.

Lemma adds_only_store_notification (c : Candidate) :
  adds_only (store_notification clock uuid4 c).
Proof.
  intros w. unfold store_notification, bind, draw_uuid, now. simpl.
  destruct (create_notification_cases (w_db w) (clock (w_ticks w))
              (uuid4 (w_uuids w)) (candidate_object c))
    as [-> | (row & _ & -> & _ & Hpk & Hidx)]; simpl;
    unfold only_adds_notifications; simpl.
  - split; [exists []; rewrite app_nil_r; reflexivity|].
    do 5 (split; [reflexivity|]). intros Hc. exact Hc.
  - split; [exists [row]; reflexivity|].
    do 5 (split; [reflexivity|]).
    intros Hc. apply store_consistent_snoc; assumption.
Qed.

End ClassifierInvariants.

Section HandlerInvariants.

Variable clock : nat -> datetime.
Variable uuid4 : nat -> string.
Variable json_loads : string -> option json.
Variable json_dumps : json -> string.
Variable post_is_comment : string -> outcome bool.

Ltac adds_only_step :=
  first
    [ apply adds_only_ret
    | apply adds_only_throw
    | apply adds_only_lift
    | apply adds_only_loads
    | apply adds_only_store_notification
    | apply adds_only_for_each; intros ?
    | apply adds_only_gather
    | apply adds_only_bind; [|intros ?]
    | match goal with
      | |- adds_only (if ?b then _ else _) => destruct b
      | |- adds_only (match ?x with _ => _ end) => destruct x
      end ].

(** Every handler only adds notifications. *)
Lemma adds_only_handle (op : Op) :
  adds_only (handle_vote clock uuid4 json_dumps op)
  /\ adds_only (handle_follow clock uuid4 json_loads json_dumps op)
  /\ adds_only (handle_resteem clock uuid4 json_loads json_dumps op)
  /\ adds_only (handle_account_update clock uuid4 json_dumps op)
  /\ adds_only (handle_send clock uuid4 json_dumps op)
  /\ adds_only (handle_receive clock uuid4 json_dumps op)
  /\ adds_only (handle_power_down clock uuid4 json_dumps op)
  /\ adds_only (handle_mention clock uuid4 json_dumps op)
  /\ adds_only (handle_comment clock uuid4 json_dumps post_is_comment op).
Proof.
  unfold handle_vote, handle_follow, handle_resteem, handle_account_update,
    handle_send, handle_receive, transfer_data, handle_power_down,
    handle_mention, handle_comment.
  repeat apply conj; repeat adds_only_step.
Qed.

Lemma adds_only_notify (op : Op) :
  adds_only (notify clock uuid4 json_loads json_dumps post_is_comment op).
Proof.
  pose proof (adds_only_handle op) as (Hv & Hf & Hr & Ha & Hs & Hrc & Hp & Hm & Hc).
  unfold notify, one, both.
  repeat first [ assumption | adds_only_step ].
Qed.

(** X16.  Whatever the operation, [notify] only appends to the
    notifications table and keeps it within its constraints: the rows
    there before stay as they are, and the Action ledger, the user
    settings, the chain status and the transports are not touched.  This
    holds for what it did before raising, too. *)
Theorem notify_only_appends (op : Op) (w : World) :
  only_adds_notifications w
    (snd (notify clock uuid4 json_loads json_dumps post_is_comment op w)).
Proof.
  revert w.
  change (adds_only (notify clock uuid4 json_loads json_dumps post_is_comment op)).
  pose proof (adds_only_handle op) as (Hv & Hf & Hr & Ha & Hs & Hrc & Hp & Hm & Hc).
  unfold notify.
  destruct (String.eqb (op_name op) "vote");
    [unfold one; apply adds_only_bind; [exact Hv|intros b; apply adds_only_ret]|].
  destruct (String.eqb (op_name op) "custom_json").
  { apply adds_only_bind; [apply adds_only_lift|intros id].
    destruct (json_eqb id (JStr "follow")); [|apply adds_only_ret].
    unfold both. apply adds_only_bind; [|intros rs; apply adds_only_ret].
    apply adds_only_gather; assumption. }
  destruct (String.eqb (op_name op) "account_update");
    [unfold one; apply adds_only_bind; [exact Ha|intros b; apply adds_only_ret]|].
  destruct (String.eqb (op_name op) "transfer").
  { unfold both. apply adds_only_bind; [|intros rs; apply adds_only_ret].
    apply adds_only_gather; assumption. }
  destruct (String.eqb (op_name op) "withdraw_vesting");
    [unfold one; apply adds_only_bind; [exact Hp|intros b; apply adds_only_ret]|].
  destruct (String.eqb (op_name op) "comment"); [|apply adds_only_ret].
  unfold both. apply adds_only_bind; [|intros rs; apply adds_only_ret].
  apply adds_only_gather; assumption.
Qed.

Lemma returns_true_bind {A} (m : Py A) (k : A -> Py bool) :
  (forall a, returns_true (k a)) -> returns_true (bind m k).
Proof.
  intros Hk w b w'. unfold bind.
  destruct (m w) as [[a|e] w1]; [apply Hk|discriminate].
Qed.

Lemma returns_true_ret : returns_true (ret true).
Proof. intros w b w' [= <- _]. reflexivity. Qed.

Ltac returns_true_tac :=
  repeat first [ apply returns_true_ret | apply returns_true_bind; intros ? ].

Lemma handle_vote_true (op : Op) :
  returns_true (handle_vote clock uuid4 json_dumps op).
Proof. unfold handle_vote. returns_true_tac. Qed.

Lemma handle_account_update_true (op : Op) :
  returns_true (handle_account_update clock uuid4 json_dumps op).
Proof. unfold handle_account_update. returns_true_tac. Qed.

Lemma handle_power_down_true (op : Op) :
  returns_true (handle_power_down clock uuid4 json_dumps op).
Proof. unfold handle_power_down. returns_true_tac. Qed.

Lemma one_truthy (m : Py bool) (w : World) (r : NotifyResult) (w' : World) :
  returns_true m -> one m w = (Ret r, w') -> truthy r = true.
Proof.
  intros Hm. unfold one, bind, ret.
  destruct (m w) as [[b|e] w1] eqn:Hrun; [|discriminate].
  intros [= <- _]. simpl. exact (Hm w b w1 Hrun).
Qed.

Lemma both_truthy (a b : Py bool) (w : World) (r : NotifyResult) (w' : World) :
  both a b w = (Ret r, w') -> truthy r = true.
Proof.
  unfold both, bind, gather, ret.
  destruct (a w) as [ra w1]. destruct (b w1) as [rb w2].
  destruct ra, rb; try discriminate.
  intros [= <- _]. reflexivity.
Qed.

Lemma notify_truthy (op : Op) (w : World) (r : NotifyResult) (w' : World) :
  notify clock uuid4 json_loads json_dumps post_is_comment op w = (Ret r, w') ->
  truthy r = true.
Proof.
  unfold notify.
  destruct (String.eqb (op_name op) "vote");
    [apply one_truthy, handle_vote_true|].
  destruct (String.eqb (op_name op) "custom_json").
  { unfold bind at 1, lift.
    destruct (py_getitem_key (op_data op) "id") as [id|e]; [|discriminate].
    destruct (json_eqb id (JStr "follow")); [apply both_truthy|].
    intros [= <- _]. reflexivity. }
  destruct (String.eqb (op_name op) "account_update");
    [apply one_truthy, handle_account_update_true|].
  destruct (String.eqb (op_name op) "transfer"); [apply both_truthy|].
  destruct (String.eqb (op_name op) "withdraw_vesting");
    [apply one_truthy, handle_power_down_true|].
  destruct (String.eqb (op_name op) "comment"); [apply both_truthy|].
  intros [= <- _]. reflexivity.
Qed.

(** X17.  [notify] never answers with a false value: the handlers that
    answer alone answer [True], and the others come gathered in a list,
    which is true whatever it holds (the [False] of a rejected follow
    included).  So [run_queue] never hands an operation back for another
    attempt: it raises, or it returns [None] with the queue empty. *)
Theorem nothing_is_requeued (q : list Op) (w : World) :
  (forall op w0 r w1,
     notify clock uuid4 json_loads json_dumps post_is_comment op w0 = (Ret r, w1) ->
     truthy r = true)
  /\ forall r q' w',
       run_queue clock uuid4 json_loads json_dumps post_is_comment q w
       = (Ret r, q', w') ->
       r = None /\ q' = [].
Proof.
  split; [intros op w0 r w1; apply notify_truthy|].
  revert w. induction q as [|op q IH]; intros w r q' w'; simpl.
  - intros [= <- <- _]. split; reflexivity.
  - destruct (notify clock uuid4 json_loads json_dumps post_is_comment op w)
      as [[resp|e] w1] eqn:Hrun; [|discriminate].
    rewrite (notify_truthy op w resp w1 Hrun). simpl. apply IH.
Qed.

End HandlerInvariants.

(** ** Block processor *)

Lemma not_rewound_refl (r : ChainStatus) : not_rewound r r.
Proof.
  unfold not_rewound. repeat split.
  destruct (last_processed_block r) as [b|]; [|reflexivity].
  exists b. split; [reflexivity|lia].
Qed.

Lemma not_rewound_trans (r1 r2 r3 : ChainStatus) :
  not_rewound r1 r2 -> not_rewound r2 r3 -> not_rewound r1 r3.
Proof.
  unfold not_rewound. intros (Hs1 & Ha1 & Hb1) (Hs2 & Ha2 & Hb2).
  split; [congruence|]. split; [congruence|].
  destruct (last_processed_block r1) as [b1|].
  - destruct Hb1 as (b2 & Hb2' & Hle1). rewrite Hb2' in Hb2.
    destruct Hb2 as (b3 & Hb3 & Hle2). exists b3. split; [exact Hb3|lia].
  - rewrite Hb1 in Hb2. exact Hb2.
Qed.

Lemma Forall2_not_rewound_refl (rows : list ChainStatus) :
  Forall2 not_rewound rows rows.
Proof. induction rows; constructor; [apply not_rewound_refl|assumption]. Qed.

Lemma Forall2_not_rewound_trans (l1 l2 l3 : list ChainStatus) :
  Forall2 not_rewound l1 l2 -> Forall2 not_rewound l2 l3 ->
  Forall2 not_rewound l1 l3.
Proof.
  intros H12. revert l3. induction H12 as [|r1 r2 l1 l2 Hr _ IH]; intros l3 H23.
  - inversion H23. constructor.
  - inversion H23 as [|r2' r3 l2' l3' Hr' Hl' E1 E2]; subst.
    constructor; [eapply not_rewound_trans; eassumption|apply IH; assumption].
Qed.

Lemma update_status_row_not_rewound (now : datetime) (follower_id : string)
    (new_block lock_timeout : Z) (r : ChainStatus) :
  not_rewound r (update_status_row now follower_id new_block lock_timeout r).
Proof.
  unfold update_status_row.
  destruct (update_status_where follower_id new_block r) eqn:Hw;
    [|apply not_rewound_refl].
  apply update_status_where_iff in Hw as (_ & b & Hb & Hle).
  unfold not_rewound. simpl. repeat split.
  rewrite Hb. exists new_block. split; [reflexivity|exact Hle].
Qed.

Lemma follower_progress_refl (w : World) : follower_progress w w.
Proof.
  unfold follower_progress.
  split; [exists []; rewrite app_nil_r; reflexivity|].
  do 4 (split; [reflexivity|]). apply Forall2_not_rewound_refl.
Qed.

Lemma follower_progress_trans (w1 w2 w3 : World) :
  follower_progress w1 w2 -> follower_progress w2 w3 -> follower_progress w1 w3.
Proof.
  intros ((n1 & Hn1) & Ha1 & Hu1 & He1 & Hs1 & Hc1)
         ((n2 & Hn2) & Ha2 & Hu2 & He2 & Hs2 & Hc2).
  unfold follower_progress.
  split; [exists (n1 ++ n2); rewrite Hn2, Hn1, app_assoc; reflexivity|].
  do 4 (split; [congruence|]).
  eapply Forall2_not_rewound_trans; eassumption.
Qed.

Lemma only_adds_progress (w w' : World) :
  only_adds_notifications w w' -> follower_progress w w'.
Proof.
  intros (Hn & Ha & Hu & Hc & He & Hs & _). unfold follower_progress.
  split; [exact Hn|]. do 4 (split; [assumption|]).
  rewrite Hc. apply Forall2_not_rewound_refl.
Qed.

Lemma try_update_status_progress (w : World) (now : datetime)
    (follower_id : string) (block_num lock_timeout : Z) (ticks : nat) :
  follower_progress w
    (mkWorld (snd (try_update_status (w_db w) now follower_id block_num lock_timeout))
       ticks (w_uuids w) (w_sends w)).
Proof.
  unfold follower_progress, try_update_status. simpl.
  destruct (engine_ok (w_db w)) eqn:Hok; simpl.
  - split; [exists []; rewrite app_nil_r; reflexivity|].
    do 2 (split; [reflexivity|]). split; [exact Hok|]. split; [reflexivity|].
    apply Forall2_map_related. intros r. apply update_status_row_not_rewound.
  - split; [exists []; rewrite app_nil_r; reflexivity|].
    do 2 (split; [reflexivity|]). split; [exact Hok|].
    split; [reflexivity|]. apply Forall2_not_rewound_refl.
Qed.

Section BlockProcessorProperties.

Variable clock : nat -> datetime.
Variable uuid4 : nat -> string.
Variable json_loads : string -> option json.
Variable json_dumps : json -> string.
Variable post_is_comment : string -> outcome bool.
Variable get_ops_in_block : Z -> outcome (list Op).
Variable get_current_block_num : outcome Z.
Variable follower_id : string.
Variable config_start_block : string.
Variable py_int : string -> option Z.

Lemma run_queue_only_adds (q : list Op) (w : World) :
  only_adds_notifications w
    (snd (run_queue clock uuid4 json_loads json_dumps post_is_comment q w)).
Proof.
  revert w. induction q as [|op q IH]; intros w; simpl; [apply only_adds_refl|].
  pose proof (adds_only_notify clock uuid4 json_loads json_dumps post_is_comment
                op w) as Hop.
  destruct (notify clock uuid4 json_loads json_dumps post_is_comment op w)
    as [[resp|e] w1]; simpl in Hop; [|exact Hop].
  destruct (negb (truthy resp)); [exact Hop|].
  eapply only_adds_trans; [exact Hop|apply IH].
Qed.

Lemma process_ops_only_adds (ops q : list Op) (w : World) :
  only_adds_notifications w
    (snd (process_ops clock uuid4 json_loads json_dumps post_is_comment ops q w)).
Proof.
  revert q w. induction ops as [|op ops IH]; intros q w; simpl;
    [apply only_adds_refl|].
  pose proof (run_queue_only_adds (q ++ [op]) w) as Hq.
  destruct (run_queue clock uuid4 json_loads json_dumps post_is_comment
              (q ++ [op]) w) as [[[r|e] q1] w1]; simpl in Hq; [|exact Hq].
  eapply only_adds_trans; [exact Hq|apply IH].
Qed.

Lemma process_block_progress (max_blocks block_interval : Z) (st : ActiveState)
    (block_num : Z) :
  follower_progress (as_world st)
    (as_world (process_block clock uuid4 json_loads json_dumps post_is_comment
                 get_ops_in_block follower_id max_blocks block_interval st
                 block_num)).
Proof.
  unfold process_block.
  destruct (get_ops_in_block block_num) as [ops|e]; [|apply follower_progress_refl].
  pose proof (process_ops_only_adds ops (as_queue st) (as_world st)) as Hops.
  destruct (process_ops clock uuid4 json_loads json_dumps post_is_comment ops
              (as_queue st) (as_world st)) as [[[u|e] q] w1]; simpl in Hops.
  - cbn [as_world]. eapply follower_progress_trans;
      [apply only_adds_progress; exact Hops|apply try_update_status_progress].
  - cbn [as_world]. apply only_adds_progress. exact Hops.
Qed.

(** X18.  Given a start block, [run_active] raises nothing, whatever the
    node answers and whatever the operations hold, and it leaves the
    database with at most more notifications and with chain status rows
    whose holder is unchanged and whose block number did not go back;
    Actions, user settings and transports are untouched. *)
Theorem run_active_only_advances (start_block max_blocks block_interval : Z)
    (w : World) :
  let result := run_active clock uuid4 json_loads json_dumps post_is_comment
                  get_ops_in_block get_current_block_num follower_id
                  config_start_block py_int (Some start_block) max_blocks
                  block_interval w in
  fst result = None /\ follower_progress w (snd result).
Proof.
  unfold run_active. cbn [fst snd]. split; [reflexivity|].
  generalize (block_range start_block max_blocks) as blocks.
  intros blocks.
  change w with (as_world (mkActiveState w [] 0)) at 1.
  generalize (mkActiveState w [] 0) as st.
  induction blocks as [|b blocks IH]; intros st; simpl.
  - apply follower_progress_refl.
  - eapply follower_progress_trans; [apply process_block_progress|apply IH].
Qed.

(** X19.  [get_start_block] with a negative setting [-k] answers the head
    block plus [k], a block the chain has not produced yet; a blank
    setting gives [None], a setting that is no integer raises
    ValueError, and a non-negative one is returned as it is. *)
Theorem negative_start_block_is_ahead :
  (config_start_block = "" ->
   get_start_block get_current_block_num config_start_block py_int = inr None)
  /\ (config_start_block <> "" -> py_int config_start_block = None ->
      get_start_block get_current_block_num config_start_block py_int
      = inl StartValueError)
  /\ (forall n, config_start_block <> "" -> py_int config_start_block = Some n ->
      0 <= n ->
      get_start_block get_current_block_num config_start_block py_int
      = inr (Some n))
  /\ (forall k head, config_start_block <> "" ->
      py_int config_start_block = Some (- k) -> 0 < k ->
      get_current_block_num = Ret head ->
      get_start_block get_current_block_num config_start_block py_int
      = inr (Some (head + k))
      /\ head < head + k).
Proof.
  unfold get_start_block. split; [|split; [|split]].
  - intros ->. reflexivity.
  - intros Hne Hint.
    destruct (String.eqb_spec config_start_block ""); [contradiction|].
    rewrite Hint. reflexivity.
  - intros n Hne Hint Hn.
    destruct (String.eqb_spec config_start_block ""); [contradiction|].
    rewrite Hint. destruct (Z.ltb_spec n 0); [lia|reflexivity].
  - intros k head Hne Hint Hk Hhead.
    destruct (String.eqb_spec config_start_block ""); [contradiction|].
    rewrite Hint, Hhead. destruct (Z.ltb_spec (- k) 0); [|lia].
    split; [|lia]. do 2 f_equal. lia.
Qed.

Lemma process_block_keeps_lease (max_blocks block_interval last : Z)
    (st : ActiveState) (block_num : Z) :
  block_num <= last ->
  holds_lease_upto follower_id last (as_world st) ->
  holds_lease_upto follower_id last
    (as_world (process_block clock uuid4 json_loads json_dumps post_is_comment
                 get_ops_in_block follower_id max_blocks block_interval st
                 block_num)).
Proof.
  intros Hblock Hlease. unfold process_block.
  destruct (get_ops_in_block block_num) as [ops|e]; [|exact Hlease].
  pose proof (process_ops_only_adds ops (as_queue st) (as_world st))
    as (_ & _ & _ & Hc & He & _ & _).
  destruct Hlease as (Hok & r & b & Hrows & Hholder & Hb & Hle).
  destruct (process_ops clock uuid4 json_loads json_dumps post_is_comment ops
              (as_queue st) (as_world st)) as [[[u|e] q] w1];
    simpl in Hc, He; cbn [as_world].
  - assert (engine_ok (w_db w1) = true) as Hok1 by congruence.
    assert (chain_status (w_db w1) = [r]) as Hrows1 by congruence.
    unfold holds_lease_upto, try_update_status. simpl.
    rewrite Hok1, Hrows1. simpl. split; [exact Hok1|].
    unfold update_status_row.
    destruct (update_status_where follower_id block_num r).
    + eexists _, block_num. simpl. repeat split; [exact Hholder|exact Hblock].
    + exists r, b. repeat split; assumption.
  - unfold holds_lease_upto. rewrite He, Hc. split; [exact Hok|].
    exists r, b. repeat split; assumption.
Qed.

(** X20.  A block that failed is not tried again: when the follower holds
    the lease and the last block of its window can be read and is empty,
    [run_active] ends with the cursor on that last block, even if the
    node or a handler raised on every block before it. *)
Theorem failed_blocks_are_skipped (start_block max_blocks block_interval : Z)
    (w : World) :
  0 < max_blocks ->
  holds_lease_upto follower_id (start_block + max_blocks - 1) w ->
  get_ops_in_block (start_block + max_blocks - 1) = Ret [] ->
  let w' := snd (run_active clock uuid4 json_loads json_dumps post_is_comment
                   get_ops_in_block get_current_block_num follower_id
                   config_start_block py_int (Some start_block) max_blocks
                   block_interval w) in
  exists r',
    chain_status (w_db w') = [r']
    /\ active_follower_id r' = follower_id
    /\ last_processed_block r' = Some (start_block + max_blocks - 1).
Proof.
  intros Hmax Hlease Hlast. unfold run_active. cbn [snd].
  set (last := start_block + max_blocks - 1) in *.
  assert (exists earlier,
             block_range start_block max_blocks = earlier ++ [last]
             /\ Forall (fun b => b <= last) earlier) as (earlier & -> & Hearlier).
  { unfold block_range.
    destruct (Z.to_nat max_blocks) as [|k] eqn:Hk; [lia|].
    rewrite seq_S, map_app. simpl.
    exists (map (fun i => start_block + Z.of_nat i) (seq 0 k)). split.
    - do 2 f_equal. unfold last. lia.
    - apply Forall_forall. intros b Hb.
      apply list_elem_of_In, in_map_iff in Hb as (i & <- & Hi).
      apply in_seq in Hi. unfold last. lia. }
  rewrite fold_left_app. cbn [fold_left].
  assert (holds_lease_upto follower_id last
            (as_world (fold_left
               (process_block clock uuid4 json_loads json_dumps post_is_comment
                  get_ops_in_block follower_id max_blocks block_interval)
               earlier (mkActiveState w [] 0)))) as Hbefore.
  { change w with (as_world (mkActiveState w [] 0)) in Hlease.
    revert Hlease. generalize (mkActiveState w [] 0) as st.
    induction Hearlier as [|b earlier Hb _ IH]; intros st Hst; simpl;
      [exact Hst|].
    apply IH, process_block_keeps_lease; assumption. }
  set (st := fold_left _ earlier _) in *.
  destruct Hbefore as (Hok & r & b & Hrows & Hholder & Hb & Hle).
  unfold process_block. rewrite Hlast. cbn [process_ops as_world].
  unfold try_update_status. rewrite Hok, Hrows. simpl.
  unfold update_status_row.
  assert (update_status_where follower_id last r = true) as ->.
  { apply update_status_where_iff. split; [exact Hholder|].
    exists b. split; assumption. }
  eexists. split; [reflexivity|]. simpl. split; [exact Hholder|reflexivity].
Qed.

End BlockProcessorProperties.

Lemma failed_blocks_are_skipped_witness :
  let w' := snd (run_active example_clock example_uuid4 example_json_loads
                   example_json_dumps example_is_comment flaky_node (Ret 50)
                   "follower-a" "" (fun _ => None) (Some 43) 2 3 leader_world) in
  exists r',
    chain_status (w_db w') = [r']
    /\ active_follower_id r' = "follower-a"
    /\ last_processed_block r' = Some (43 + 2 - 1).
Proof.
  apply (failed_blocks_are_skipped example_clock example_uuid4 example_json_loads
           example_json_dumps example_is_comment flaky_node (Ret 50) "follower-a"
           "" (fun _ => None) 43 2 3 leader_world).
  - lia.
  - split; [reflexivity|]. eexists _, 42. repeat split. lia.
  - reflexivity.
Defined.

(** ** Event classifier: what gets stored *)

Lemma create_notification_inserts (db : YoDatabase) (now : datetime)
    (uuid : string) (o : NotificationObject) (row : Notification) :
  engine_ok db = true ->
  no_nid o = None ->
  bind_notification uuid now o = inr row ->
  fresh_nid db uuid ->
  existsb (notification_idx_conflict row) (notifications db) = false ->
  create_notification db now uuid o
  = (true, with_notifications db (notifications db ++ [row])).
Proof.
  intros Hok Hnid Hbind Hfresh Hidx.
  assert (n_nid row = uuid) as Hrow.
  { unfold bind_notification in Hbind.
    destruct (nullable_text (no_trx_id o)), (nullable_text (no_from_username o)),
      (no_to_username o); try discriminate Hbind; injection Hbind as <-;
      reflexivity. }
  unfold create_notification. rewrite Hok, Hnid. simpl. rewrite Hbind.
  unfold insert_notification. rewrite Hok, Hrow. simpl.
  assert (existsb (fun r => String.eqb (n_nid r) uuid) (notifications db) = false)
    as ->.
  { destruct (existsb (fun r => String.eqb (n_nid r) uuid) (notifications db))
      eqn:Hpk; [|reflexivity].
    exfalso. apply Hfresh.
    apply existsb_exists in Hpk as (r & Hr & Heq). apply String.eqb_eq in Heq.
    apply in_map_iff. exists r. split; assumption. }
  rewrite Hidx. reflexivity.
Qed.

Lemma no_conflict_without_from (row : Notification) (rows : list Notification) :
  n_from_username row = None ->
  existsb (notification_idx_conflict row) rows = false.
Proof.
  intros Hfrom. induction rows as [|r rows IH]; [reflexivity|].
  simpl. rewrite IH. unfold notification_idx_conflict. rewrite Hfrom. simpl.
  rewrite !andb_false_r. reflexivity.
Qed.

Lemma conflict_has_key (db : YoDatabase) (row : Notification)
    (to_username trx_id from_username : string) :
  n_to_username row = to_username ->
  n_trx_id row = Some trx_id ->
  n_from_username row = Some from_username ->
  existsb (notification_idx_conflict row) (notifications db) = true
  <-> has_key db to_username (n_notify_type row) trx_id from_username.
Proof.
  intros Hto Htrx Hfrom. split.
  - intros Hex. apply existsb_exists in Hex as (r & Hr & Hc).
    destruct (notification_idx_conflict_key row r to_username trx_id from_username
                Hc Hto Htrx Hfrom) as (H1 & H2 & H3 & H4).
    exists r. repeat split; assumption.
  - intros Hkey. eapply existsb_conflict; [exact Hkey| | | |];
      first [assumption | reflexivity].
Qed.

Section Classification.

Variable clock : nat -> datetime.
Variable uuid4 : nat -> string.
Variable json_loads : string -> option json.
Variable json_dumps : json -> string.
Variable post_is_comment : string -> outcome bool.

Lemma store_notification_effect (c : Candidate) (w : World) :
  store_notification clock uuid4 c w
  = (Ret tt,
     mkWorld (snd (create_notification (w_db w) (clock (w_ticks w))
                     (uuid4 (w_uuids w)) (candidate_object c)))
       (S (w_ticks w)) (S (w_uuids w)) (w_sends w)).
Proof.
  unfold store_notification, bind, draw_uuid, now, with_db. simpl.
  destruct (create_notification _ _ _ _). reflexivity.
Qed.

(** X21.  A vote becomes one LOW notification of type vote for the
    author, from the voter; nothing is addressed to the voter.
    Processing the same vote again answers [True] again and stores
    nothing more. *)
Theorem vote_notifies_author_once (op : Op) (author voter : string)
    (permlink weight : json) (w : World) :
  op_name op = "vote" ->
  py_getitem_key (op_data op) "permlink" = Ret permlink ->
  py_getitem_key (op_data op) "author" = Ret (JStr author) ->
  py_getitem_key (op_data op) "voter" = Ret (JStr voter) ->
  py_getitem_key (op_data op) "weight" = Ret weight ->
  fresh_nid (w_db w) (uuid4 (w_uuids w)) ->
  let first := notify clock uuid4 json_loads json_dumps post_is_comment op w in
  let second := notify clock uuid4 json_loads json_dumps post_is_comment op
                  (snd first) in
  fst first = Ret (One true)
  /\ (notifications (w_db (snd first)) = notifications (w_db w)
      \/ notifications (w_db (snd first))
         = notifications (w_db w)
           ++ [candidate_row clock uuid4 w "vote" author (Some voter)
                 (json_dumps (op_data op)) (op_trx_id op)])
  /\ (engine_ok (w_db w) = true ->
      has_key (w_db (snd first)) author "vote" (op_trx_id op) voter)
  /\ fst second = Ret (One true)
  /\ w_db (snd second) = w_db (snd first).
Proof.
  intros Hname Hpermlink Hauthor Hvoter Hweight Hfresh first second.
  set (c := mkCandidate (op_trx_id op) (Some (JStr voter)) (JStr author)
              (json_dumps (op_data op)) VOTE Priority.LOW).
  assert (forall w0,
            notify clock uuid4 json_loads json_dumps post_is_comment op w0
            = (Ret (One true),
               mkWorld (snd (create_notification (w_db w0) (clock (w_ticks w0))
                               (uuid4 (w_uuids w0)) (candidate_object c)))
                 (S (w_ticks w0)) (S (w_uuids w0)) (w_sends w0))) as Hrun.
  { intros w0. unfold notify. rewrite Hname. simpl.
    unfold one, handle_vote, bind, lift.
    rewrite Hpermlink, Hauthor, Hvoter, Hweight.
    fold c. rewrite store_notification_effect. reflexivity. }
  unfold second, first. rewrite !Hrun. cbn [fst snd w_db w_ticks w_uuids].
  assert (engine_ok (w_db w) = true ->
          has_key (snd (create_notification (w_db w) (clock (w_ticks w))
                          (uuid4 (w_uuids w)) (candidate_object c)))
            author "vote" (op_trx_id op) voter) as Hkey.
  { intros Hok.
    apply (create_notification_stores_key (w_db w) _ _ (candidate_object c)
             author (op_trx_id op) voter); try reflexivity; assumption. }
  split; [reflexivity|]. split; [|split; [exact Hkey|split; [reflexivity|]]].
  - destruct (create_notification_cases (w_db w) (clock (w_ticks w))
                (uuid4 (w_uuids w)) (candidate_object c))
      as [-> | (row & Hbind & -> & _)]; [left; reflexivity|].
    right. simpl in Hbind. injection Hbind as <-. reflexivity.
  - destruct (engine_ok (w_db w)) eqn:Hok.
    + apply (create_notification_key_stored _ _ _ (candidate_object c)
               author (op_trx_id op) voter); try reflexivity.
      apply Hkey. reflexivity.
    + unfold create_notification at 1.
      rewrite create_notification_engine_ok, Hok. reflexivity.
Qed.

(** X22.  A transfer gives two notifications: a "send" addressed to the
    sender, without [from_username], and a "receive" addressed to the
    recipient, from the sender.  The "send" row is added every time the
    transfer is processed, since a row without [from_username] never
    meets the unique index; the "receive" row is added unless its key is
    stored already. *)
Theorem transfer_notifies_both_sides (op : Op) (amount memo : json)
    (sender recipient : string) (w : World) :
  op_name op = "transfer" ->
  py_getitem_key (op_data op) "amount" = Ret amount ->
  py_getitem_key (op_data op) "from" = Ret (JStr sender) ->
  py_getitem_key (op_data op) "memo" = Ret memo ->
  py_getitem_key (op_data op) "to" = Ret (JStr recipient) ->
  engine_ok (w_db w) = true ->
  fresh_nid (w_db w) (uuid4 (w_uuids w)) ->
  fresh_nid (w_db w) (uuid4 (S (w_uuids w))) ->
  uuid4 (S (w_uuids w)) <> uuid4 (w_uuids w) ->
  let result := notify clock uuid4 json_loads json_dumps post_is_comment op w in
  let text := json_dumps (transfer_dict amount (JStr sender) memo (JStr recipient)) in
  let send_row := candidate_row clock uuid4 w "send" sender None text
                    (op_trx_id op) in
  let receive_row :=
    candidate_row clock uuid4
      (mkWorld (w_db w) (S (w_ticks w)) (S (w_uuids w)) (w_sends w))
      "receive" recipient (Some sender) text (op_trx_id op) in
  fst result = Ret (Gathered [true; true])
  /\ (has_key (w_db w) recipient "receive" (op_trx_id op) sender ->
      notifications (w_db (snd result)) = notifications (w_db w) ++ [send_row])
  /\ (~ has_key (w_db w) recipient "receive" (op_trx_id op) sender ->
      notifications (w_db (snd result))
      = notifications (w_db w) ++ [send_row; receive_row]).
Proof.
  intros Hname Hamount Hfrom Hmemo Hto Hok Hfresh1 Hfresh2 Hdistinct
         result text send_row receive_row.
  set (db1 := with_notifications (w_db w) (notifications (w_db w) ++ [send_row])).
  set (w1 := mkWorld db1 (S (w_ticks w)) (S (w_uuids w)) (w_sends w)).
  assert (handle_send clock uuid4 json_dumps op w = (Ret true, w1)) as Hsend.
  { unfold handle_send, transfer_data, bind, lift.
    rewrite Hamount, Hfrom, Hmemo, Hto. simpl.
    rewrite store_notification_effect.
    rewrite (create_notification_inserts _ _ _ _ send_row); try reflexivity;
      try assumption.
    apply no_conflict_without_from. reflexivity. }
  assert (handle_receive clock uuid4 json_dumps op w1
            = (Ret true,
               mkWorld (snd (create_notification db1 (clock (S (w_ticks w)))
                               (uuid4 (S (w_uuids w)))
                               (candidate_object
                                  (mkCandidate (op_trx_id op) (Some (JStr sender))
                                     (JStr recipient) text RECEIVE_STEEM
                                     Priority.LOW))))
                 (S (S (w_ticks w))) (S (S (w_uuids w))) (w_sends w))) as Hreceive.
  { unfold handle_receive, transfer_data, bind, lift.
    rewrite Hamount, Hfrom, Hmemo, Hto. simpl.
    rewrite store_notification_effect. reflexivity. }
  assert (result
          = (Ret (Gathered [true; true]),
             mkWorld (snd (create_notification db1 (clock (S (w_ticks w)))
                             (uuid4 (S (w_uuids w)))
                             (candidate_object
                                (mkCandidate (op_trx_id op) (Some (JStr sender))
                                   (JStr recipient) text RECEIVE_STEEM
                                   Priority.LOW))))
               (S (S (w_ticks w))) (S (S (w_uuids w))) (w_sends w))) as ->.
  { unfold result, notify. rewrite Hname. simpl.
    unfold both, bind, gather. rewrite Hsend, Hreceive. reflexivity. }
  cbn [fst snd w_db].
  assert (existsb (notification_idx_conflict receive_row) (notifications db1)
          = existsb (notification_idx_conflict receive_row) (notifications (w_db w)))
    as Hsame.
  { unfold db1. simpl. rewrite existsb_app. simpl.
    rewrite orb_false_r. unfold notification_idx_conflict at 2. simpl.
    rewrite !andb_false_r, orb_false_r. reflexivity. }
  split; [reflexivity|]. split.
  - intros Hkey.
    rewrite (create_notification_key_stored db1 _ _ _ recipient (op_trx_id op) sender);
      try reflexivity.
    destruct Hkey as (r & Hr & Hkey). exists r. split; [|exact Hkey].
    unfold db1. simpl. apply in_app_iff. left. exact Hr.
  - intros Hnokey.
    rewrite (create_notification_inserts db1 _ _ _ receive_row); try reflexivity.
    + unfold db1. simpl. rewrite <- app_assoc. reflexivity.
    + exact Hok.
    + unfold fresh_nid, db1. simpl. rewrite map_app, in_app_iff. simpl.
      intros [Hin | [Heq | []]]; [exact (Hfresh2 Hin)|].
      apply Hdistinct. symmetry. exact Heq.
    + rewrite Hsame.
      destruct (existsb _ (notifications (w_db w))) eqn:Hex; [|reflexivity].
      exfalso. apply Hnokey.
      apply (conflict_has_key (w_db w) receive_row recipient (op_trx_id op) sender)
        in Hex; try reflexivity. exact Hex.
Qed.

(** X23.  [handle_comment] on a top-level post (empty parent author)
    answers [True] without asking the node and without storing; on a
    reply it asks whether the parent is a comment, and when that request
    raises the exception leaves the handler with nothing stored;
    otherwise the notification for the parent's author is of type
    comment_reply when the parent is a comment and post_reply when it is
    a post. *)
Theorem reply_kind_follows_parent (op : Op) (parent_author parent_permlink : string)
    (author : json) (w : World) :
  py_getitem_key (op_data op) "parent_author" = Ret (JStr parent_author) ->
  py_getitem_key (op_data op) "parent_permlink" = Ret (JStr parent_permlink) ->
  py_getitem_key (op_data op) "author" = Ret author ->
  let parent_id := ("@" ++ parent_author ++ "/" ++ parent_permlink)%string in
  let stored kind :=
    store_notification clock uuid4
      (mkCandidate (op_trx_id op) (Some author) (JStr parent_author)
         (json_dumps (op_data op)) kind Priority.LOW) w in
  (parent_author = "" ->
   handle_comment clock uuid4 json_dumps post_is_comment op w = (Ret true, w))
  /\ (parent_author <> "" ->
      match post_is_comment parent_id with
      | Raise e =>
          handle_comment clock uuid4 json_dumps post_is_comment op w = (Raise e, w)
      | Ret is_comment =>
          handle_comment clock uuid4 json_dumps post_is_comment op w
          = (Ret true,
             snd (stored (if is_comment then "comment_reply" else "post_reply")))
      end).
Proof.
  intros Hparent Hpermlink Hauthor parent_id stored. split.
  - intros ->. unfold handle_comment, bind, lift. rewrite Hparent. reflexivity.
  - intros Hne.
    assert (json_eqb (JStr parent_author) (JStr "") = false) as Hreply.
    { simpl. destruct (String.eqb_spec parent_author ""); [contradiction|reflexivity]. }
    unfold handle_comment, bind, lift, ret. rewrite Hparent. cbv beta iota.
    rewrite Hreply, Hpermlink. cbv beta iota. fold parent_id.
    destruct (post_is_comment parent_id) as [is_comment|e]; [|reflexivity].
    rewrite Hauthor. unfold stored.
    rewrite !store_notification_effect. destruct is_comment; reflexivity.
Qed.

End Classification.

Lemma vote_notifies_author_once_witness :
  let first := notify example_clock example_uuid4 example_json_loads
                 example_json_dumps example_is_comment vote_op empty_world in
  let second := notify example_clock example_uuid4 example_json_loads
                  example_json_dumps example_is_comment vote_op (snd first) in
  fst first = Ret (One true)
  /\ (notifications (w_db (snd first)) = notifications (w_db empty_world)
      \/ notifications (w_db (snd first))
         = notifications (w_db empty_world)
           ++ [candidate_row example_clock example_uuid4 empty_world "vote" "bob"
                 (Some "alice") (example_json_dumps (op_data vote_op))
                 (op_trx_id vote_op)])
  /\ (engine_ok (w_db empty_world) = true ->
      has_key (w_db (snd first)) "bob" "vote" (op_trx_id vote_op) "alice")
  /\ fst second = Ret (One true)
  /\ w_db (snd second) = w_db (snd first).
Proof.
  apply (vote_notifies_author_once example_clock example_uuid4 example_json_loads
           example_json_dumps example_is_comment vote_op "bob" "alice"
           (JStr "p") (JNum 10000) empty_world); try reflexivity.
  intros [].
Defined.

Lemma transfer_notifies_both_sides_witness :
  let result := notify example_clock example_uuid4 example_json_loads
                  example_json_dumps example_is_comment transfer_op empty_world in
  let text := example_json_dumps
                (transfer_dict (JStr "1.000 STEEM") (JStr "alice") (JStr "thanks")
                   (JStr "bob")) in
  let send_row := candidate_row example_clock example_uuid4 empty_world "send"
                    "alice" None text (op_trx_id transfer_op) in
  let receive_row :=
    candidate_row example_clock example_uuid4
      (mkWorld (w_db empty_world) (S (w_ticks empty_world))
         (S (w_uuids empty_world)) (w_sends empty_world))
      "receive" "bob" (Some "alice") text (op_trx_id transfer_op) in
  fst result = Ret (Gathered [true; true])
  /\ (has_key (w_db empty_world) "bob" "receive" (op_trx_id transfer_op) "alice" ->
      notifications (w_db (snd result))
      = notifications (w_db empty_world) ++ [send_row])
  /\ (~ has_key (w_db empty_world) "bob" "receive" (op_trx_id transfer_op) "alice" ->
      notifications (w_db (snd result))
      = notifications (w_db empty_world) ++ [send_row; receive_row]).
Proof.
  apply (transfer_notifies_both_sides example_clock example_uuid4
           example_json_loads example_json_dumps example_is_comment transfer_op
           (JStr "1.000 STEEM") (JStr "thanks") "alice" "bob" empty_world);
    try reflexivity.
  - intros [].
  - intros [].
  - vm_compute. discriminate.
Defined.

Lemma reply_kind_follows_parent_witness :
  let parent_id := ("@" ++ "bob" ++ "/" ++ "cats")%string in
  let stored kind :=
    store_notification example_clock example_uuid4
      (mkCandidate (op_trx_id (reply_op "bob")) (Some (JStr "alice")) (JStr "bob")
         (example_json_dumps (op_data (reply_op "bob"))) kind Priority.LOW)
      empty_world in
  ("bob" = "" ->
   handle_comment example_clock example_uuid4 example_json_dumps
     example_is_comment (reply_op "bob") empty_world = (Ret true, empty_world))
  /\ ("bob" <> "" ->
      match example_is_comment parent_id with
      | Raise e =>
          handle_comment example_clock example_uuid4 example_json_dumps
            example_is_comment (reply_op "bob") empty_world = (Raise e, empty_world)
      | Ret is_comment =>
          handle_comment example_clock example_uuid4 example_json_dumps
            example_is_comment (reply_op "bob") empty_world
          = (Ret true,
             snd (stored (if is_comment then "comment_reply" else "post_reply")))
      end).
Proof.
  apply (reply_kind_follows_parent example_clock example_uuid4 example_json_dumps
           example_is_comment (reply_op "bob") "bob" "cats" (JStr "alice")
           empty_world); reflexivity.
Defined.

(** ** The mention pattern: how many, and which names *)

Lemma string_length_app (a b : string) :
  String.length (a ++ b)%string = (String.length a + String.length b)%nat.
Proof. induction a as [|c a IH]; simpl; [reflexivity|]. rewrite IH. reflexivity. Qed.

Lemma all_chars_length_username (w : string) :
  is_username w -> (3 <= String.length w <= 16)%nat.
Proof. intros (c & rest & -> & _ & _ & Hlen). simpl. lia. Qed.

Lemma match_here_length (s name : string) (len : nat) :
  match_here s = Some (name, len) -> (5 <= len <= String.length s)%nat.
Proof.
  intros Hm. apply match_here_sound in Hm as (c & post & -> & Hw & _ & ->).
  apply all_chars_length_username in Hw.
  change ("@" ++ name ++ String c post)%string
    with (String "@" (name ++ String c post)%string).
  simpl. rewrite string_length_app. simpl. lia.
Qed.

Lemma finditer_from_count (s : string) (skip pos : nat) :
  (5 * length (finditer_from skip pos s) <= String.length s - skip)%nat.
Proof.
  revert skip pos. induction s as [|a s IH]; intros skip pos; [simpl; lia|].
  cbn [finditer_from]. destruct skip as [|skip].
  - destruct (match_here (String a s)) as [[name len]|] eqn:Hm.
    + apply match_here_length in Hm. specialize (IH (len - 1)%nat (S pos)).
      simpl in *. lia.
    + specialize (IH 0%nat (S pos)). simpl in *. lia.
  - specialize (IH skip (S pos)). simpl. lia.
Qed.

(** X24.  The mentions of one comment are bounded only by its length: a
    match takes at least five characters (the at sign, three for the
    name, the whitespace) and matches do not overlap, so [handle_mention]
    makes at most a fifth of the body's length plus one candidates; and
    every name it finds is a username of 3 to 16 characters. *)
Theorem mentions_bounded_by_length (body : string) :
  (5 * length (findall_mentions (body ++ newline)%string)
   <= String.length body + 1)%nat
  /\ Forall valid_mention (findall_mentions (body ++ newline)%string).
Proof.
  split.
  - unfold findall_mentions. rewrite length_map.
    pose proof (finditer_from_count (body ++ newline)%string 0 0) as Hcount.
    rewrite string_length_app in Hcount. simpl in Hcount. lia.
  - apply Forall_forall. intros name Hname.
    apply list_elem_of_In in Hname. unfold findall_mentions in Hname.
    apply in_map_iff in Hname as ([i name'] & <- & Hin). simpl.
    apply finditer_from_spec in Hin; [|intros j Hj; lia].
    destruct Hin as (j & len & _ & Hm).
    apply match_here_sound in Hm as (c & post & _ & Hw & _).
    split; [exact Hw|apply all_chars_length_username; exact Hw].
Qed.

(** ** Follows and resteems that pass the signer check *)

Section SignedSocialOps.

Variable clock : nat -> datetime.
Variable uuid4 : nat -> string.
Variable json_loads : string -> option json.
Variable json_dumps : json -> string.
Variable post_is_comment : string -> outcome bool.

Lemma handle_follow_signed (op : Op) (payload : list (string * json))
    (actor target : string) (w : World) :
  social_op json_loads op "follow" payload [JStr actor] ->
  dict_get "follower" payload = Some (JStr actor) ->
  dict_get "following" payload = Some (JStr target) ->
  handle_follow clock uuid4 json_loads json_dumps op w
  = (Ret true,
     snd (store_notification clock uuid4
            (mkCandidate (op_trx_id op) (Some (JStr actor)) (JStr target)
               (json_dumps (JObj payload)) FOLLOW Priority.LOW) w)).
Proof.
  intros (_ & _ & (text & rest & Hjson & Hloads) & Hauths) Hfollower Hfollowing.
  unfold handle_follow, bind, lift, loads.
  rewrite Hjson, Hloads. simpl.
  rewrite Hfollower, Hfollowing, Hauths. simpl.
  rewrite String.eqb_refl. simpl.
  rewrite store_notification_effect. reflexivity.
Qed.

Lemma handle_resteem_signed (op : Op) (payload : list (string * json))
    (actor target : string) (w : World) :
  social_op json_loads op "reblog" payload [JStr actor] ->
  dict_get "account" payload = Some (JStr actor) ->
  dict_get "author" payload = Some (JStr target) ->
  is_Some (dict_get "permlink" payload) ->
  handle_resteem clock uuid4 json_loads json_dumps op w
  = (Ret true,
     snd (store_notification clock uuid4
            (mkCandidate (op_trx_id op) (Some (JStr actor)) (JStr target)
               (json_dumps (JObj payload)) RESTEEM Priority.LOW) w)).
Proof.
  intros (_ & _ & (text & rest & Hjson & Hloads) & Hauths) Haccount Hauthor
         [permlink Hpermlink].
  unfold handle_resteem, bind, lift, loads.
  rewrite Hjson, Hloads. simpl.
  rewrite Haccount, Hauthor, Hpermlink, Hauths. simpl.
  rewrite String.eqb_refl. simpl.
  rewrite store_notification_effect. reflexivity.
Qed.

(** X25.  A follow or resteem signed by its acting account alone becomes
    one LOW notification for the other account (the followed account, or
    the author of the post), from the acting account; the other of the
    two handlers stores nothing.  Processing the operation again stores
    nothing more. *)
Theorem signed_social_op_stored (op : Op) (tag : string)
    (payload : list (string * json)) (actor target : string) (w : World) :
  social_op json_loads op tag payload [JStr actor] ->
  social_payload tag payload actor target ->
  fresh_nid (w_db w) (uuid4 (w_uuids w)) ->
  let first := notify clock uuid4 json_loads json_dumps post_is_comment op w in
  let second := notify clock uuid4 json_loads json_dumps post_is_comment op
                  (snd first) in
  fst first = Ret (Gathered [String.eqb tag "follow"; true])
  /\ (notifications (w_db (snd first)) = notifications (w_db w)
      \/ notifications (w_db (snd first))
         = notifications (w_db w)
           ++ [candidate_row clock uuid4 w (social_type tag) target (Some actor)
                 (json_dumps (JObj payload)) (op_trx_id op)])
  /\ (engine_ok (w_db w) = true ->
      has_key (w_db (snd first)) target (social_type tag) (op_trx_id op) actor)
  /\ w_db (snd second) = w_db (snd first).
Proof.
  intros Hop Hpayload Hfresh first second.
  set (c := mkCandidate (op_trx_id op) (Some (JStr actor)) (JStr target)
              (json_dumps (JObj payload)) (social_type tag) Priority.LOW).
  assert (forall w0,
            notify clock uuid4 json_loads json_dumps post_is_comment op w0
            = (Ret (Gathered [String.eqb tag "follow"; true]),
               mkWorld (snd (create_notification (w_db w0) (clock (w_ticks w0))
                               (uuid4 (w_uuids w0)) (candidate_object c)))
                 (S (w_ticks w0)) (S (w_uuids w0)) (w_sends w0))) as Hrun.
  { intros w0. pose proof Hop as (Hname & Hid & _).
    unfold notify. rewrite Hname. simpl.
    unfold bind at 1, lift at 1. rewrite Hid. simpl.
    unfold both, bind, gather.
    destruct Hpayload as [(-> & Hactor & Htarget)
                         | (-> & Hactor & Htarget & Hpermlink)].
    - rewrite (handle_follow_signed op payload actor target w0 Hop Hactor Htarget).
      rewrite (handle_resteem_other_tag clock uuid4 json_loads json_dumps op
                 "follow" payload [JStr actor] _ Hop) by discriminate.
      rewrite store_notification_effect. reflexivity.
    - rewrite (handle_follow_other_tag clock uuid4 json_loads json_dumps op
                 "reblog" payload [JStr actor] _ Hop) by discriminate.
      rewrite (handle_resteem_signed op payload actor target w0 Hop Hactor
                 Htarget Hpermlink).
      rewrite store_notification_effect. reflexivity. }
  unfold second, first. rewrite !Hrun. cbn [fst snd w_db w_ticks w_uuids].
  assert (engine_ok (w_db w) = true ->
          has_key (snd (create_notification (w_db w) (clock (w_ticks w))
                          (uuid4 (w_uuids w)) (candidate_object c)))
            target (social_type tag) (op_trx_id op) actor) as Hkey.
  { intros Hok.
    apply (create_notification_stores_key (w_db w) _ _ (candidate_object c)
             target (op_trx_id op) actor); try reflexivity; assumption. }
  split; [reflexivity|]. split; [|split; [exact Hkey|]].
  - destruct (create_notification_cases (w_db w) (clock (w_ticks w))
                (uuid4 (w_uuids w)) (candidate_object c))
      as [-> | (row & Hbind & -> & _)]; [left; reflexivity|].
    right. simpl in Hbind. injection Hbind as <-. reflexivity.
  - destruct (engine_ok (w_db w)) eqn:Hok.
    + apply (create_notification_key_stored _ _ _ (candidate_object c)
               target (op_trx_id op) actor); try reflexivity.
      apply Hkey. reflexivity.
    + unfold create_notification at 1.
      rewrite create_notification_engine_ok, Hok. reflexivity.
Qed.

End SignedSocialOps.

Lemma signed_social_op_stored_witness :
  let first := notify example_clock example_uuid4 example_json_loads
                 example_json_dumps example_is_comment signed_follow empty_world in
  let second := notify example_clock example_uuid4 example_json_loads
                  example_json_dumps example_is_comment signed_follow
                  (snd first) in
  fst first = Ret (Gathered [String.eqb "follow" "follow"; true])
  /\ (notifications (w_db (snd first)) = notifications (w_db empty_world)
      \/ notifications (w_db (snd first))
         = notifications (w_db empty_world)
           ++ [candidate_row example_clock example_uuid4 empty_world
                 (social_type "follow") "bob" (Some "alice")
                 (example_json_dumps (JObj follow_payload))
                 (op_trx_id signed_follow)])
  /\ (engine_ok (w_db empty_world) = true ->
      has_key (w_db (snd first)) "bob" (social_type "follow")
        (op_trx_id signed_follow) "alice")
  /\ w_db (snd second) = w_db (snd first).
Proof.
  apply (signed_social_op_stored example_clock example_uuid4 example_json_loads
           example_json_dumps example_is_comment signed_follow "follow"
           follow_payload "alice" "bob" empty_world).
  - repeat split. exists follow_text, []. split; reflexivity.
  - left. repeat split.
  - intros [].
Defined.

(** ** The rate limit inside one cycle *)

Lemma get_priority_count_pos (db : YoDatabase) (now : datetime)
    (to_username : string) (priority window : Z) (a : Action) :
  engine_ok db = true ->
  In a (actions db) ->
  priority_count_where to_username priority (now - timedelta_seconds window) a
  = true ->
  0 < get_priority_count db now to_username priority window None.
Proof.
  intros Hok Hin Hwhere. unfold get_priority_count. rewrite Hok.
  assert (In a (List.filter
                  (priority_count_where to_username priority
                     (now - timedelta_seconds window)) (actions db))) as Hf
    by (apply filter_In; split; assumption).
  destruct (List.filter _ (actions db)) as [|b l]; [destruct Hf|].
  cbn [length]. destruct (Z.ltb_spec (Z.of_nat (S (length l))) 0); lia.
Qed.

Lemma sent_summary_fields (n : Notification) (l : list (string * string))
    (new : list Action) :
  map action_summary new = map (sent_summary n) l ->
  length new = length l
  /\ Forall (fun a => a_nid a = n_nid n
                      /\ a_to_username a = n_to_username n
                      /\ a_priority_level a = n_priority_level n) new.
Proof.
  revert l. induction new as [|a new IH]; intros [|t l] Hsum;
    try discriminate Hsum.
  - split; [reflexivity|constructor].
  - cbn [map] in Hsum.
    assert (action_summary a = sent_summary n t) as Hhead by congruence.
    assert (map action_summary new = map (sent_summary n) l) as Htail
      by congruence.
    destruct (IH l Htail) as [Hlen Hall].
    split; [cbn [length]; rewrite Hlen; reflexivity|].
    constructor; [|exact Hall].
    split; [|split].
    + exact (f_equal (fun s => fst (fst (fst (fst s)))) Hhead).
    + exact (f_equal (fun s => snd (fst (fst s))) Hhead).
    + exact (f_equal (fun s => snd (fst s)) Hhead).
Qed.

Section CycleRateLimit.

Variable clock : nat -> datetime.
Variable json_loads : string -> option json.
Variable configured_transports : gmap string Transport.

Lemma send_to_transport_times (username : string) (n : Notification)
    (t : string * string) (w : World) :
  engine_ok (w_db w) = true ->
  let w' := snd (send_to_transport clock json_loads configured_transports
                   username n t w) in
  (w_ticks w <= w_ticks w' <= S (w_ticks w))%nat
  /\ engine_ok (w_db w') = true
  /\ exists new,
       actions (w_db w') = actions (w_db w) ++ new
       /\ Forall (stamped_between clock (w_ticks w) (w_ticks w')) new.
Proof.
  intros Hok. cbv zeta. unfold send_to_transport, try_except.
  assert (forall v : World, w_ticks v = w_ticks w -> w_db v = w_db w ->
            (w_ticks w <= w_ticks v <= S (w_ticks w))%nat
            /\ engine_ok (w_db v) = true
            /\ exists new,
                 actions (w_db v) = actions (w_db w) ++ new
                 /\ Forall (stamped_between clock (w_ticks w) (w_ticks v)) new)
    as Hsame.
  { intros v Ht Hd. rewrite Ht, Hd. split; [lia|]. split; [exact Hok|].
    exists []. split; [rewrite app_nil_r; reflexivity|constructor]. }
  unfold mark_sent_now, send_notification, loads, now, mark_sent, with_db,
    bind, ret, throw.
  destruct (configured_transports !! fst t) as [transport|];
    [|cbn [snd]; apply Hsame; reflexivity].
  destruct (json_loads (n_json_data n)) as [data|];
    [|cbn [snd]; apply Hsame; reflexivity].
  cbv beta iota.
  destruct (transport _); [|cbn [snd]; apply Hsame; reflexivity].
  cbn [w_db w_ticks]. rewrite Hok. cbn.
  split; [lia|]. split; [exact Hok|].
  eexists. split; [reflexivity|].
  constructor; [|constructor].
  exists (w_ticks w). split; [lia|reflexivity].
Qed.

Lemma stamped_between_wider (lo lo' hi hi' : nat) (a : Action) :
  (lo' <= lo)%nat -> (hi <= hi')%nat ->
  stamped_between clock lo hi a -> stamped_between clock lo' hi' a.
Proof. intros Hlo Hhi (k & Hk & Ha). exists k. split; [lia|exact Ha]. Qed.

Lemma fan_out_times (username : string) (n : Notification)
    (ts : list (string * string)) (w : World) :
  engine_ok (w_db w) = true ->
  let w' := snd (for_each ts (send_to_transport clock json_loads
                                configured_transports username n) w) in
  (w_ticks w <= w_ticks w' <= w_ticks w + length ts)%nat
  /\ exists new,
       actions (w_db w') = actions (w_db w) ++ new
       /\ Forall (stamped_between clock (w_ticks w) (w_ticks w')) new.
Proof.
  revert w. induction ts as [|t ts IH]; intros w Hok; cbn zeta.
  - cbn. split; [lia|]. exists []. split; [rewrite app_nil_r; reflexivity|constructor].
  - cbn [for_each]. unfold bind.
    pose proof (send_to_transport_times username n t w Hok) as Hstep.
    cbn zeta in Hstep.
    destruct (send_to_transport clock json_loads configured_transports
                username n t w) as [[[]|e] w1] eqn:Hrun; cbn [snd] in *.
    + destruct Hstep as (Ht1 & Hok1 & new1 & Ha1 & Hs1).
      specialize (IH w1 Hok1). cbn zeta in IH.
      destruct IH as (Ht2 & new2 & Ha2 & Hs2).
      cbn [length]. split; [lia|].
      exists (new1 ++ new2). split.
      * rewrite Ha2, Ha1, <- app_assoc. reflexivity.
      * apply Forall_app. split.
        -- eapply Forall_impl; [exact Hs1|]. intros a.
           apply stamped_between_wider; lia.
        -- eapply Forall_impl; [exact Hs2|]. intros a.
           apply stamped_between_wider; lia.
    + destruct Hstep as (Ht1 & Hok1 & new1 & Ha1 & Hs1).
      cbn [length]. split; [lia|].
      exists new1. split; [exact Ha1|exact Hs1].
Qed.

(** X26.  The rate limit bites inside one cycle: when a LOW notification
    of a user has been delivered on at least one transport, a second LOW
    notification of the same user that comes next in the cycle is denied.
    It reaches no transport, nothing is recorded for it, and it stays
    unsent for a later cycle.  The readings of the clock in the cycle are
    taken to be less than an hour apart. *)
Theorem second_low_waits_in_cycle (username : string)
    (user_notify_types_transports : gmap string (list (string * string)))
    (n1 n2 : Notification) (ts : list (string * string)) (data : json)
    (w : World) :
  engine_ok (w_db w) = true ->
  json_loads (n_json_data n1) = Some data ->
  n_priority_level n1 = Priority.LOW ->
  n_priority_level n2 = Priority.LOW ->
  n_to_username n2 = n_to_username n1 ->
  approved clock w n1 ->
  user_notify_types_transports !! n_notify_type n1 = Some ts ->
  delivered configured_transports username n1 data ts <> [] ->
  within_hour clock (w_ticks w) (w_ticks w + length ts + 4) ->
  let w1 := snd (dispatch_notification clock json_loads configured_transports
                   username user_notify_types_transports n1 w) in
  let second := dispatch_notification clock json_loads configured_transports
                  username user_notify_types_transports n2 w1 in
  fst second = Ret tt
  /\ w_sends (snd second) = w_sends w1
  /\ w_db (snd second) = w_db w1
  /\ (In (n_nid n2) (unsent_nids (w_db w)) ->
      n_nid n2 <> n_nid n1 ->
      In (n_nid n2) (unsent_nids (w_db (snd second)))).
Proof.
  intros Hok Hloads Hlow1 Hlow2 Hto Happroved Hts Hdelivered Hclock w1 second.
  set (wa := mkWorld (w_db w) (w_ticks w + clock_reads (n_priority_level n1))%nat
               (w_uuids w) (w_sends w)).
  assert (dispatch_notification clock json_loads configured_transports
            username user_notify_types_transports n1 w
          = for_each ts (send_to_transport clock json_loads configured_transports
                           username n1) wa) as Hfirst.
  { unfold dispatch_notification, bind at 1, check_ratelimit_now.
    unfold approved in Happroved. rewrite Happroved. cbn [negb].
    unfold bind at 1. rewrite Hts. reflexivity. }
  destruct (fan_out clock json_loads configured_transports username n1 data ts wa
              Hok Hloads)
    as (w' & Hrun & (Hok1 & _ & (new & Hact & Hsum) & Hnot & _)).
  pose proof (fan_out_times username n1 ts wa Hok) as Htimes.
  cbn zeta in Htimes. rewrite Hrun in Htimes. cbn [snd] in Htimes.
  destruct Htimes as (Hticks & new' & Hact' & Hstamps).
  assert (new' = new) as ->
    by (apply (app_inv_head (actions (w_db wa))); congruence).
  assert (w1 = w') as Hw1 by (unfold w1; rewrite Hfirst, Hrun; reflexivity).
  assert (w_ticks wa = (w_ticks w + 2)%nat) as Hwa
    by (unfold wa, clock_reads; rewrite Hlow1; reflexivity).
  (* the second notification is denied *)
  assert (check_ratelimit (w_db w')
            (clock (w_ticks w' + clock_reads (n_priority_level n2) - 1)%nat)
            n2 false = false) as Hdenied.
  { unfold check_ratelimit. rewrite Hlow2. cbn -[get_priority_count].
    apply Z.eqb_neq.
    destruct (sent_summary_fields n1 _ new Hsum) as [Hlen Hfields].
    destruct new as [|a new].
    { destruct (delivered configured_transports username n1 data ts);
        [congruence|discriminate Hlen]. }
    enough (0 < get_priority_count (w_db w') (clock (w_ticks w' + 2 - 1)%nat)
                  (n_to_username n2) Priority.LOW 3600 None) by lia.
    apply (get_priority_count_pos _ _ _ _ _ a Hok1).
    - rewrite Hact. apply in_app_iff. right. left. reflexivity.
    - apply Forall_cons_iff in Hfields as [(_ & Huser & Hprio) _].
      apply Forall_cons_iff in Hstamps as [(k & Hk & Hstamp) _].
      unfold priority_count_where.
      rewrite Huser, Hto, String.eqb_refl, Hprio, Hlow1, Hstamp.
      cbn [andb]. apply andb_true_iff. split; [reflexivity|].
      apply Z.leb_le. apply Hclock; lia. }
  assert (second = (Ret tt,
                    mkWorld (w_db w')
                      (w_ticks w' + clock_reads (n_priority_level n2))%nat
                      (w_uuids w') (w_sends w'))) as Hsecond.
  { unfold second. rewrite Hw1.
    unfold dispatch_notification, bind at 1, check_ratelimit_now.
    rewrite Hdenied. reflexivity. }
  rewrite Hsecond, Hw1. cbn [fst snd w_db w_sends].
  split; [reflexivity|]. split; [reflexivity|]. split; [reflexivity|].
  intros Hunsent Hne.
  rewrite unsent_nids_In in Hunsent. destruct Hunsent as [Hrow Hnone].
  rewrite unsent_nids_In, Hnot, Hact, map_app, in_app_iff.
  split; [exact Hrow|]. intros [Hin|Hin]; [exact (Hnone Hin)|].
  apply in_map_iff in Hin as (a & Heq & Ha).
  destruct (sent_summary_fields n1 _ new Hsum) as [_ Hfields].
  rewrite Forall_forall in Hfields.
  apply list_elem_of_In in Ha. destruct (Hfields a Ha) as (Hnid & _).
  apply Hne. congruence.
Qed.

End CycleRateLimit.

Lemma second_low_waits_in_cycle_witness :
  let w1 := snd (dispatch_notification example_clock example_json_loads
                   working_mock "bob" {[ "vote" := [("mock", "")] ]}
                   (vote_to "n1" "bob") two_votes_world) in
  let second := dispatch_notification example_clock example_json_loads
                  working_mock "bob" {[ "vote" := [("mock", "")] ]}
                  (vote_to "n2" "bob") w1 in
  fst second = Ret tt
  /\ w_sends (snd second) = w_sends w1
  /\ w_db (snd second) = w_db w1
  /\ (In (n_nid (vote_to "n2" "bob")) (unsent_nids (w_db two_votes_world)) ->
      n_nid (vote_to "n2" "bob") <> n_nid (vote_to "n1" "bob") ->
      In (n_nid (vote_to "n2" "bob")) (unsent_nids (w_db (snd second)))).
Proof.
  apply (second_low_waits_in_cycle example_clock example_json_loads working_mock
           "bob" {[ "vote" := [("mock", "")] ]} (vote_to "n1" "bob")
           (vote_to "n2" "bob") [("mock", "")] (JObj []) two_votes_world).
  - reflexivity.
  - reflexivity.
  - reflexivity.
  - reflexivity.
  - reflexivity.
  - reflexivity.
  - vm_compute. reflexivity.
  - vm_compute. discriminate.
  - intros i j _ Hij Hj. unfold example_clock, timedelta_seconds.
    simpl in Hj. lia.
Defined.

(** ** The wwwpoll table *)









Lemma update_wwwpoll_rows (db : WwwpollDb) (now : datetime) (nid : string)
    (set : WwwpollRow -> datetime -> WwwpollRow) (P : WwwpollRow -> WwwpollRow -> Prop) :
  wwwpoll_ok db = true ->
  (forall r, P r (if String.eqb (wp_nid r) nid then set r now else r)) ->
  fst (update_wwwpoll db now nid set) = true
  /\ wwwpoll_ok (snd (update_wwwpoll db now nid set)) = true
  /\ Forall2 P (wwwpoll db) (wwwpoll (snd (update_wwwpoll db now nid set))).
Proof.
  intros Hok HP. unfold update_wwwpoll. rewrite Hok. cbn [fst snd wwwpoll wwwpoll_ok].
  split; [reflexivity|]. split; [reflexivity|].
  induction (wwwpoll db) as [|r rows IH]; cbn [map]; constructor;
    [apply HP|exact IH].
Qed.

Lemma same_content_refl (r : WwwpollRow) : same_content r r.
Proof. unfold same_content. repeat apply conj; reflexivity. Qed.

Lemma set_read_flag (nid : string) (now : datetime) (value : bool) (r : WwwpollRow) :
  flag_set nid now wp_read wp_shown value r
    (if String.eqb (wp_nid r) nid then set_read value r now else r).
Proof.
  unfold flag_set. destruct (String.eqb (wp_nid r) nid).
  - split; [unfold same_content; repeat apply conj; reflexivity|].
    split; [reflexivity|]. split; reflexivity.
  - split; [apply same_content_refl|]. split; reflexivity.
Qed.

Lemma set_shown_flag (nid : string) (now : datetime) (value : bool) (r : WwwpollRow) :
  flag_set nid now wp_shown wp_read value r
    (if String.eqb (wp_nid r) nid then set_shown value r now else r).
Proof.
  unfold flag_set. destruct (String.eqb (wp_nid r) nid).
  - split; [unfold same_content; repeat apply conj; reflexivity|].
    split; [reflexivity|]. split; reflexivity.
  - split; [apply same_content_refl|]. split; reflexivity.
Qed.

Lemma Forall2_unchanged {A} (P : A -> A -> Prop) (l l' : list A) :
  Forall2 P l l' ->
  (forall r r', In r l -> P r r' -> r' = r) ->
  l' = l.
Proof.
  intros H. induction H as [|r r' l l' Hr _ IH]; intros Hsame; [reflexivity|].
  f_equal.
  - apply (Hsame r r'); [left; reflexivity|exact Hr].
  - apply IH. intros x x' Hx. apply Hsame. right. exact Hx.
Qed.

(** X28.  The four mark functions of the wwwpoll table touch one flag
    of the rows with the given nid and nothing else: on a store that
    answers each returns [True], keeps every row in its place with its
    content, sets the flag and the time of update on the rows with the
    nid, and leaves the other flag and all other rows as they were.
    [True] is also the answer for a nid no row has, and the table is
    then unchanged. *)
Theorem wwwpoll_marks_touch_one_flag (db : WwwpollDb) (now : datetime)
    (nid : string) (value : bool) :
  wwwpoll_ok db = true ->
  let read := mark_read_as value db now nid in
  let shown := mark_shown_as value db now nid in
  fst read = true
  /\ fst shown = true
  /\ Forall2 (flag_set nid now wp_read wp_shown value)
       (wwwpoll db) (wwwpoll (snd read))
  /\ Forall2 (flag_set nid now wp_shown wp_read value)
       (wwwpoll db) (wwwpoll (snd shown))
  /\ (~ In nid (map wp_nid (wwwpoll db)) -> snd read = db /\ snd shown = db).
Proof.
  intros Hok read shown.
  assert (fst read = true
          /\ wwwpoll_ok (snd read) = true
          /\ Forall2 (flag_set nid now wp_read wp_shown value)
               (wwwpoll db) (wwwpoll (snd read))) as (Hr1 & Hr2 & Hr3).
  { unfold read, mark_read_as.
    destruct value; apply update_wwwpoll_rows; try exact Hok;
      intros r; apply set_read_flag. }
  assert (fst shown = true
          /\ wwwpoll_ok (snd shown) = true
          /\ Forall2 (flag_set nid now wp_shown wp_read value)
               (wwwpoll db) (wwwpoll (snd shown))) as (Hs1 & Hs2 & Hs3).
  { unfold shown, mark_shown_as.
    destruct value; apply update_wwwpoll_rows; try exact Hok;
      intros r; apply set_shown_flag. }
  split; [exact Hr1|]. split; [exact Hs1|].
  split; [exact Hr3|]. split; [exact Hs3|].
  intros Hnone.
  assert (forall flag other r r',
            In r (wwwpoll db) -> flag_set nid now flag other value r r' -> r' = r)
    as Hkeep.
  { intros flag other r r' Hin (_ & _ & Hcase).
    destruct (String.eqb_spec (wp_nid r) nid) as [Heq|_]; [|exact Hcase].
    exfalso. apply Hnone. apply in_map_iff. exists r. split; assumption. }
  split.
  - destruct (snd read) as [rows ok]. cbn [wwwpoll wwwpoll_ok] in *.
    destruct db as [rows0 ok0]. cbn [wwwpoll wwwpoll_ok] in *.
    f_equal; [|congruence].
    apply (Forall2_unchanged _ _ _ Hr3). apply Hkeep.
  - destruct (snd shown) as [rows ok]. cbn [wwwpoll wwwpoll_ok] in *.
    destruct db as [rows0 ok0]. cbn [wwwpoll wwwpoll_ok] in *.
    f_equal; [|congruence].
    apply (Forall2_unchanged _ _ _ Hs3). apply Hkeep.
Qed.

Lemma wwwpoll_marks_touch_one_flag_witness :
  let read := mark_read_as true one_row_wwwpoll 9 "w1" in
  let shown := mark_shown_as true one_row_wwwpoll 9 "w1" in
  fst read = true
  /\ fst shown = true
  /\ Forall2 (flag_set "w1" 9 wp_read wp_shown true)
       (wwwpoll one_row_wwwpoll) (wwwpoll (snd read))
  /\ Forall2 (flag_set "w1" 9 wp_shown wp_read true)
       (wwwpoll one_row_wwwpoll) (wwwpoll (snd shown))
  /\ (~ In "w1" (map wp_nid (wwwpoll one_row_wwwpoll)) ->
      snd read = one_row_wwwpoll /\ snd shown = one_row_wwwpoll).
Proof.
  apply (wwwpoll_marks_touch_one_flag one_row_wwwpoll 9 "w1" true). reflexivity.
Defined.

Lemma sql_limit_submseteq {A} (limit : option Z) (rows : list A) :
  sql_limit limit rows ⊆+ rows.
Proof.
  unfold sql_limit. destruct limit as [n|]; [|reflexivity].
  destruct (n <? 0); [reflexivity|].
  apply sublist_submseteq, sublist_take.
Qed.

Lemma filter_submseteq {A} (f : A -> bool) (rows : list A) :
  List.filter f rows ⊆+ rows.
Proof.
  induction rows as [|r rows IH]; cbn [List.filter]; [constructor|].
  destruct (f r); [apply submseteq_skip|apply submseteq_cons]; exact IH.
Qed.

Lemma query_where_answers (q : NotificationQuery)
    (created_before updated_after : option datetime) (r : WwwpollRow) :
  query_where (given (q_to_username q)) created_before updated_after (q_read q)
    (q_notify_types q) r = true ->
  answers q created_before updated_after r.
Proof.
  unfold query_where, answers. intros H.
  apply andb_true_iff in H as [H Htypes].
  apply andb_true_iff in H as [H Hread].
  apply andb_true_iff in H as [H Hupdated].
  apply andb_true_iff in H as [Hto Hcreated].
  split; [|split; [|split; [|split]]].
  - intros u Hu. rewrite Hu in Hto. apply String.eqb_eq. exact Hto.
  - intros t ->. apply Z.leb_le. exact Hcreated.
  - intros t ->. apply Z.leb_le. exact Hupdated.
  - intros Hq. rewrite Hq in Hread. apply Bool.eqb_prop. exact Hread.
  - intros ts Hq Hne. rewrite Hq in Htypes.
    destruct ts as [|t ts]; [congruence|].
    apply existsb_exists in Htypes as (x & Hin & Hx).
    apply String.eqb_eq in Hx. rewrite Hx. exact Hin.
Qed.

(** X29.  What [get_wwwpoll_notifications] answers when no nid is asked
    for, the dates parse and the store answers.  With [notify_types]
    given and a [Select] without [filter] the answer is [[]].
    Otherwise it is a list of rows of the table, each taken at most as
    often as the table holds it, in the order of the engine; no longer
    than a limit that is not negative, and all the matching rows without
    one; each row is addressed to the user asked for, of one of the
    types asked for, and read if [read=True] was asked.
    [created_before] keeps the rows created at or after the date and
    [updated_after] the rows updated at or before it; asking for
    [read=False] filters nothing, the answer is the one given without
    [read]. *)
Theorem query_returns_matching_rows (parse : string -> option datetime)
    (scan : list WwwpollRow -> list WwwpollRow) (select_filter : bool)
    (db : WwwpollDb) (q : NotificationQuery)
    (created_before updated_after : option datetime) :
  (forall rows, scan rows ≡ₚ rows) ->
  wwwpoll_ok db = true ->
  given (q_nid q) = None ->
  parse_given parse (q_created_before q) = inr created_before ->
  parse_given parse (q_updated_after q) = inr updated_after ->
  let answer := get_wwwpoll_notifications parse scan select_filter db q in
  let matching := List.filter
                    (query_where (given (q_to_username q)) created_before
                       updated_after (q_read q) (q_notify_types q))
                    (wwwpoll db) in
  (types_given (q_notify_types q) = true -> select_filter = false ->
   answer = RowList [])
  /\ (types_given (q_notify_types q) = false \/ select_filter = true ->
      exists rows,
        answer = RowList rows
        /\ rows ⊆+ wwwpoll db
        /\ (forall n, q_limit q = Some n -> 0 <= n ->
              Z.of_nat (length rows) <= n)
        /\ (q_limit q = None -> rows ≡ₚ matching)
        /\ Forall (answers q created_before updated_after) rows)
  /\ get_wwwpoll_notifications parse scan select_filter db
       (with_read q (Some false))
     = get_wwwpoll_notifications parse scan select_filter db (with_read q None).
Proof.
  intros Hscan Hok Hnid Hcb Hua answer matching.
  unfold answer, get_wwwpoll_notifications.
  cbn [with_read q_nid q_to_username q_created_before q_updated_after q_read
       q_notify_types q_limit].
  rewrite Hnid, Hcb, Hua, Hok.
  split; [|split].
  - intros -> ->. reflexivity.
  - intros Hfilter.
    assert (types_given (q_notify_types q) && negb select_filter = false) as ->.
    { destruct Hfilter as [-> | ->]; [reflexivity|apply andb_false_r]. }
    fold matching.
    assert (sql_limit (q_limit q) (scan matching) ⊆+ matching) as Hsub.
    { etransitivity; [apply sql_limit_submseteq|].
      rewrite (Hscan matching). reflexivity. }
    eexists. split; [reflexivity|]. split; [|split; [|split]].
    + etransitivity; [exact Hsub|apply filter_submseteq].
    + intros n Hn Hpos. rewrite Hn. unfold sql_limit.
      destruct (Z.ltb_spec n 0); [lia|].
      rewrite length_firstn. lia.
    + intros ->. cbn [sql_limit]. apply Hscan.
    + apply Forall_forall. intros r Hr.
      apply query_where_answers.
      assert (r ∈ matching) as Hin
        by (eapply elem_of_submseteq; [exact Hr|exact Hsub]).
      apply list_elem_of_In in Hin. unfold matching in Hin.
      apply filter_In in Hin as [_ Hwhere]. exact Hwhere.
  - reflexivity.
Qed.

Lemma query_returns_matching_rows_witness :
  let answer := get_wwwpoll_notifications never_parses (fun rows => rows) true
                  one_row_wwwpoll default_query in
  let matching := List.filter
                    (query_where (given (q_to_username default_query)) None None
                       (q_read default_query) (q_notify_types default_query))
                    (wwwpoll one_row_wwwpoll) in
  (types_given (q_notify_types default_query) = true -> true = false ->
   answer = RowList [])
  /\ (types_given (q_notify_types default_query) = false \/ true = true ->
      exists rows,
        answer = RowList rows
        /\ rows ⊆+ wwwpoll one_row_wwwpoll
        /\ (forall n, q_limit default_query = Some n -> 0 <= n ->
              Z.of_nat (length rows) <= n)
        /\ (q_limit default_query = None -> rows ≡ₚ matching)
        /\ Forall (answers default_query None None) rows)
  /\ get_wwwpoll_notifications never_parses (fun rows => rows) true
       one_row_wwwpoll (with_read default_query (Some false))
     = get_wwwpoll_notifications never_parses (fun rows => rows) true
         one_row_wwwpoll (with_read default_query None).
Proof.
  apply (query_returns_matching_rows never_parses (fun rows => rows) true
           one_row_wwwpoll default_query None None); reflexivity.
Defined.
